(** * biz_opps: graph construction and classification engine

    A shallow embedding of the ETL core of the repository (validation,
    graph-store upserts, geometric containment, enrichment classification,
    entity builders) together with the properties its specification states.

    Layout: the Python value model and its operators; one module per source
    file; reference instances of the external interfaces; the observations
    and example inputs the statements use; the properties. *)

From Stdlib Require Import ZArith Floats Ascii String.
From stdpp Require Import gmap strings list pretty.

Set Warnings "-inexact-float".

Local Open Scope string_scope.
Local Open Scope Z_scope.

(** ** Python values

    Property values, rows and the JSON schema document are all dynamically
    typed.  A [dict] keeps its insertion order, which the loops over
    [.items()] observe, so it is an association list with unique keys. *)

#[warnings="-register-all"]
Inductive pyval : Type :=
  | VNone
  | VBool (b : bool)
  | VInt (z : Z)
  | VFloat (f : float)
  | VStr (s : string)
  | VList (l : list pyval)
  | VDict (d : list (string * pyval)).

Abbreviation pydict := (list (string * pyval)).

(** ** Exceptions *)

Inductive exn_class : Type :=
  | ValueError
  | TypeError
  | KeyError
  | AttributeError
  | ZeroDivisionError
  | OverflowError
  | Exception.

Record exn : Type := mk_exn { exn_type : exn_class; exn_msg : string }.

Inductive result (A : Type) : Type :=
  | Ok (a : A)
  | Raise (e : exn).

Arguments Ok {A} a.
Arguments Raise {A} e.

Definition bind {A B : Type} (m : result A) (k : A -> result B) : result B :=
  match m with
  | Ok a => k a
  | Raise e => Raise e
  end.

Notation "'let*' x ':=' m 'in' k" := (bind m (fun x => k))
  (at level 10, x name, m at level 200, k at level 200).

Definition raise {A : Type} (c : exn_class) (msg : string) : result A :=
  Raise (mk_exn c msg).

(** [if cond: raise ...], followed by the rest of the block. *)
Definition raise_if (cond : bool) (c : exn_class) (msg : string) : result unit :=
  if cond then raise c msg else Ok tt.

Definition is_ok {A : Type} (r : result A) : bool :=
  match r with Ok _ => true | Raise _ => false end.

(** The builtins that produce or read text: [str], the text of a [set] of
    strings inside an f-string, and [int].  The exact renderings (shortest
    round-trip floats, the order of a set) are the interpreter's; the model
    takes them as an interface. *)
Class Builtins : Type := {
  py_str : pyval -> string;
  py_set_text : list string -> string;
  py_int : pyval -> result Z
}.

Definition type_name (v : pyval) : string :=
  match v with
  | VNone => "NoneType"
  | VBool _ => "bool"
  | VInt _ => "int"
  | VFloat _ => "float"
  | VStr _ => "str"
  | VList _ => "list"
  | VDict _ => "dict"
  end.

Definition no_attribute {A : Type} (v : pyval) (attr : string) : result A :=
  raise AttributeError
    ("'" ++ type_name v ++ "' object has no attribute '" ++ attr ++ "'").

(** ** Dictionaries *)

Fixpoint dict_lookup (k : string) (d : pydict) : option pyval :=
  match d with
  | [] => None
  | (k', v) :: d' => if String.eqb k k' then Some v else dict_lookup k d'
  end.

(** [d[k] = v]: an existing key keeps its position. *)
Fixpoint dict_set (k : string) (v : pyval) (d : pydict) : pydict :=
  match d with
  | [] => [(k, v)]
  | (k', v') :: d' =>
      if String.eqb k k' then (k, v) :: d' else (k', v') :: dict_set k v d'
  end.

Definition dict_keys (d : pydict) : list string := map fst d.

Definition dict_has (k : string) (d : pydict) : bool :=
  match dict_lookup k d with Some _ => true | None => false end.

(** [d.get(k)] on a dict: [None] when the key is absent. *)
Definition dict_get (k : string) (d : pydict) : pyval :=
  match dict_lookup k d with Some v => v | None => VNone end.

(** [{k: d[k] for k in keys}]: a missing key raises [KeyError]. *)
Fixpoint dict_select (keys : list string) (d : pydict) (acc : pydict)
  : result pydict :=
  match keys with
  | [] => Ok acc
  | k :: ks =>
      match dict_lookup k d with
      | Some v => dict_select ks d (dict_set k v acc)
      | None => raise KeyError ("'" ++ k ++ "'")
      end
  end.

(** [x.get(k)] on an arbitrary value. *)
Definition py_get (x : pyval) (k : string) : result pyval :=
  match x with
  | VDict d => Ok (dict_get k d)
  | _ => no_attribute x "get"
  end.

(** [x[k]] with a string key. *)
Definition py_getitem (x : pyval) (k : string) : result pyval :=
  match x with
  | VDict d =>
      match dict_lookup k d with
      | Some v => Ok v
      | None => raise KeyError ("'" ++ k ++ "'")
      end
  | VStr _ => raise TypeError "string indices must be integers"
  | VList _ => raise TypeError "list indices must be integers or slices, not str"
  | _ => raise TypeError ("'" ++ type_name x ++ "' object is not subscriptable")
  end.

Definition py_keys (x : pyval) : result (list string) :=
  match x with
  | VDict d => Ok (dict_keys d)
  | _ => no_attribute x "keys"
  end.

Definition py_items (x : pyval) : result pydict :=
  match x with
  | VDict d => Ok d
  | _ => no_attribute x "items"
  end.

(** Truth value testing. *)
Definition truthy (v : pyval) : bool :=
  match v with
  | VNone => false
  | VBool b => b
  | VInt z => negb (z =? 0)
  | VFloat f => negb (f =? 0)%float
  | VStr s => negb (String.eqb s "")
  | VList l => match l with [] => false | _ => true end
  | VDict d => match d with [] => false | _ => true end
  end.

Definition is_none (v : pyval) : bool :=
  match v with VNone => true | _ => false end.

(** ** Numbers

    [bool] is a subclass of [int]; [int] is unbounded; [float] is IEEE
    binary64.  Comparisons between an [int] and a [float] are exact. *)

Inductive number : Type :=
  | NInt (z : Z)
  | NFloat (f : float).

Definition as_number (v : pyval) : option number :=
  match v with
  | VBool b => Some (NInt (Z.b2z b))
  | VInt z => Some (NInt z)
  | VFloat f => Some (NFloat f)
  | _ => None
  end.

(** Three-way comparison of an integer with a float, [None] on NaN. *)
Definition Z_compare_float (z : Z) (f : float) : option comparison :=
  match Prim2SF f with
  | S754_nan => None
  | S754_infinity s => Some (if s then Gt else Lt)
  | S754_zero _ => Some (z ?= 0)
  | S754_finite s m e =>
      let sm := if s then Z.neg m else Z.pos m in
      if 0 <=? e then Some (z ?= sm * 2 ^ e)
      else Some (z * 2 ^ (- e) ?= sm)
  end.

Definition number_ltb (a b : number) : bool :=
  match a, b with
  | NInt x, NInt y => x <? y
  | NFloat x, NFloat y => (x <? y)%float
  | NInt x, NFloat y =>
      match Z_compare_float x y with Some Lt => true | _ => false end
  | NFloat x, NInt y =>
      match Z_compare_float y x with Some Gt => true | _ => false end
  end.

Definition number_eqb (a b : number) : bool :=
  match a, b with
  | NInt x, NInt y => x =? y
  | NFloat x, NFloat y => (x =? y)%float
  | NInt x, NFloat y | NFloat y, NInt x =>
      match Z_compare_float x y with Some Eq => true | _ => false end
  end.

Definition number_leb (a b : number) : bool :=
  match a, b with
  | NInt x, NInt y => x <=? y
  | NFloat x, NFloat y => (x <=? y)%float
  | _, _ => number_ltb a b || number_eqb a b
  end.

Definition unorderable {A : Type} (op : string) (a b : pyval) : result A :=
  raise TypeError
    ("'" ++ op ++ "' not supported between instances of '" ++ type_name a
     ++ "' and '" ++ type_name b ++ "'").

(** [a < b].  Ordering is defined on numbers and on strings; every other
    pairing of the types above that the code base compares raises. *)
Definition py_lt (a b : pyval) : result bool :=
  match as_number a, as_number b with
  | Some x, Some y => Ok (number_ltb x y)
  | _, _ =>
      match a, b with
      | VStr s, VStr t => Ok (String.ltb s t)
      | _, _ => unorderable "<" a b
      end
  end.

Definition py_le (a b : pyval) : result bool :=
  match as_number a, as_number b with
  | Some x, Some y => Ok (number_leb x y)
  | _, _ =>
      match a, b with
      | VStr s, VStr t => Ok (String.leb s t)
      | _, _ => unorderable "<=" a b
      end
  end.

Definition py_gt (a b : pyval) : result bool :=
  match as_number a, as_number b with
  | Some x, Some y => Ok (number_ltb y x)
  | _, _ =>
      match a, b with
      | VStr s, VStr t => Ok (String.ltb t s)
      | _, _ => unorderable ">" a b
      end
  end.

(** [a == b] *)
Fixpoint py_eq (a b : pyval) {struct a} : bool :=
  match as_number a, as_number b with
  | Some x, Some y => number_eqb x y
  | _, _ =>
      match a, b with
      | VNone, VNone => true
      | VStr s, VStr t => String.eqb s t
      | VList l, VList l' =>
          (fix all2 (xs ys : list pyval) {struct xs} : bool :=
             match xs, ys with
             | [], [] => true
             | x :: xs', y :: ys' => py_eq x y && all2 xs' ys'
             | _, _ => false
             end) l l'
      | VDict d, VDict d' =>
          (length d =? length d')%nat
          && (fix sub (xs : pydict) {struct xs} : bool :=
                match xs with
                | [] => true
                | (k, v) :: xs' =>
                    match dict_lookup k d' with
                    | Some v' => py_eq v v' && sub xs'
                    | None => false
                    end
                end) d
      | _, _ => false
      end
  end.

(** Correctly rounded conversion of an [int] to a [float]. *)
Definition float_of_Z (z : Z) : float :=
  SF2Prim (binary_normalize prec emax z 0 false).

Definition to_float (n : number) : result float :=
  match n with
  | NFloat f => Ok f
  | NInt z =>
      let f := float_of_Z z in
      if is_infinity f
      then raise OverflowError "int too large to convert to float"
      else Ok f
  end.

Definition unsupported {A : Type} (op : string) (a b : pyval) : result A :=
  raise TypeError
    ("unsupported operand type(s) for " ++ op ++ ": '" ++ type_name a
     ++ "' and '" ++ type_name b ++ "'").

(** [a + b] on numbers. *)
Definition py_add (a b : pyval) : result pyval :=
  match as_number a, as_number b with
  | Some (NInt x), Some (NInt y) => Ok (VInt (x + y))
  | Some x, Some y =>
      let* fx := to_float x in let* fy := to_float y in Ok (VFloat (fx + fy)%float)
  | _, _ => unsupported "+" a b
  end.

(** [a / b] on numbers: true division, raising on a zero divisor.  Both
    operands are converted to [float]; for two [int]s below 2^53 in
    magnitude this is the interpreter's correctly rounded quotient. *)
Definition py_truediv (a b : pyval) : result pyval :=
  match as_number a, as_number b with
  | Some x, Some y =>
      if number_eqb y (NInt 0)
      then raise ZeroDivisionError
             (match x, y with
              | NInt _, NInt _ => "division by zero"
              | _, _ => "float division by zero"
              end)
      else let* fx := to_float x in let* fy := to_float y in Ok (VFloat (fx / fy)%float)
  | _, _ => unsupported "/" a b
  end.

(** An entity handed to the validator and the builders:
    [{"label": ..., "properties": {...}}]. *)
Record entity : Type := mk_entity {
  label : string;
  properties : pydict
}.

(** ** neo4j/validation.py *)

Module Validation.

(** [isinstance(x, (int, float))] *)
Definition is_int_or_float (x : pyval) : bool :=
  match x with VBool _ | VInt _ | VFloat _ => true | _ => false end.

(** The [VALIDATORS] table applied to one argument.  The [ENUM] entry
    takes two arguments, so the one-argument call of [validate_property]
    raises; a name outside the table falls back to [lambda x: False]. *)
Definition VALIDATORS (type_tag : string) (x : pyval) : result bool :=
  if String.eqb type_tag "STRING" then
    Ok (match x with VStr _ => true | _ => false end)
  else if String.eqb type_tag "INTEGER" then
    Ok (match x with VInt _ | VBool _ => true | _ => false end)
  else if String.eqb type_tag "FLOAT" then
    Ok (is_int_or_float x)
  else if String.eqb type_tag "BOOLEAN" then
    Ok (match x with VBool _ => true | _ => false end)
  else if String.eqb type_tag "POINT" then
    Ok (match x with
        | VDict d =>
            match dict_lookup "latitude" d with
            | Some lat =>
                is_int_or_float lat
                && match dict_lookup "longitude" d with
                   | Some lon => is_int_or_float lon
                   | None => false
                   end
            | None => false
            end
        | _ => false
        end)
  else if String.eqb type_tag "LIST" then
    Ok (match x with VList _ => true | _ => false end)
  else if String.eqb type_tag "MAP" then
    Ok (match x with VDict _ => true | _ => false end)
  else if String.eqb type_tag "ENUM" then
    raise TypeError
      "<lambda>() missing 1 required positional argument: 'allowed_values'"
  else Ok false.

(** The case mapping of ASCII text: the letters a-z change and nothing
    else does.  [str.upper] agrees with it on ASCII strings; it also maps
    letters outside ASCII, which stay as they are here. *)
Definition upper_ascii (a : ascii) : ascii :=
  let n := nat_of_ascii a in
  if ((97 <=? n) && (n <=? 122))%nat then ascii_of_nat (n - 32) else a.

Fixpoint upper_string (s : string) : string :=
  match s with
  | EmptyString => EmptyString
  | String a s' => String (upper_ascii a) (upper_string s')
  end.

(** [x.upper()] *)
Definition py_upper (x : pyval) : result string :=
  match x with
  | VStr s => Ok (upper_string s)
  | _ => no_attribute x "upper"
  end.

Fixpoint is_substring (s t : string) : bool :=
  String.prefix s t
  || match t with
     | EmptyString => false
     | String _ t' => is_substring s t'
     end.

(** [x not in container] *)
Definition py_not_in (x container : pyval) : result bool :=
  match container with
  | VList l => Ok (negb (existsb (py_eq x) l))
  | VDict d =>
      match x with
      | VStr k => Ok (negb (dict_has k d))
      | VList _ | VDict _ =>
          raise TypeError ("unhashable type: '" ++ type_name x ++ "'")
      | _ => Ok true
      end
  | VStr t =>
      match x with
      | VStr s => Ok (negb (is_substring s t))
      | _ =>
          raise TypeError
            ("'in <string>' requires string as left operand, not "
             ++ type_name x)
      end
  | _ =>
      raise TypeError
        ("argument of type '" ++ type_name container ++ "' is not iterable")
  end.

Section WithBuiltins.
Context `{Builtins}.

Definition validate_property (node_or_rel_data : entity)
    (property_name : string) (property_constraints : pyval) : result unit :=
  let property_value := dict_get property_name (properties node_or_rel_data) in
  let* exists_ := py_get property_constraints "exists" in
  let* property_type := py_get property_constraints "type" in
  let* enum := py_get property_constraints "enum" in
  let* numeric_range := py_get property_constraints "range" in
  (* Check if the property must exist *)
  if truthy exists_ && is_none property_value then
    raise ValueError
      ("Property '" ++ property_name ++ "' must exist but is missing.")
  (* Skip validation *)
  else if negb (truthy exists_) && is_none property_value then
    Ok tt
  else
    (* Validate type if specified *)
    let* _ :=
    (if truthy property_type then
       let* tag := py_upper property_type in
       let* ok := VALIDATORS tag property_value in
       raise_if (negb ok) TypeError
         ("Property '" ++ property_name ++ "' must be of type "
          ++ py_str property_type ++ ", but got <class '"
          ++ type_name property_value ++ "'>.")
     else Ok tt) in
    (* Validate allowed values if specified *)
    let* _ :=
    (if truthy enum then
       let* outside := py_not_in property_value enum in
       raise_if outside ValueError
         ("Property '" ++ property_name ++ "' must be one of "
          ++ py_str enum ++ ", but got " ++ py_str property_value ++ ".")
     else Ok tt) in
    (* Validate numeric ranges *)
    if truthy numeric_range then
      let* min_value := py_get numeric_range "min" in
      let* max_value := py_get numeric_range "max" in
      let* _ :=
      (if negb (is_none min_value) then
         let* below := py_lt property_value min_value in
         raise_if below ValueError
           ("Property '" ++ property_name
            ++ "' must be greater than or equal to " ++ py_str min_value
            ++ ".")
       else Ok tt) in
      (if negb (is_none max_value) then
         let* above := py_gt property_value max_value in
         raise_if above ValueError
           ("Property '" ++ property_name
            ++ "' must be less than or equal to " ++ py_str max_value
            ++ ".")
       else Ok tt)
    else Ok tt.

(** The set comprehension building [missing_properties]; it walks the
    items of the label's schema entry. *)
Fixpoint missing_properties (items : pydict) (data : pydict)
  : result (list string) :=
  match items with
  | [] => Ok []
  | (key, value) :: rest =>
      let* e := py_get value "exists" in
      let* more := missing_properties rest data in
      Ok (if truthy e && negb (dict_has key data) then key :: more
          else more)
  end.

Fixpoint validate_each (node_or_rel_data : entity) (items : pydict)
  : result unit :=
  match items with
  | [] => Ok tt
  | (property_name, property_constraints) :: rest =>
      let* _ := validate_property node_or_rel_data property_name property_constraints in
      validate_each node_or_rel_data rest
  end.

Definition validate_data (node_or_rel_data : entity) (constraints : pyval)
    (is_relationship : bool) : result unit :=
  let label := label node_or_rel_data in
  let* section := py_get constraints
              (if negb is_relationship then "nodes" else "relationships") in
  let* node_or_rel_constraints := py_get section label in
  if negb (truthy node_or_rel_constraints) then
    raise ValueError ("No constraints found for label '" ++ label ++ "'.")
  else
    (* Check for extra properties in the data that are not in the schema *)
    let node_or_rel_property_keys := dict_keys (properties node_or_rel_data) in
    let* schema := py_getitem node_or_rel_constraints "properties" in
    let* schema_property_keys := py_keys schema in
    let extra_properties :=
      filter (fun k => k ∉ schema_property_keys) node_or_rel_property_keys in
    if bool_decide (extra_properties ≠ []) then
      raise ValueError
        ("Extra properties found in data: " ++ py_set_text extra_properties)
    else
      (* Check for missing properties that are required by the schema *)
      let* items := py_items node_or_rel_constraints in
      let* missing := missing_properties items (properties node_or_rel_data) in
      if bool_decide (missing ≠ []) then
        raise ValueError
          ("Missing required properties: " ++ py_set_text missing)
      else
        (* Validate each property against its constraints *)
        validate_each node_or_rel_data items.

End WithBuiltins.

End Validation.

(** ** The graph store

    The backing engine as the queries of the code base see it: labelled
    nodes and typed, directed relationships, each with a property map, and
    the spatial extension's named layers.  Relationships form a list: the
    store itself allows parallel relationships of one type, and [MERGE] is
    what keeps them unique. *)

Record node : Type := mk_node {
  node_id : nat;
  node_label : string;
  node_props : gmap string pyval
}.

Record relationship : Type := mk_rel {
  rel_start : nat;
  rel_type : string;
  rel_end : nat;
  rel_props : gmap string pyval
}.

Inductive layer_class : Type :=
  | WKTLayer (geometry_property : string)
  | PointLayer.

Record layer : Type := mk_layer {
  layer_kind : layer_class;
  layer_members : list nat
}.

Record graph : Type := mk_graph {
  nodes : list node;
  rels : list relationship;
  layers : gmap string layer;
  next_id : nat
}.

Definition empty_graph : graph := mk_graph [] [] ∅ 0.

Module Cypher.

(** Values the store accepts for a property: 64-bit integers, floats,
    booleans, strings and lists of those. *)
Definition scalar (v : pyval) : bool :=
  match v with
  | VBool _ | VFloat _ | VStr _ => true
  | VInt z => (- 2 ^ 63 <=? z) && (z <? 2 ^ 63)
  | _ => false
  end.

Definition storable (v : pyval) : bool :=
  match v with
  | VList l => forallb scalar l
  | _ => scalar v
  end.

(** Equality of a stored property with a query parameter in a pattern
    [{k: $k}]; [null] equals nothing. *)
Definition scalar_eqb (a b : pyval) : bool :=
  match a, b with
  | VBool x, VBool y => Bool.eqb x y
  | VStr s, VStr t => String.eqb s t
  | (VInt _ | VFloat _), (VInt _ | VFloat _) =>
      match as_number a, as_number b with
      | Some x, Some y => number_eqb x y
      | _, _ => false
      end
  | _, _ => false
  end.

Definition eqb (a b : pyval) : bool :=
  match a, b with
  | VList l, VList l' =>
      (length l =? length l')%nat
      && forallb (fun xy => scalar_eqb xy.1 xy.2) (zip l l')
  | _, _ => scalar_eqb a b
  end.

(** [(n:label {k1: $k1, ...})] against the parameters of the query. *)
Definition matches (label : string) (keys : list string) (params : pydict)
    (n : node) : bool :=
  String.eqb (node_label n) label
  && forallb (fun k => match node_props n !! k, dict_lookup k params with
                       | Some v, Some p => eqb v p
                       | _, _ => false
                       end) keys.

(** One assignment of [SET x += {k: v}]: a [null] removes the property. *)
Definition set_prop (m : gmap string pyval) (kv : string * pyval)
  : gmap string pyval :=
  match kv.2 with
  | VNone => delete kv.1 m
  | v => <[kv.1 := v]> m
  end.

(** [SET x += $map] *)
Definition set_add (m : gmap string pyval) (d : pydict) : gmap string pyval :=
  foldl set_prop m d.

(** [SET x = $map] *)
Definition set_replace (d : pydict) : gmap string pyval :=
  set_add ∅ d.

Definition settable (d : pydict) : bool :=
  forallb (fun kv => is_none kv.2 || storable kv.2) d.

Definition between (a : nat) (type : string) (b : nat) (r : relationship)
  : bool :=
  (rel_start r =? a)%nat && String.eqb (rel_type r) type
  && (rel_end r =? b)%nat.

(** The relationships of one type from [a] to [b]. *)
Definition rels_between (a : nat) (type : string) (b : nat)
    (rs : list relationship) : list relationship :=
  filter (fun r => between a type b r) rs.

(** [MERGE (a)-[r:type]->(b) SET r = $map] for one row [(a, b)]: every
    relationship of that type from [a] to [b] is bound, one is created
    when there is none, and the properties of each bound relationship are
    replaced. *)
Definition merge_rel (type : string) (d : pydict) (rs : list relationship)
    (ab : nat * nat) : list relationship :=
  if existsb (between ab.1 type ab.2) rs then
    map (fun r => if between ab.1 type ab.2 r
                  then mk_rel (rel_start r) (rel_type r) (rel_end r)
                         (set_replace d)
                  else r) rs
  else rs ++ [mk_rel ab.1 type ab.2 (set_replace d)].

(** [MATCH (a)-[r:type]->(b) SET r += $map] for one row [(a, b)]. *)
Definition update_rel (type : string) (d : pydict) (rs : list relationship)
    (ab : nat * nat) : list relationship :=
  map (fun r => if between ab.1 type ab.2 r
                then mk_rel (rel_start r) (rel_type r) (rel_end r)
                       (set_add (rel_props r) d)
                else r) rs.

(** The rows of two consecutive [MATCH] clauses. *)
Definition pairs (xs ys : list node) : list (nat * nat) :=
  x ← xs; y ← ys; [(node_id x, node_id y)].

(** Values the driver can send as a query parameter: its integers are
    64-bit, at any depth. *)
Fixpoint sendable (v : pyval) : bool :=
  match v with
  | VInt z => (- 2 ^ 63 <=? z) && (z <? 2 ^ 63)
  | VList l => forallb sendable l
  | VDict d =>
      (fix all (xs : pydict) {struct xs} : bool :=
         match xs with
         | [] => true
         | (_, x) :: xs' => sendable x && all xs'
         end) d
  | _ => true
  end.

(** [MATCH (n ...) DETACH DELETE n] for the nodes [doomed] selects: they
    go, and with them every relationship attached to them, the references
    of the spatial layers included. *)
Definition detach_delete (doomed : node -> bool) (g : graph) : graph :=
  let gone := map node_id (filter (fun n => doomed n) (nodes g)) in
  mk_graph
    (filter (fun n => negb (doomed n)) (nodes g))
    (filter (fun r => negb (bool_decide (rel_start r ∈ gone)
                           || bool_decide (rel_end r ∈ gone))) (rels g))
    ((fun l => mk_layer (layer_kind l)
                 (filter (fun i => i ∉ gone) (layer_members l))) <$> layers g)
    (next_id g).

End Cypher.

(** ** neo4j/construction.py *)

Module Construction.

(** [bool(x)] of a node or relationship handle of the driver: a mapping
    over its properties. *)
Definition handle_truthy (props : gmap string pyval) : bool :=
  bool_decide (props ≠ ∅).

(** [create_node]: [MERGE (n:label {keys}) SET n += $remaining_props
    RETURN n].  The result is the graph and the node handle, [None]
    standing for the [False] of the [except] branch. *)
Definition create_node (g : graph) (label : string) (properties : pydict)
    (match_keys : option (list string)) : graph * option node :=
  match match_keys with
  | None => (g, None)
  | Some keys =>
      match dict_select keys properties [] with
      | Raise _ => (g, None)
      | Ok merge_props =>
          let remaining_props :=
            filter (fun kv => kv.1 ∉ keys) properties in
          let params :=
            dict_set "remaining_props" (VDict remaining_props) merge_props in
          let pattern :=
            omap (fun k => pair k <$> dict_lookup k params) (dict_keys merge_props) in
          if negb (forallb (fun kv => Cypher.storable kv.2) pattern
                   && Cypher.settable remaining_props)
          then (g, None)
          else
            let hit n := Cypher.matches label (dict_keys merge_props) params n in
            let update n :=
              mk_node (node_id n) (node_label n)
                (Cypher.set_add (node_props n) remaining_props) in
            match filter hit (nodes g) with
            | [] =>
                let n := update (mk_node (next_id g) label (list_to_map pattern)) in
                (mk_graph (nodes g ++ [n]) (rels g) (layers g) (S (next_id g)),
                 Some n)
            | n :: _ =>
                (mk_graph (map (fun n => if hit n then update n else n) (nodes g))
                   (rels g) (layers g) (next_id g),
                 Some (update n))
            end
      end
  end.

(** The rows of [MATCH (a:start_label {...}) MATCH (b:end_label {...})]
    under the parameters [{**start, **end, name: value}] that both
    relationship functions build; a match key missing from its properties
    raises [KeyError] before any query runs. *)
Definition endpoint_rows (g : graph)
    (start_label : string) (start_props : pydict) (start_match_keys : list string)
    (end_label : string) (end_props : pydict) (end_match_keys : list string)
    (name : string) (value : pyval) : result (list (nat * nat)) :=
  let* start_params := dict_select start_match_keys start_props [] in
  let* params := dict_select end_match_keys end_props start_params in
  let params := dict_set name value params in
  Ok (Cypher.pairs
        (filter (fun n => Cypher.matches start_label start_match_keys params n)
                (nodes g))
        (filter (fun n => Cypher.matches end_label end_match_keys params n)
                (nodes g))).

(** [create_relationship]: two [MATCH]es, then [MERGE (a)-[r:type]->(b)
    SET r = $rel_properties RETURN r].  Nothing raises across this
    function; the flag is its return value. *)
Definition create_relationship (g : graph)
    (start_label : string) (start_props : pydict) (start_match_keys : list string)
    (end_label : string) (end_props : pydict) (end_match_keys : list string)
    (rel_type : string) (rel_properties : option pydict) : graph * bool :=
  let rel_properties := default [] rel_properties in
  match endpoint_rows g start_label start_props start_match_keys
          end_label end_props end_match_keys
          "rel_properties" (VDict rel_properties) with
  | Raise _ => (g, false)
  | Ok rows =>
      if negb (Cypher.settable rel_properties) then (g, false)
      else
        (mk_graph (nodes g)
           (foldl (Cypher.merge_rel rel_type rel_properties) (rels g) rows)
           (layers g) (next_id g),
         match rows with
         | [] => false
         | _ => handle_truthy (Cypher.set_replace rel_properties)
         end)
  end.

(** [update_relationship_properties]: [MATCH (a)-[r:type]->(b)
    SET r += $new_properties]; [True] unless something raised. *)
Definition update_relationship_properties (g : graph)
    (start_label : string) (start_props : pydict) (start_match_keys : list string)
    (end_label : string) (end_props : pydict) (end_match_keys : list string)
    (rel_type : string) (new_properties : pydict) : graph * bool :=
  match endpoint_rows g start_label start_props start_match_keys
          end_label end_props end_match_keys
          "new_properties" (VDict new_properties) with
  | Raise _ => (g, false)
  | Ok rows =>
      if negb (Cypher.settable new_properties) then (g, false)
      else
        (mk_graph (nodes g)
           (foldl (Cypher.update_rel rel_type new_properties) (rels g) rows)
           (layers g) (next_id g),
         true)
  end.

(** A local name read before anything was assigned to it: an
    [UnboundLocalError], which is an [Exception]. *)
Definition unbound_local {A : Type} (name : string) : result A :=
  raise Exception
    ("cannot access local variable '" ++ name
     ++ "' where it is not associated with a value").

(** [delete_node]: a [COUNT] query, then [MATCH (n:label {keys})
    DETACH DELETE n].  Without match keys (or with an empty list of them)
    every property is a key.  A key missing from [properties] raises inside
    the [try]; the handler prints [match_props], which is unassigned then,
    so that second exception leaves the function. *)
Definition delete_node (g : graph) (label : string) (properties : pydict)
    (match_keys : option (list string)) : graph * result bool :=
  (* Determine which properties to use for matching *)
  match
    match match_keys with
    | Some (k :: ks) => dict_select (k :: ks) properties []
    | _ => Ok properties
    end
  with
  | Raise _ => (g, unbound_local "match_props")
  | Ok match_props =>
      if negb (forallb (fun kv => Cypher.sendable kv.2) match_props) then
        (g, Ok false)
      else
        let hit n := Cypher.matches label (dict_keys match_props) match_props n in
        (* First check if the node exists *)
        let count := length (filter hit (nodes g)) in
        if (count =? 0)%nat then (g, Ok false)
        (* If node exists, delete it and its relationships *)
        else (Cypher.detach_delete hit g, Ok true)
  end.

(** [delete_nodes_by_label]: [MATCH (n:label) DETACH DELETE n]. *)
Definition delete_nodes_by_label (g : graph) (label : string) : graph :=
  Cypher.detach_delete (fun n => String.eqb (node_label n) label) g.

(** [delete_relationship]: [MATCH (a:start {...})-[r:type]->(b:end {...})
    DELETE r] under the parameters [{**start, **end}]; [False] when a match
    key is missing or a parameter cannot be sent. *)
Definition delete_relationship (g : graph)
    (start_label : string) (start_props : pydict) (start_match_keys : list string)
    (end_label : string) (end_props : pydict) (end_match_keys : list string)
    (rel_type : string) : graph * bool :=
  match
    let* start_match_props := dict_select start_match_keys start_props [] in
    dict_select end_match_keys end_props start_match_props
  with
  | Raise _ => (g, false)
  | Ok params =>
      if negb (forallb (fun kv => Cypher.sendable kv.2) params) then (g, false)
      else
        let rows :=
          Cypher.pairs
            (filter (fun n => Cypher.matches start_label start_match_keys params n)
                    (nodes g))
            (filter (fun n => Cypher.matches end_label end_match_keys params n)
                    (nodes g)) in
        (mk_graph (nodes g)
           (filter (fun r => negb (existsb (fun ab => Cypher.between ab.1 rel_type ab.2 r)
                                     rows)) (rels g))
           (layers g) (next_id g),
         true)
  end.

(** [delete_relationships_by_type]: [MATCH ()-[r:type]->() DELETE r]. *)
Definition delete_relationships_by_type (g : graph) (type : string)
  : graph * bool :=
  (mk_graph (nodes g)
     (filter (fun r => negb (String.eqb (rel_type r) type)) (rels g))
     (layers g) (next_id g),
   true).

End Construction.

(** ** neo4j/spatial.py

    What the spatial extension decides on its own (whether it can read a
    geometry, whether two geometries intersect) is an interface; the layer
    registry it maintains is part of the graph. *)

Class SpatialExtension : Type := {
  (** the extension reads a geometry for a layer of this class off a node *)
  encodable : layer_class -> gmap string pyval -> bool;
  (** the extension reads a geometry off a query argument *)
  readable : pyval -> bool;
  (** the member node's geometry intersects the query argument *)
  intersects : layer_class -> gmap string pyval -> pyval -> bool
}.

Module Spatial.

Definition init_wkt_layer (g : graph) (layer_name : string)
    (geometry_property_name : string) : graph * bool :=
  match layers g !! layer_name with
  | Some _ => (g, true)
  | None =>
      (mk_graph (nodes g) (rels g)
         (<[layer_name := mk_layer (WKTLayer geometry_property_name) []]> (layers g))
         (next_id g),
       true)
  end.

Definition init_point_layer (g : graph) (layer_name : string) : graph * bool :=
  match layers g !! layer_name with
  | Some _ => (g, true)
  | None =>
      (mk_graph (nodes g) (rels g)
         (<[layer_name := mk_layer PointLayer []]> (layers g)) (next_id g),
       true)
  end.

(** [MATCH (n) WHERE elementId(n) = $node_id CALL spatial.addNode(...)]:
    [False] when the node is gone, the layer is unknown or the extension
    rejects the node. *)
Definition add_node_to_spatial_layer `{SpatialExtension} (g : graph)
    (n : node) (layer_name : string) : graph * bool :=
  match filter (fun m => (node_id m =? node_id n)%nat) (nodes g),
        layers g !! layer_name with
  | m :: _, Some l =>
      if encodable (layer_kind l) (node_props m) then
        (mk_graph (nodes g) (rels g)
           (<[layer_name :=
                mk_layer (layer_kind l)
                  (if bool_decide (node_id m ∈ layer_members l)
                   then layer_members l
                   else layer_members l ++ [node_id m])]> (layers g))
           (next_id g),
         true)
      else (g, false)
  | _, _ => (g, false)
  end.

End Spatial.

(** ** The planar geometry library

    Parsing of well-known text and the area, intersection and containment
    computations belong to the geometry library; [geom_area] is a Python
    [float]. *)

Class Shapely : Type := {
  geometry : Type;
  wkt_loads : pyval -> result geometry;
  geom_area : geometry -> float;
  geom_intersection : geometry -> geometry -> result geometry;
  geom_point : pyval -> pyval -> result geometry;
  geom_contains : geometry -> geometry -> bool
}.

(** [x / y] on two [float]s. *)
Definition float_truediv (x y : float) : result float :=
  if (y =? 0)%float then raise ZeroDivisionError "float division by zero"
  else Ok (x / y)%float.

(** The state every builder loop threads: the graph, [success_count] and
    [failed_instances]. *)
Record batch : Type := mk_batch {
  store : graph;
  success_count : Z;
  failed_instances : list pydict
}.

(** ** etl/administrative_topology.py *)

Module AdministrativeTopology.

(** The raw zipcode geometry table: the [ZIP] and [the_geom] cells of each
    row, and whether the [the_geom] column is there at all. *)
Record zipcode_table : Type := mk_zipcode_table {
  has_the_geom : bool;
  zip_rows : list (pyval * pyval)
}.

(** [Series.explode()]: a list cell contributes its elements, an empty
    list contributes one NaN, any other cell stays. *)
Definition explode (cells : list pyval) : list pyval :=
  c ← cells;
  match c with
  | VList [] => [VFloat nan]
  | VList l => l
  | x => [x]
  end.

Section WithInterfaces.
Context `{Builtins} `{SpatialExtension} `{Shapely}.

(** [set(column.explode().astype(str).unique())] *)
Definition referenced (cells : list pyval) : gset string :=
  list_to_set (map py_str (explode cells)).

Definition combined_zipcodes (zipcode_df : zipcode_table)
    (city_zipcodes neighborhood_zipcodes : list pyval) : gset string :=
  referenced city_zipcodes
  ∪ referenced neighborhood_zipcodes
  ∪ list_to_set (map (fun row => py_str row.1) (zip_rows zipcode_df)).

Definition zipcode_properties (zipcode_df : zipcode_table) (zipcode : string)
  : pydict :=
  let properties := [("zipcode_number", VStr zipcode)] in
  (* Add WKT if available in zipcode_df *)
  let zipcode_row :=
    filter (fun row => py_str row.1 = zipcode) (zip_rows zipcode_df) in
  match zipcode_row with
  | row :: _ =>
      if has_the_geom zipcode_df then dict_set "wkt" row.2 properties
      else properties
  | [] => properties
  end.

(** The [try] block of one iteration: the graph after it, and how it
    ended. *)
Definition try_zipcode (constraints : pyval) (g : graph) (properties : pydict)
  : graph * result unit :=
  match Validation.validate_data (mk_entity "Zipcode" properties) constraints false with
  | Raise e => (g, Raise e)
  | Ok _ =>
      let (g1, zipcode_node) :=
        Construction.create_node g "Zipcode" properties (Some ["zipcode_number"]) in
      match zipcode_node with
      | None => (g1, raise Exception "Failed to create Zipcode node")
      | Some n =>
          if negb (Construction.handle_truthy (node_props n)) then
            (g1, raise Exception "Failed to create Zipcode node")
          (* Add to spatial layer if WKT exists *)
          else if dict_has "wkt" properties then
            let (g2, added) :=
              Spatial.add_node_to_spatial_layer g1 n "zipcode_layer" in
            if negb added then
              (g2, raise Exception "Failed to add Zipcode node to spatial layer")
            else (g2, Ok tt)
          else (g1, Ok tt)
      end
  end.

Definition zipcode_step (constraints : pyval) (zipcode_df : zipcode_table)
    (st : batch) (zipcode : string) : batch :=
  let properties := zipcode_properties zipcode_df zipcode in
  match try_zipcode constraints (store st) properties with
  | (g, Ok _) =>
      mk_batch g (success_count st + 1) (failed_instances st)
  | (g, Raise e) =>
      mk_batch g (success_count st)
        (failed_instances st
         ++ [[("zipcode", default (VStr "") (dict_lookup "zipcode_number" properties));
              ("error", VStr (exn_msg e))]])%list
  end.

Definition create_zipcode_nodes (g : graph) (constraints : pyval)
    (zipcode_df : zipcode_table)
    (city_zipcodes neighborhood_zipcodes : list pyval) : batch :=
  (* Initialize spatial layer *)
  let g0 := (Spatial.init_wkt_layer g "zipcode_layer" "wkt").1 in
  foldl (zipcode_step constraints zipcode_df) (mk_batch g0 0 [])
    (elements (combined_zipcodes zipcode_df city_zipcodes neighborhood_zipcodes)).

(** One row of the spatial intersection query. *)
Record intersection_record : Type := mk_record {
  block_group : pyval;
  bg_wkt : pyval;
  zipcode : pyval;
  z_wkt : pyval
}.

Definition prop_of (n : node) (k : string) : pyval :=
  default VNone (node_props n !! k).

(** The [RETURN] clause. *)
Definition record_of (bg zip : node) : intersection_record :=
  mk_record (prop_of bg "ct_block_group") (prop_of bg "wkt")
    (prop_of zip "zipcode_number") (prop_of zip "wkt").

(** The rows a [BlockGroup] contributes: the [Zipcode] members of
    [zipcode_layer] that the extension says intersect its geometry. *)
Definition intersecting (g : graph) (l : layer) (bg : node) : list node :=
  filter (fun z => bool_decide (node_id z ∈ layer_members l)
                   && String.eqb (node_label z) "Zipcode"
                   && intersects (layer_kind l) (node_props z) (prop_of bg "wkt"))
         (nodes g).

Fixpoint query_rows (g : graph) (bgs : list node)
  : result (list (node * node)) :=
  match bgs with
  | [] => Ok []
  | bg :: rest =>
      match layers g !! "zipcode_layer" with
      | None => raise Exception "spatial.intersects: no such layer"
      | Some l =>
          if negb (readable (prop_of bg "wkt")) then
            raise Exception "spatial.intersects: invalid geometry"
          else
            let* more := query_rows g rest in
            Ok (map (pair bg) (intersecting g l bg) ++ more)%list
      end
  end.

(** The (BlockGroup, Zipcode) pairs the spatial intersection query finds,
    the query being evaluated as a whole. *)
Definition intersecting_pairs (g : graph) : result (list (node * node)) :=
  query_rows g
    (filter (fun n => String.eqb (node_label n) "BlockGroup") (nodes g)).

Definition intersection_query (g : graph) : result (list intersection_record) :=
  let* found := intersecting_pairs g in
  Ok (map (fun p => record_of p.1 p.2) found).

Definition containment_type (overlap_ratio : float) : string :=
  if (0.95 <? overlap_ratio)%float then "Full" else "Partial".

Definition overlap_ratio_of (bg_geom z_geom : geometry) : result float :=
  let* inter := geom_intersection bg_geom z_geom in
  let intersection_area := geom_area inter in
  let bg_area := geom_area bg_geom in
  float_truediv intersection_area bg_area.

(** The inner [try] block for one record. *)
Definition try_record (g : graph) (record : intersection_record)
  : graph * result unit :=
  match
    let* bg_geom := wkt_loads (bg_wkt record) in
    let* z_geom := wkt_loads (z_wkt record) in
    overlap_ratio_of bg_geom z_geom
  with
  | Raise e => (g, Raise e)
  | Ok overlap_ratio =>
      let (g', _) :=
        Construction.create_relationship g
          "BlockGroup" [("ct_block_group", block_group record)] ["ct_block_group"]
          "Zipcode" [("zipcode_number", zipcode record)] ["zipcode_number"]
          "IS_WITHIN"
          (Some [("containment_type", VStr (containment_type overlap_ratio));
                 ("overlap_ratio", VFloat overlap_ratio)]) in
      (g', Ok tt)
  end.

Definition record_step (st : batch) (record : intersection_record) : batch :=
  match try_record (store st) record with
  | (g, Ok _) => mk_batch g (success_count st + 1) (failed_instances st)
  | (g, Raise e) =>
      mk_batch g (success_count st)
        (failed_instances st
         ++ [[("block_group", block_group record);
              ("zipcode", zipcode record);
              ("error", VStr (exn_msg e))]])%list
  end.

(** [create_block_group_zipcode_intersection]: the final batch and the
    returned flag ([False] when the query itself fails). *)
Definition create_block_group_zipcode_intersection (g : graph) : batch * bool :=
  match intersection_query g with
  | Raise _ => (mk_batch g 0 [], false)
  | Ok result => (foldl record_step (mk_batch g 0 []) result, true)
  end.

(** [row[column]] on a row of [df.iterrows()]. *)
Definition row_cell (row : pydict) (column : string) : result pyval :=
  py_getitem (VDict row) column.

(** A [for] loop whose body may end the function by raising: the batch at
    that point, and how the loop ended. *)
Fixpoint loop {A : Type} (body : batch -> A -> batch * result unit)
    (st : batch) (items : list A) : batch * result unit :=
  match items with
  | [] => (st, Ok tt)
  | x :: rest =>
      match body st x with
      | (st', Ok _) => loop body st' rest
      | (st', Raise e) => (st', Raise e)
      end
  end.

Definition city_properties (row : pydict) : result pydict :=
  let* id := row_cell row "id" in
  let* city := row_cell row "city" in
  let* state_name := row_cell row "state_name" in
  let* county := row_cell row "county" in
  let* is_unincorporated_place := row_cell row "is_unincorporated_place" in
  Ok [("city_id", VStr (py_str id));
      ("city_name", VStr (py_str city));
      ("state_name", VStr (py_str state_name));
      ("county", VStr (py_str county));
      ("is_unincorporated", VBool (truthy is_unincorporated_place))].

(** The [try] block of the two builders of plain nodes. *)
Definition try_plain (constraints : pyval) (g : graph) (label : string)
    (properties : pydict) (key : string) : graph * result unit :=
  match Validation.validate_data (mk_entity label properties) constraints false with
  | Raise e => (g, Raise e)
  | Ok _ =>
      let (g1, created) :=
        Construction.create_node g label properties (Some [key]) in
      match created with
      | None => (g1, raise Exception ("Failed to create " ++ label ++ " node"))
      | Some n =>
          if negb (Construction.handle_truthy (node_props n)) then
            (g1, raise Exception ("Failed to create " ++ label ++ " node"))
          else (g1, Ok tt)
      end
  end.

(** One iteration of [create_city_nodes]; the properties are read off the
    row before the [try]. *)
Definition city_step (constraints : pyval) (st : batch) (row : pydict)
  : batch * result unit :=
  match city_properties row with
  | Raise e => (st, Raise e)
  | Ok properties =>
      match try_plain constraints (store st) "City" properties "city_id" with
      | (g, Ok _) =>
          (mk_batch g (success_count st + 1) (failed_instances st), Ok tt)
      | (g, Raise e) =>
          (mk_batch g (success_count st)
             (failed_instances st
              ++ [[("city", default (VStr "") (dict_lookup "city_name" properties));
                   ("error", VStr (exn_msg e))]])%list,
           Ok tt)
      end
  end.

Definition create_city_nodes (g : graph) (constraints : pyval)
    (df : list pydict) : batch * result unit :=
  loop (city_step constraints) (mk_batch g 0 []) df.

Definition neighborhood_properties (row : pydict) : result pydict :=
  let* id := row_cell row "id" in
  let* community := row_cell row "community" in
  Ok [("neighborhood_id", VStr (py_str id));
      ("neighborhood_name", community)].

Definition neighborhood_step (constraints : pyval) (st : batch) (row : pydict)
  : batch * result unit :=
  match neighborhood_properties row with
  | Raise e => (st, Raise e)
  | Ok properties =>
      match try_plain constraints (store st) "Neighborhood" properties
              "neighborhood_id" with
      | (g, Ok _) =>
          (mk_batch g (success_count st + 1) (failed_instances st), Ok tt)
      | (g, Raise e) =>
          (mk_batch g (success_count st)
             (failed_instances st
              ++ [[("neighborhood",
                    default (VStr "") (dict_lookup "neighborhood_name" properties));
                   ("error", VStr (exn_msg e))]])%list,
           Ok tt)
      end
  end.

Definition create_neighborhood_nodes (g : graph) (constraints : pyval)
    (df : list pydict) : batch * result unit :=
  loop (neighborhood_step constraints) (mk_batch g 0 []) df.

(** What the two relationship builders link a row to: the end label and
    its match key, the relationship and its properties, and the key under
    which a failure lists the item. *)
Record link_kind : Type := mk_link {
  end_label : string;
  end_key : string;
  link_type : string;
  link_properties : option pydict;
  failure_key : string
}.

(** One [try] block of a relationship builder for the row of [owner]
    ([City] or [Neighborhood]): the row's [id] is read inside it, and the
    handler reads the row's name column. *)
Definition attempt (owner owner_key name_column owner_failure_key : string)
    (row : pydict) (kind : link_kind) (st : batch) (item : pyval)
  : batch * result unit :=
  match row_cell row "id" with
  | Ok id =>
      let (g, _) :=
        Construction.create_relationship (store st)
          owner [(owner_key, VStr (py_str id))] [owner_key]
          (end_label kind) [(end_key kind, VStr (py_str item))] [end_key kind]
          (link_type kind) (link_properties kind) in
      (mk_batch g (success_count st + 1) (failed_instances st), Ok tt)
  | Raise e =>
      match row_cell row name_column with
      | Ok name =>
          (mk_batch (store st) (success_count st)
             (failed_instances st
              ++ [[(owner_failure_key, name); (failure_key kind, item);
                   ("error", VStr (exn_msg e))]])%list,
           Ok tt)
      | Raise e' => (st, Raise e')
      end
  end.

(** [cell = row[column]; if isinstance(cell, list) and cell: for item in
    cell: ...], the link depending on the cell. *)
Definition for_listed (row : pydict) (column : string)
    (body : pyval -> batch -> pyval -> batch * result unit)
    (st : batch) : batch * result unit :=
  match row_cell row column with
  | Raise e => (st, Raise e)
  | Ok (VList (x :: l)) => loop (body (VList (x :: l))) st (x :: l)
  | Ok _ => (st, Ok tt)
  end.

(** The rest of a loop body after a block that may have raised. *)
Definition and_then (r : batch * result unit)
    (k : batch -> batch * result unit) : batch * result unit :=
  match r with
  | (st, Ok _) => k st
  | (st, Raise e) => (st, Raise e)
  end.

(** ["Full" if len(row["zipcodes"]) == 1 else "Partial"] *)
Definition containment_by_count (zipcodes : pyval) : string :=
  match zipcodes with
  | VList [_] => "Full"
  | _ => "Partial"
  end.

Definition within_zipcode (zipcodes : pyval) : link_kind :=
  mk_link "Zipcode" "zipcode_number" "IS_WITHIN"
    (Some [("containment_type", VStr (containment_by_count zipcodes))])
    "zipcode".

Definition city_relationships_step (st : batch) (row : pydict)
  : batch * result unit :=
  let attempt := attempt "City" "city_id" "city" "city" row in
  (* Create CITY->IS_WITHIN->ZIPCODE relationships *)
  and_then (for_listed row "zipcodes"
              (fun zipcodes => attempt (within_zipcode zipcodes)) st) (fun st =>
  (* Create CITY->HAS_NEIGHBORHOOD->NEIGHBORHOOD relationships *)
  and_then (for_listed row "neighborhoods"
              (fun _ => attempt
                 (mk_link "Neighborhood" "neighborhood_name" "HAS_NEIGHBORHOOD"
                    None "neighborhood")) st) (fun st =>
  (* Create CITY->HAS_NEIGHBOR->CITY relationships for incorporated cities *)
  and_then (for_listed row "neighboring_cities"
              (fun _ => attempt
                 (mk_link "City" "city_name" "HAS_NEIGHBOR"
                    (Some [("neighbor_type", VStr "City")])
                    "neighboring_city")) st) (fun st =>
  (* Create CITY->HAS_NEIGHBOR->CITY relationships for unincorporated places *)
  and_then (for_listed row "neighboring_unincorporated_places"
              (fun _ => attempt
                 (mk_link "City" "city_name" "HAS_NEIGHBOR"
                    (Some [("neighbor_type", VStr "City")])
                    "neighboring_unincorporated")) st) (fun st =>
  (* Create CITY->HAS_NEARBY->CITY relationships for incorporated cities *)
  and_then (for_listed row "nearby_cities"
              (fun _ => attempt
                 (mk_link "City" "city_name" "HAS_NEARBY"
                    (Some [("nearby_type", VStr "City")])
                    "nearby_city")) st) (fun st =>
  (* Create CITY->HAS_NEARBY->CITY relationships for unincorporated places *)
  for_listed row "nearby_unincorporated_places"
    (fun _ => attempt
       (mk_link "City" "city_name" "HAS_NEARBY"
          (Some [("nearby_type", VStr "City")])
          "nearby_unincorporated")) st))))).

Definition create_city_relationships (g : graph) (df : list pydict)
  : batch * result unit :=
  loop city_relationships_step (mk_batch g 0 []) df.

Definition neighborhood_relationships_step (st : batch) (row : pydict)
  : batch * result unit :=
  let attempt :=
    attempt "Neighborhood" "neighborhood_id" "community" "neighborhood" row in
  (* Create NEIGHBORHOOD->IS_WITHIN->ZIPCODE relationships *)
  and_then (for_listed row "zipcodes"
              (fun zipcodes => attempt (within_zipcode zipcodes)) st) (fun st =>
  (* Create NEIGHBORHOOD->HAS_NEIGHBOR->NEIGHBORHOOD relationships *)
  and_then (for_listed row "neighboring_communities"
              (fun _ => attempt
                 (mk_link "Neighborhood" "neighborhood_name" "HAS_NEIGHBOR"
                    (Some [("neighbor_type", VStr "Neighborhood")])
                    "neighboring_community")) st) (fun st =>
  (* Create NEIGHBORHOOD->HAS_NEIGHBOR->CITY relationships *)
  and_then (for_listed row "neighboring_cities"
              (fun _ => attempt
                 (mk_link "City" "city_name" "HAS_NEIGHBOR"
                    (Some [("neighbor_type", VStr "City")])
                    "neighboring_city")) st) (fun st =>
  (* Create NEIGHBORHOOD->HAS_NEARBY->NEIGHBORHOOD relationships *)
  and_then (for_listed row "nearby_communities"
              (fun _ => attempt
                 (mk_link "Neighborhood" "neighborhood_name" "HAS_NEARBY"
                    (Some [("nearby_type", VStr "Neighborhood")])
                    "nearby_community")) st) (fun st =>
  (* Create NEIGHBORHOOD->HAS_NEARBY->CITY relationships *)
  for_listed row "nearby_cities"
    (fun _ => attempt
       (mk_link "City" "city_name" "HAS_NEARBY"
          (Some [("nearby_type", VStr "City")])
          "nearby_city")) st)))).

Definition create_neighborhood_relationships (g : graph) (df : list pydict)
  : batch * result unit :=
  loop neighborhood_relationships_step (mk_batch g 0 []) df.

End WithInterfaces.

End AdministrativeTopology.

(** ** etl/geoenrichment.py *)

Module GeoEnrichment.

(** What every [determine_*] function returns: the category combinations
    and, position by position, their source values. *)
Abbreviation buckets := (list pydict * list pyval)%type.

(** [row[column]] *)
Definition row_get (row : pydict) (column : string) : result pyval :=
  py_getitem (VDict row) column.

(** [row[c1] + row[c2] + ...], evaluated left to right. *)
Fixpoint row_sum_from (row : pydict) (acc : pyval) (columns : list string)
  : result pyval :=
  match columns with
  | [] => Ok acc
  | c :: cs =>
      let* v := row_get row c in
      let* acc' := py_add acc v in
      row_sum_from row acc' cs
  end.

Definition row_sum (row : pydict) (first : string) (others : list string)
  : result pyval :=
  let* v := row_get row first in
  row_sum_from row v others.

Definition determine_population_level (value : pyval) : result buckets :=
  let source_value := value in
  let* category :=
    (let* c1 := py_lt value (VInt 1000) in
     if c1 then Ok "LOW" else
     let* c2 := py_le value (VInt 2000) in
     if c2 then Ok "MEDIUM" else Ok "HIGH") in
  Ok ([[("level", VStr category)]], [source_value]).

Definition determine_growth_rate (value : pyval) : result buckets :=
  let source_value := value in
  let* category :=
    (let* c1 := py_lt value (VInt 0) in
     if c1 then Ok "NEGATIVE" else
     let* c2 := py_le value (VInt 1) in
     if c2 then Ok "LOW" else
     let* c3 := py_le value (VInt 2) in
     if c3 then Ok "MODERATE" else
     let* c4 := py_le value (VInt 3) in
     if c4 then Ok "HIGH" else Ok "VERY_HIGH") in
  Ok ([[("growth_rate", VStr category)]], [source_value]).

Definition determine_age_average (value : pyval) : result buckets :=
  let source_value := value in
  let* category :=
    (let* c1 := py_lt value (VInt 5) in
     if c1 then Ok "0-4" else
     let* c2 := py_lt value (VInt 15) in
     if c2 then Ok "5-14" else
     let* c3 := py_lt value (VInt 25) in
     if c3 then Ok "15-24" else
     let* c4 := py_lt value (VInt 45) in
     if c4 then Ok "25-44" else
     let* c5 := py_lt value (VInt 65) in
     if c5 then Ok "45-64" else Ok "65+") in
  Ok ([[("group", VStr category)]], [source_value]).

(** The inner [get_representation_level] of the age-group classifier. *)
Definition age_representation_level (x : pyval) : result string :=
  let* c1 := py_lt x (VFloat 0.05) in
  if c1 then Ok "VERY_LOW" else
  let* c2 := py_lt x (VFloat 0.10) in
  if c2 then Ok "LOW" else
  let* c3 := py_lt x (VFloat 0.20) in
  if c3 then Ok "MODERATE" else
  let* c4 := py_lt x (VFloat 0.30) in
  if c4 then Ok "HIGH" else Ok "DOMINANT".

Definition age_group_aggregations (row : pydict) : result pydict :=
  let* g0 := row_sum row "male0" ["fem0"] in
  let* g5 := row_sum row "male5" ["male10"; "fem5"; "fem10"] in
  let* g15 := row_sum row "male15" ["male20"; "fem15"; "fem20"] in
  let* g25 := row_sum row "male25"
          ["male30"; "male35"; "male40"; "fem25"; "fem30"; "fem35"; "fem40"] in
  let* g45 := row_sum row "male45"
          ["male50"; "male55"; "male60"; "fem45"; "fem50"; "fem55"; "fem60"] in
  let* g65 := row_sum row "male65"
          ["male70"; "male75"; "male80"; "male85";
           "fem65"; "fem70"; "fem75"; "fem80"; "fem85"] in
  Ok [("0-4", g0); ("5-14", g5); ("15-24", g15); ("25-44", g25);
      ("45-64", g45); ("65+", g65)].

(** The [else] loop shared by both representation classifiers: one
    division per entry. *)
Fixpoint represent (key : string) (level_of : pyval -> result string)
    (total : pyval) (entries : pydict) : result buckets :=
  match entries with
  | [] => Ok (([], []) : buckets)
  | (name, amount) :: rest =>
      let* representation := py_truediv amount total in
      let* representation_level := level_of representation in
      let* more := represent key level_of total rest in
      Ok (([(key, VStr name); ("representation", VStr representation_level)]
             :: more.1,
           representation :: more.2) : buckets)
  end.

(** The zero-population branch: every entry at the lowest level. *)
Definition represent_default (key : string) (entries : pydict) : buckets :=
  (map (fun e => [(key, VStr e.1); ("representation", VStr "VERY_LOW")]) entries,
   map (fun _ => VFloat 0) entries).

Definition determine_age_group_representations (row : pydict) : result buckets :=
  let* total_population := row_get row "totpop_cy" in
  let* age_group_aggregations := age_group_aggregations row in
  (* Handle zero total population *)
  if py_eq total_population (VInt 0) then
    Ok (represent_default "group" age_group_aggregations)
  else
    represent "group" age_representation_level total_population
      age_group_aggregations.

Definition determine_wealth_category (value : pyval) : result buckets :=
  let source_value := value in
  let* category :=
    (let* c1 := py_le value (VFloat 0.2) in
     if c1 then Ok "LOW" else
     let* c2 := py_le value (VFloat 0.4) in
     if c2 then Ok "LOWER_MIDDLE" else
     let* c3 := py_le value (VFloat 0.6) in
     if c3 then Ok "MIDDLE" else
     let* c4 := py_le value (VFloat 0.8) in
     if c4 then Ok "UPPER_MIDDLE" else Ok "HIGH") in
  Ok ([[("category", VStr category)]], [source_value]).

(** The inner [get_representation_level] of the education classifier. *)
Definition education_representation_level (x : pyval) : result string :=
  let* c1 := py_lt x (VFloat 0.05) in
  if c1 then Ok "VERY_LOW" else
  let* c2 := py_lt x (VFloat 0.15) in
  if c2 then Ok "LOW" else
  let* c3 := py_lt x (VFloat 0.30) in
  if c3 then Ok "MODERATE" else
  let* c4 := py_lt x (VFloat 0.50) in
  if c4 then Ok "HIGH" else Ok "VERY_HIGH".

Definition education_levels (row : pydict) : result pydict :=
  let* basic := row_get row "BASIC" in
  let* secondary := row_get row "SECONDARY" in
  let* higher := row_get row "HIGHER" in
  Ok [("BASIC", basic); ("SECONDARY", secondary); ("HIGHER", higher)].

Definition determine_education_level (row : pydict) : result buckets :=
  let* education_levels := education_levels row in
  (* Check for zero total population *)
  let* total_pop := row_get row "totpop_cy" in
  if py_eq total_pop (VInt 0) then
    Ok (represent_default "level" education_levels)
  else
    represent "level" education_representation_level total_pop education_levels.

Definition determine_crime_level (value : pyval) : result buckets :=
  let source_value := value in
  let* category :=
    (let* c1 := py_lt value (VInt 80) in
     if c1 then Ok "SAFEST" else
     let* c2 := py_le value (VInt 119) in
     if c2 then Ok "SAFE" else
     let* c3 := py_le value (VInt 199) in
     if c3 then Ok "MODERATE" else
     let* c4 := py_le value (VInt 499) in
     if c4 then Ok "UNSAFE" else Ok "MOST_UNSAFE") in
  Ok ([[("category", VStr category)]], [source_value]).

Definition determine_spending_level (value : pyval) : result buckets :=
  let source_value := value in
  let* category :=
    (let* c1 := py_le value (VFloat 0.2) in
     if c1 then Ok "OCCASIONAL" else
     let* c2 := py_le value (VFloat 0.4) in
     if c2 then Ok "LIGHT_SPENDER" else
     let* c3 := py_le value (VFloat 0.6) in
     if c3 then Ok "REGULAR" else
     let* c4 := py_le value (VFloat 0.8) in
     if c4 then Ok "ENTHUSIAST" else Ok "SUPER_FAN") in
  Ok ([[("category", VStr category)]], [source_value]).

(** The [enrichments] dictionary of one row, in insertion order. *)
Definition enrichments (row : pydict) : result (list (string * buckets)) :=
  let* totpop := row_get row "totpop_cy" in
  let* e1 := determine_population_level totpop in
  let* growth := row_get row "popgrwcyfy" in
  let* e2 := determine_growth_rate growth in
  let* avg_age := row_get row "avg_age" in
  let* e3 := determine_age_average avg_age in
  let* e4 := determine_age_group_representations row in
  let* wealth := row_get row "normalized_wlthindxcy" in
  let* e5 := determine_wealth_category wealth in
  let* e6 := determine_education_level row in
  let* crime := row_get row "crmcytotc" in
  let* e7 := determine_crime_level crime in
  let* spending := row_get row "normalized_fastfoodspending" in
  let* e8 := determine_spending_level spending in
  Ok [("TotalPopulation", e1); ("PopulationGrowth", e2); ("AgeAverage", e3);
      ("AgeGroup", e4); ("WealthIndex", e5); ("EducationLevel", e6);
      ("CrimeIndex", e7); ("FastFoodSpendingIndex", e8)].

(** One (metric, bucket) pair with its source value, as the two nested
    loops enumerate them. *)
Record pairing : Type := mk_pairing {
  enrichment_type : string;
  combination : pydict;
  source_value : pyval
}.

Definition pairings (enrichments : list (string * buckets)) : list pairing :=
  e ← enrichments;
  cv ← zip e.2.1 e.2.2;
  [mk_pairing e.1 cv.1 cv.2].

(** [node_constraints[node_type]["properties"][property]["enum"]] *)
Definition enum_of (node_constraints : pyval) (node_type property : string)
  : result pyval :=
  let* schema := py_getitem node_constraints node_type in
  let* declared := py_getitem schema "properties" in
  let* constraint := py_getitem declared property in
  py_getitem constraint "enum".

(** The [enrichment_node_categories] dictionary, in insertion order. *)
Definition enrichment_node_categories (node_constraints : pyval)
  : result (list (string * pydict)) :=
  let* level := enum_of node_constraints "TotalPopulation" "level" in
  let* growth_rate := enum_of node_constraints "PopulationGrowth" "growth_rate" in
  let* average := enum_of node_constraints "AgeAverage" "group" in
  let* group := enum_of node_constraints "AgeGroup" "group" in
  let* group_representation := enum_of node_constraints "AgeGroup" "representation" in
  let* wealth := enum_of node_constraints "WealthIndex" "category" in
  let* education := enum_of node_constraints "EducationLevel" "level" in
  let* education_representation :=
    enum_of node_constraints "EducationLevel" "representation" in
  let* crime := enum_of node_constraints "CrimeIndex" "category" in
  let* spending := enum_of node_constraints "FastFoodSpendingIndex" "category" in
  Ok [("TotalPopulation", [("level", level)]);
      ("PopulationGrowth", [("growth_rate", growth_rate)]);
      ("AgeAverage", [("group", average)]);
      ("AgeGroup", [("group", group); ("representation", group_representation)]);
      ("WealthIndex", [("category", wealth)]);
      ("EducationLevel",
       [("level", education); ("representation", education_representation)]);
      ("CrimeIndex", [("category", crime)]);
      ("FastFoodSpendingIndex", [("category", spending)])].

(** The elements [itertools.product] draws from one of its arguments. *)
Definition py_iter (x : pyval) : result (list pyval) :=
  match x with
  | VList l => Ok l
  | VStr s => Ok (map (fun a => VStr (String a EmptyString)) (list_ascii_of_string s))
  | VDict d => Ok (map (fun kv => VStr kv.1) d)
  | _ => raise TypeError ("'" ++ type_name x ++ "' object is not iterable")
  end.

Fixpoint pools_of (enums : list pyval) : result (list (list pyval)) :=
  match enums with
  | [] => Ok []
  | x :: rest =>
      let* pool := py_iter x in
      let* more := pools_of rest in
      Ok (pool :: more)
  end.

(** [itertools.product]: the last pool varies fastest. *)
Fixpoint product (pools : list (list pyval)) : list (list pyval) :=
  match pools with
  | [] => [[]]
  | pool :: rest => x ← pool; combination ← product rest; [x :: combination]
  end.

(** The body of the inner loop of [create_enrichment_nodes]: a node upsert
    matched on every property, then an index declaration, which leaves
    nodes and relationships alone.  Neither call raises, so the count
    always advances. *)
Definition category_step (node_type : string) (property_names : list string)
    (st : batch) (combination : list pyval) : batch :=
  let properties := zip property_names combination in
  let (g, _) :=
    Construction.create_node (store st) node_type properties
      (Some (dict_keys properties)) in
  mk_batch g (success_count st + 1) (failed_instances st).

Fixpoint categories_loop (st : batch) (categories : list (string * pydict))
  : batch * result unit :=
  match categories with
  | [] => (st, Ok tt)
  | (node_type, enum_properties) :: rest =>
      let property_names := dict_keys enum_properties in
      (* Get all possible combinations of enum values *)
      match pools_of (map snd enum_properties) with
      | Raise e => (st, Raise e)
      | Ok pools =>
          (* Create node for each combination *)
          categories_loop
            (foldl (category_step node_type property_names) st (product pools))
            rest
      end
  end.

Definition create_enrichment_nodes (g : graph) (constraints : pyval)
  : batch * result unit :=
  match
    let* node_constraints := py_getitem constraints "nodes" in
    enrichment_node_categories node_constraints
  with
  | Raise e => (mk_batch g 0 [], Raise e)
  | Ok categories => categories_loop (mk_batch g 0 []) categories
  end.

Section WithBuiltins.
Context `{Builtins}.

(** The body of the innermost loop; [create_relationship] never raises,
    so its [except] branch is dead and the count always advances. *)
Definition link (ct_block_group : string) (st : batch) (p : pairing) : batch :=
  let (g, _) :=
    Construction.create_relationship (store st)
      "BlockGroup" [("ct_block_group", VStr ct_block_group)] ["ct_block_group"]
      (enrichment_type p) (combination p) (dict_keys (combination p))
      "HAS_ENRICHMENT"
      (Some [("source_value", VStr (py_str (source_value p)))]) in
  mk_batch g (success_count st + 1) (failed_instances st).

(** [str(int(row["tractce"])) + str(row["blkgrpce"])] *)
Definition ct_block_group_of (row : pydict) : result string :=
  let* tractce := row_get row "tractce" in
  let* tract := py_int tractce in
  let* blkgrpce := row_get row "blkgrpce" in
  Ok (py_str (VInt tract) ++ py_str blkgrpce).

(** One iteration of the outer loop.  The local [ct_block_group] outlives
    the iteration, so the failure entry of a row that raises before
    assigning it carries the previous row's value. *)
Definition enrich_row (st : batch * option string) (row : pydict)
  : batch * option string :=
  match ct_block_group_of row with
  | Raise e =>
      (mk_batch (store st.1) (success_count st.1)
         (failed_instances st.1
          ++ [[("block_group", VStr (default "unknown" st.2));
               ("error", VStr (exn_msg e))]])%list,
       st.2)
  | Ok ct_block_group =>
      match enrichments row with
      | Raise e =>
          (mk_batch (store st.1) (success_count st.1)
             (failed_instances st.1
              ++ [[("block_group", VStr ct_block_group);
                   ("error", VStr (exn_msg e))]])%list,
           Some ct_block_group)
      | Ok es => (foldl (link ct_block_group) st.1 (pairings es), Some ct_block_group)
      end
  end.

Definition create_enrichment_relationships (g : graph) (df : list pydict) : batch :=
  (foldl enrich_row (mk_batch g 0 [], None) df).1.

End WithBuiltins.

End GeoEnrichment.

(** ** etl/businesses.py *)

(** A record of the place-search response.  The three optional attributes
    are [None] when [hasattr] fails. *)
Record place : Type := mk_place {
  place_id : pyval;
  display_name_text : pyval;
  location_latitude : pyval;
  location_longitude : pyval;
  formatted_address : option pyval;
  rating : option pyval;
  price_level : option pyval
}.

(** The external place-search service and the circle it is queried with. *)
Class PlaceSearch `{Shapely} : Type := {
  circle : Type;
  get_minimum_enclosing_circle : geometry -> result circle;
  (** the response, [[]] when the request fails *)
  query_nearby_places : circle -> list string -> list place
}.

Module Businesses.

Section WithInterfaces.
Context `{Builtins} `{SpatialExtension} `{Shapely} `{!PlaceSearch}.

(** [get_block_group_geometries] with an empty filter: a dictionary from
    [ct_block_group] to the parsed polygon and its enclosing circle. *)
Fixpoint geometries_of (bgs : list node) (acc : list (pyval * (geometry * circle)))
  : result (list (pyval * (geometry * circle))) :=
  match bgs with
  | [] => Ok acc
  | bg :: rest =>
      let block_group_id := default VNone (node_props bg !! "ct_block_group") in
      let bg_wkt := default VNone (node_props bg !! "wkt") in
      let* polygon := wkt_loads bg_wkt in
      let* c := get_minimum_enclosing_circle polygon in
      geometries_of rest
        (if existsb (fun e => py_eq e.1 block_group_id) acc
         then map (fun e => if py_eq e.1 block_group_id
                            then (e.1, (polygon, c)) else e) acc
         else acc ++ [(block_group_id, (polygon, c))])%list
  end.

Definition get_block_group_geometries (g : graph)
  : result (list (pyval * (geometry * circle))) :=
  geometries_of
    (filter (fun n => String.eqb (node_label n) "BlockGroup") (nodes g)) [].

(** A quote or a backslash in the text spliced into the query changes the
    string literal it is spliced into; the query is then taken to fail. *)
Definition has_quote (s : string) : bool :=
  existsb (fun a => Ascii.eqb a "'"%char || Ascii.eqb a "\"%char)
    (list_ascii_of_string s).

(** The loop of [get_business_zipcode] over the query rows; an exception
    inside it ends the search with [None]. *)
Fixpoint first_containing (rows : list node) (longitude latitude : pyval)
  : option pyval :=
  match rows with
  | [] => None
  | z :: rest =>
      let zipcode_number := default VNone (node_props z !! "zipcode_number") in
      let zipcode_wkt := default VNone (node_props z !! "wkt") in
      match wkt_loads zipcode_wkt with
      | Raise _ => None
      | Ok polygon =>
          match geom_point longitude latitude with
          | Raise _ => None
          | Ok point =>
              if geom_contains polygon point then Some zipcode_number
              else first_containing rest longitude latitude
          end
      end
  end.

(** [get_business_zipcode]: the rows are the [Zipcode] ends of the
    [IS_WITHIN] relationships leaving a [BlockGroup] whose key equals the
    text spliced into the query. *)
Definition get_business_zipcode (g : graph) (ct_block_group longitude latitude : pyval)
  : option pyval :=
  let key := py_str ct_block_group in
  if has_quote key then None
  else
    let rows :=
      r ← rels g;
      bg ← filter (fun n => (node_id n =? rel_start r)%nat
                            && String.eqb (node_label n) "BlockGroup"
                            && match node_props n !! "ct_block_group" with
                               | Some v => Cypher.eqb v (VStr key)
                               | None => false
                               end) (nodes g);
      z ← filter (fun n => (node_id n =? rel_end r)%nat
                           && String.eqb (node_label n) "Zipcode") (nodes g);
      if String.eqb (rel_type r) "IS_WITHIN" then [z] else [] in
    first_containing rows longitude latitude.

Definition business_properties (business_type : string) (business : place)
  : pydict :=
  (* Required fields *)
  let properties := [] in
  let properties := dict_set "business_id" (place_id business) properties in
  let properties := dict_set "business_name" (display_name_text business) properties in
  let properties := dict_set "business_type" (VStr business_type) properties in
  let properties := dict_set "latitude" (location_latitude business) properties in
  let properties := dict_set "longitude" (location_longitude business) properties in
  (* Optional fields *)
  let properties :=
    match formatted_address business with
    | Some v => dict_set "address" v properties
    | None => properties
    end in
  let properties :=
    match rating business with
    | Some v => dict_set "rating" v properties
    | None => properties
    end in
  match price_level business with
  | Some v => dict_set "price_level" v properties
  | None => properties
  end.

(** The [try] block for one business. *)
Definition try_business (constraints : pyval) (ct_block_group : pyval)
    (g : graph) (business_type : string) (business : place)
  : graph * result unit :=
  let properties := business_properties business_type business in
  match Validation.validate_data (mk_entity "Business" properties) constraints false with
  | Raise e => (g, Raise e)
  | Ok _ =>
      let (g1, business_node) :=
        Construction.create_node g "Business" properties (Some ["business_id"]) in
      match business_node with
      | None => (g1, raise Exception "Failed to create Business node")
      | Some n =>
          if negb (Construction.handle_truthy (node_props n)) then
            (g1, raise Exception "Failed to create Business node")
          else
            (* Add to spatial layer *)
            let (g2, added) :=
              Spatial.add_node_to_spatial_layer g1 n "business_layer" in
            if negb added then
              (g2, raise Exception "Failed to add Business node to spatial layer")
            else
              (* Create BUSINESS->LOCATED_IN->BLOCKGROUP relationship *)
              let (g3, _) :=
                Construction.create_relationship g2
                  "Business" [("business_id", place_id business)] ["business_id"]
                  "BlockGroup" [("ct_block_group", ct_block_group)] ["ct_block_group"]
                  "LOCATED_IN" None in
              (* Create BUSINESS->LOCATED_IN->Zipcode relationship *)
              let zipcode :=
                get_business_zipcode g3 ct_block_group
                  (dict_get "longitude" properties) (dict_get "latitude" properties) in
              match zipcode with
              | Some z =>
                  if truthy z then
                    let (g4, _) :=
                      Construction.create_relationship g3
                        "Business" [("business_id", place_id business)] ["business_id"]
                        "Zipcode" [("zipcode_number", z)] ["zipcode_number"]
                        "LOCATED_IN" None in
                    (g4, Ok tt)
                  else (g3, Ok tt)
              | None => (g3, Ok tt)
              end
      end
  end.

(** The state of the loops of [create_business_nodes]: the graph,
    [business_count] and [failed_instances]. *)
Definition business_step (constraints : pyval) (ct_block_group : pyval)
    (business_type : string) (st : batch) (business : place) : batch :=
  match try_business constraints ct_block_group (store st) business_type business with
  | (g, Ok _) => mk_batch g (success_count st + 1) (failed_instances st)
  | (g, Raise e) =>
      mk_batch g (success_count st)
        (failed_instances st
         ++ [[("business", display_name_text business);
              ("error", VStr (exn_msg e))]])%list
  end.

(** [create_business_nodes]: the graph, and the returned pair
    [(business_count, failed_instances)] of this block group alone. *)
Definition create_business_nodes (g : graph)
    (bg_businesses : list (string * list place)) (ct_block_group : pyval)
    (constraints : pyval) : batch :=
  foldl (fun st tb => foldl (business_step constraints ct_block_group tb.1) st tb.2)
    (mk_batch g 0 []) bg_businesses.

Definition google_business_types : list (string * list string) :=
  [("grocery_store", ["grocery_store"]);
   ("fast_food_restaurant", ["fast_food_restaurant"]);
   ("bakery", ["bakery"])].

(** The places of one type that lie inside the block group's polygon. *)
Fixpoint businesses_in_block_group (polygon : geometry) (places : list place)
  : result (list place) :=
  match places with
  | [] => Ok []
  | p :: rest =>
      let* point := geom_point (location_longitude p) (location_latitude p) in
      let* more := businesses_in_block_group polygon rest in
      Ok (if geom_contains polygon point then p :: more else more)
  end.

Fixpoint collect_businesses (polygon : geometry) (c : circle)
    (types : list (string * list string)) : result (list (string * list place)) :=
  match types with
  | [] => Ok []
  | (business_type, gtypes) :: rest =>
      let places := query_nearby_places c gtypes in
      let* inside := businesses_in_block_group polygon places in
      let* more := collect_businesses polygon c rest in
      Ok ((business_type, inside) :: more)
  end.

(** One iteration of the loop over block groups.  The call's result is
    bound to the very names of the running totals, so the two updates that
    follow double this block group's own figures. *)
Definition block_group_step (constraints : pyval)
    (st : batch) (entry : pyval * (geometry * circle)) : result batch :=
  let '(ct_block_group, (polygon, c)) := entry in
  let* businesses := collect_businesses polygon c google_business_types in
  (* Create nodes with spatial data *)
  let returned := create_business_nodes (store st) businesses ct_block_group constraints in
  let business_count := success_count returned in
  let failed_instances := failed_instances returned in
  let business_count := business_count + business_count in
  let failed_instances := (failed_instances ++ failed_instances)%list in
  Ok (mk_batch (store returned) business_count failed_instances).

Fixpoint block_groups_loop (constraints : pyval) (st : batch)
    (block_groups : list (pyval * (geometry * circle))) : batch * result unit :=
  match block_groups with
  | [] => (st, Ok tt)
  | entry :: rest =>
      match block_group_step constraints st entry with
      | Raise e => (st, Raise e)
      | Ok st' => block_groups_loop constraints st' rest
      end
  end.

(** The session block of [populate_businesses] (no cleanup, empty filter):
    the batch whose count and failures the final [print]s report, and
    whether the function ended by raising. *)
Definition populate_businesses (g : graph) (constraints : pyval)
  : batch * result unit :=
  (* Initialize new point layer *)
  let g0 := (Spatial.init_point_layer g "business_layer").1 in
  (* Get all BlockGroup geometries *)
  match get_block_group_geometries g0 with
  | Raise e => (mk_batch g0 0 [], Raise e)
  | Ok block_groups => block_groups_loop constraints (mk_batch g0 0 []) block_groups
  end.

End WithInterfaces.

End Businesses.

(** ** etl/block_groups.py *)

(** A row of the block-group query: the four identifier cells, and the
    well-known text of the geometry cell, [None] for a missing geometry. *)
Record block_group_row : Type := mk_block_group_row {
  ctblockgroup : pyval;
  tract : pyval;
  blockgroup : pyval;
  objectid : pyval;
  wkb_geometry : option string
}.

Module BlockGroups.

Section WithInterfaces.
Context `{Builtins} `{SpatialExtension}.

(** The dictionary display assigned to [properties]; [.wkt] of a missing
    geometry raises. *)
Definition block_group_properties (row : block_group_row) : result pydict :=
  let* wkt :=
    match wkb_geometry row with
    | Some text => Ok (VStr text)
    | None => no_attribute VNone "wkt"
    end in
  Ok [("ct_block_group", VStr (py_str (ctblockgroup row)));
      ("census_tract", VStr (py_str (tract row)));
      ("block_group", VStr (py_str (blockgroup row)));
      ("object_id", VStr (py_str (objectid row)));
      ("wkt", wkt)].

(** The [try] block once [properties] is assigned. *)
Definition try_block_group (constraints : pyval) (g : graph)
    (properties : pydict) : graph * result unit :=
  (* Validate data *)
  match Validation.validate_data (mk_entity "BlockGroup" properties) constraints false with
  | Raise e => (g, Raise e)
  | Ok _ =>
      (* Create node *)
      let (g1, block_group_node) :=
        Construction.create_node g "BlockGroup" properties (Some ["ct_block_group"]) in
      match block_group_node with
      | None => (g1, raise Exception "Failed to create BlockGroup node")
      | Some n =>
          if negb (Construction.handle_truthy (node_props n)) then
            (g1, raise Exception "Failed to create BlockGroup node")
          else
            (* Add geometry to spatial layer and link to node *)
            let (g2, added) :=
              Spatial.add_node_to_spatial_layer g1 n "block_group_layer" in
            if negb added then
              (g2, raise Exception "Failed to add geometry to BlockGroup node")
            else (g2, Ok tt)
      end
  end.

(** One iteration.  [properties] is assigned inside the [try] and read by
    the handler: when the display itself raises, the handler finds the
    dictionary of the previous row, or no dictionary at all on the first
    row, and then raises in its turn.  The state carries the last
    dictionary assigned. *)
Definition block_group_step (constraints : pyval)
    (st : batch * option pydict) (row : block_group_row)
  : (batch * option pydict) * result unit :=
  let failed (g : graph) (properties : pydict) (e : exn) : batch :=
    mk_batch g (success_count st.1)
      (failed_instances st.1
       ++ [[("ct_block_group",
             default (VStr "") (dict_lookup "ct_block_group" properties));
            ("error", VStr (exn_msg e))]])%list in
  match block_group_properties row with
  | Raise e =>
      match st.2 with
      | None => (st, Construction.unbound_local "properties")
      | Some stale => ((failed (store st.1) stale e, st.2), Ok tt)
      end
  | Ok properties =>
      match try_block_group constraints (store st.1) properties with
      | (g, Ok _) =>
          ((mk_batch g (success_count st.1 + 1) (failed_instances st.1),
            Some properties), Ok tt)
      | (g, Raise e) => ((failed g properties e, Some properties), Ok tt)
      end
  end.

Fixpoint block_groups_loop (constraints : pyval) (st : batch * option pydict)
    (gdf : list block_group_row) : (batch * option pydict) * result unit :=
  match gdf with
  | [] => (st, Ok tt)
  | row :: rest =>
      match block_group_step constraints st row with
      | (st', Ok _) => block_groups_loop constraints st' rest
      | (st', Raise e) => (st', Raise e)
      end
  end.

(** [create_block_group_nodes]: the batch the summary reports, and whether
    the function ended by raising. *)
Definition create_block_group_nodes (g : graph) (constraints : pyval)
    (gdf : list block_group_row) : batch * result unit :=
  (* Initialize spatial layer *)
  let g0 := (Spatial.init_wkt_layer g "block_group_layer" "wkt").1 in
  let run := block_groups_loop constraints (mk_batch g0 0 [], None) gdf in
  (run.1.1, run.2).

End WithInterfaces.

End BlockGroups.

(** ** neo4j/constraints.py

    The store's answer to a constraint statement never reaches the loops:
    [create_uniqueness_constraint] and [delete_constraint] catch whatever
    the statement raises.  The two traversals are therefore given by the
    statements they issue, in order, and by the exception that ends them
    early, if any. *)

Inductive statement : Type :=
  | CreateConstraint (constraint_name : string) (is_relationship : bool)
      (label_or_rel_type property_name : string)
  | DropConstraint (constraint_name : string).

Module Constraints.

(** [x.get(k, {})] *)
Definition get_or_empty (x : pyval) (k : string) : result pyval :=
  match x with
  | VDict d => Ok (default (VDict []) (dict_lookup k d))
  | _ => no_attribute x "get"
  end.

Section WithBuiltins.
Context `{Builtins}.

(** The text of a statement, as the f-strings build it. *)
Definition statement_text (s : statement) : string :=
  match s with
  | CreateConstraint constraint_name true rel_type property_name =>
      "CREATE CONSTRAINT " ++ constraint_name ++ " FOR ()-[r:" ++ rel_type
      ++ "]-() REQUIRE r." ++ property_name ++ " IS UNIQUE"
  | CreateConstraint constraint_name false label property_name =>
      "CREATE CONSTRAINT " ++ constraint_name ++ " FOR (n:" ++ label
      ++ ") REQUIRE n." ++ property_name ++ " IS UNIQUE"
  | DropConstraint constraint_name =>
      "DROP CONSTRAINT " ++ constraint_name ++ " IF EXISTS"
  end.

(** [if "unique" in property_constraints:
       constraint_name = property_constraints["unique"]["constraint_name"]] *)
Definition unique_name (property_constraints : pyval) : result (option string) :=
  let* absent := Validation.py_not_in (VStr "unique") property_constraints in
  if absent then Ok None
  else
    let* unique := py_getitem property_constraints "unique" in
    let* constraint_name := py_getitem unique "constraint_name" in
    Ok (Some (py_str constraint_name)).

(** The inner loop of [create_constraints] over the properties of one
    label or relationship type. *)
Fixpoint create_for_properties (is_relationship : bool) (label : string)
    (items : pydict) : list statement * result unit :=
  match items with
  | [] => ([], Ok tt)
  | (property_name, property_constraints) :: rest =>
      match unique_name property_constraints with
      | Raise e => ([], Raise e)
      | Ok None => create_for_properties is_relationship label rest
      | Ok (Some constraint_name) =>
          let (more, ending) := create_for_properties is_relationship label rest in
          (CreateConstraint constraint_name is_relationship label property_name
             :: more,
           ending)
      end
  end.

(** One of the two outer loops of [create_constraints]. *)
Fixpoint create_for_schemas (is_relationship : bool) (schemas : pydict)
  : list statement * result unit :=
  match schemas with
  | [] => ([], Ok tt)
  | (label, schema) :: rest =>
      match (let* declared := get_or_empty schema "properties" in
             py_items declared) with
      | Raise e => ([], Raise e)
      | Ok items =>
          match create_for_properties is_relationship label items with
          | (issued, Raise e) => (issued, Raise e)
          | (issued, Ok _) =>
              let (more, ending) := create_for_schemas is_relationship rest in
              ((issued ++ more)%list, ending)
          end
      end
  end.

Definition create_constraints (constraints : pyval)
  : list statement * result unit :=
  match
    let* nodes := get_or_empty constraints "nodes" in
    let* relationships := get_or_empty constraints "relationships" in
    let* node_schemas := py_items nodes in
    Ok (node_schemas, relationships)
  with
  | Raise e => ([], Raise e)
  | Ok (node_schemas, relationships) =>
      match create_for_schemas false node_schemas with
      | (issued, Raise e) => (issued, Raise e)
      | (issued, Ok _) =>
          match py_items relationships with
          | Raise e => (issued, Raise e)
          | Ok rel_schemas =>
              let (more, ending) := create_for_schemas true rel_schemas in
              ((issued ++ more)%list, ending)
          end
      end
  end.

(** The inner loop of [delete_all_constraints]. *)
Fixpoint delete_for_properties (items : pydict) : list statement * result unit :=
  match items with
  | [] => ([], Ok tt)
  | (_, property_constraints) :: rest =>
      match unique_name property_constraints with
      | Raise e => ([], Raise e)
      | Ok None => delete_for_properties rest
      | Ok (Some constraint_name) =>
          let (more, ending) := delete_for_properties rest in
          (DropConstraint constraint_name :: more, ending)
      end
  end.

Fixpoint delete_for_schemas (schemas : pydict) : list statement * result unit :=
  match schemas with
  | [] => ([], Ok tt)
  | (_, schema) :: rest =>
      match (let* declared := get_or_empty schema "properties" in
             py_items declared) with
      | Raise e => ([], Raise e)
      | Ok items =>
          match delete_for_properties items with
          | (issued, Raise e) => (issued, Raise e)
          | (issued, Ok _) =>
              let (more, ending) := delete_for_schemas rest in
              ((issued ++ more)%list, ending)
          end
      end
  end.

Definition delete_all_constraints (constraints : pyval)
  : list statement * result unit :=
  match
    let* nodes := get_or_empty constraints "nodes" in
    let* relationships := get_or_empty constraints "relationships" in
    let* node_schemas := py_items nodes in
    Ok (node_schemas, relationships)
  with
  | Raise e => ([], Raise e)
  | Ok (node_schemas, relationships) =>
      match delete_for_schemas node_schemas with
      | (issued, Raise e) => (issued, Raise e)
      | (issued, Ok _) =>
          match py_items relationships with
          | Raise e => (issued, Raise e)
          | Ok rel_schemas =>
              let (more, ending) := delete_for_schemas rel_schemas in
              ((issued ++ more)%list, ending)
          end
      end
  end.

End WithBuiltins.

End Constraints.

(** ** Reference instances of the interfaces

    Small implementations of the interpreter's text builtins, of the
    geometry library and of the external services, used to run the model on
    concrete inputs. *)

Module Reference.

(** [int(x)] on numbers: truncation toward zero. *)
Definition int_of_float (f : float) : result Z :=
  match Prim2SF f with
  | S754_nan => raise ValueError "cannot convert float NaN to integer"
  | S754_infinity _ => raise OverflowError "cannot convert float infinity to integer"
  | S754_zero _ => Ok 0
  | S754_finite s m e =>
      let q := if 0 <=? e then Z.pos m * 2 ^ e else Z.pos m / 2 ^ (- e) in
      Ok (if s then - q else q)
  end.

(** Decimal digits, with an optional sign in front. *)
Fixpoint digits_value (s : string) (acc : Z) : option Z :=
  match s with
  | EmptyString => Some acc
  | String c s' =>
      let n := nat_of_ascii c in
      if ((48 <=? n) && (n <=? 57))%nat
      then digits_value s' (10 * acc + Z.of_nat (n - 48))
      else None
  end.

Definition int_of_string (s : string) : option Z :=
  match s with
  | EmptyString => None
  | String c s' =>
      if Ascii.eqb c "-"%char then
        match s' with
        | EmptyString => None
        | _ => Z.opp <$> digits_value s' 0
        end
      else if Ascii.eqb c "+"%char then
        match s' with
        | EmptyString => None
        | _ => digits_value s' 0
        end
      else digits_value s 0
  end.

Definition int_of (v : pyval) : result Z :=
  match v with
  | VInt z => Ok z
  | VBool b => Ok (Z.b2z b)
  | VFloat f => int_of_float f
  | VStr s =>
      match int_of_string s with
      | Some z => Ok z
      | None =>
          raise ValueError
            ("invalid literal for int() with base 10: '" ++ s ++ "'")
      end
  | _ =>
      raise TypeError
        ("int() argument must be a string, a bytes-like object or a real number, not '"
         ++ type_name v ++ "'")
  end.

(** Floats with an integral value print as in Python; the others print
    their exact value as a scaled integer. *)
Definition float_text (f : float) : string :=
  match Prim2SF f with
  | S754_nan => "nan"
  | S754_infinity s => if s then "-inf" else "inf"
  | S754_zero s => if s then "-0.0" else "0.0"
  | S754_finite s m e =>
      (if s then "-" else "")
      ++ (if 0 <=? e then pretty (Z.pos m * 2 ^ e) ++ ".0"
          else pretty (Z.pos m) ++ "*2**" ++ pretty e)
  end.

Fixpoint text (quote : bool) (v : pyval) : string :=
  match v with
  | VNone => "None"
  | VBool b => if b then "True" else "False"
  | VInt z => pretty z
  | VFloat f => float_text f
  | VStr s => if quote then "'" ++ s ++ "'" else s
  | VList l =>
      "["
      ++ (fix items (xs : list pyval) : string :=
            match xs with
            | [] => ""
            | [x] => text true x
            | x :: xs' => text true x ++ ", " ++ items xs'
            end) l
      ++ "]"
  | VDict d =>
      "{"
      ++ (fix items (xs : pydict) : string :=
            match xs with
            | [] => ""
            | [(k, x)] => "'" ++ k ++ "': " ++ text true x
            | (k, x) :: xs' => "'" ++ k ++ "': " ++ text true x ++ ", " ++ items xs'
            end) d
      ++ "}"
  end.

(** A set of names, in the order given. *)
Definition set_text (names : list string) : string :=
  match names with
  | [] => "set()"
  | _ =>
      "{"
      ++ (fix items (xs : list string) : string :=
            match xs with
            | [] => ""
            | [x] => "'" ++ x ++ "'"
            | x :: xs' => "'" ++ x ++ "', " ++ items xs'
            end) names
      ++ "}"
  end.

#[export] Instance builtins : Builtins := {|
  py_str := text false;
  py_set_text := set_text;
  py_int := int_of
|}.

(** A geometry library over three fixed shapes: the square [[0,2]x[0,2]],
    its left half, and a degenerate polygon of zero area. *)
Inductive shape : Type :=
  | Square
  | LeftHalf
  | Degenerate
  | Point (inside_square inside_left_half : bool).

Definition square_wkt : string := "POLYGON ((0 0, 2 0, 2 2, 0 2, 0 0))".
Definition left_half_wkt : string := "POLYGON ((0 0, 1 0, 1 2, 0 2, 0 0))".
Definition degenerate_wkt : string := "POLYGON ((0 0, 1 1, 0 0))".

Definition loads (v : pyval) : result shape :=
  match v with
  | VStr s =>
      if String.eqb s square_wkt then Ok Square
      else if String.eqb s left_half_wkt then Ok LeftHalf
      else if String.eqb s degenerate_wkt then Ok Degenerate
      else raise Exception "ParseException: Unknown type"
  | _ => raise TypeError "Expected bytes or string"
  end.

Definition area_of (s : shape) : float :=
  match s with
  | Square => 4
  | LeftHalf => 2
  | _ => 0
  end%float.

Definition intersection_of (a b : shape) : result shape :=
  Ok match a, b with
     | Square, Square => Square
     | Square, LeftHalf | LeftHalf, Square | LeftHalf, LeftHalf => LeftHalf
     | _, _ => Degenerate
     end.

Definition point_of (x y : pyval) : result shape :=
  match as_number x, as_number y with
  | Some a, Some b =>
      let inside lo v hi := number_ltb (NInt lo) v && number_ltb v (NInt hi) in
      Ok (Point (inside 0 a 2 && inside 0 b 2) (inside 0 a 1 && inside 0 b 2))
  | _, _ => raise TypeError "must be real number"
  end.

Definition contains_of (a b : shape) : bool :=
  match a, b with
  | Square, Point s _ => s
  | LeftHalf, Point _ l => l
  | Square, Square | Square, LeftHalf | LeftHalf, LeftHalf => true
  | _, _ => false
  end.

#[export] Instance shapely : Shapely := {|
  geometry := shape;
  wkt_loads := loads;
  geom_area := area_of;
  geom_intersection := intersection_of;
  geom_point := point_of;
  geom_contains := contains_of
|}.

(** The spatial extension over the same shapes. *)
Definition geometry_of (kind : layer_class) (props : gmap string pyval)
  : option shape :=
  match kind with
  | WKTLayer p =>
      match loads (default VNone (props !! p)) with
      | Ok s => Some s
      | Raise _ => None
      end
  | PointLayer =>
      match props !! "longitude", props !! "latitude" with
      | Some x, Some y =>
          match point_of x y with Ok s => Some s | Raise _ => None end
      | _, _ => None
      end
  end.

Definition overlap (a b : shape) : bool :=
  match a, b with
  | Point s l, Point s' l' => Bool.eqb s s' && Bool.eqb l l'
  | (Point _ _ as p), q | q, (Point _ _ as p) => contains_of q p
  | _, _ => true
  end.

#[export] Instance spatial_extension : SpatialExtension := {|
  encodable kind props :=
    match geometry_of kind props with Some _ => true | None => false end;
  readable v := is_ok (loads v);
  intersects kind props v :=
    match geometry_of kind props, loads v with
    | Some a, Ok b => overlap a b
    | _, _ => false
    end
|}.

(** A place-search service that knows one bakery. *)
Definition the_bakery : place :=
  mk_place (VStr "ChIJ-bakery-1") (VStr "Corner Bakery")
    (VFloat 1.5) (VFloat 0.5) (Some (VStr "1 Main St")) (Some (VFloat 4.5))
    (Some (VInt 2)).

#[export] Instance place_search : PlaceSearch := {|
  circle := unit;
  get_minimum_enclosing_circle _ := Ok tt;
  query_nearby_places _ gtypes :=
    if bool_decide (gtypes = ["bakery"]) then [the_bakery] else []
|}.

(** A schema document with the node labels the builders write. *)
Definition string_property : pyval := VDict [("type", VStr "STRING")].
Definition required_string : pyval :=
  VDict [("type", VStr "STRING"); ("exists", VBool true)].

Definition schema : pyval :=
  VDict
    [("nodes",
      VDict
        [("Zipcode",
          VDict [("properties",
                  VDict [("zipcode_number", required_string);
                         ("wkt", string_property)])]);
         ("City",
          VDict [("properties",
                  VDict [("city_id", required_string);
                         ("city_name", required_string);
                         ("population",
                          VDict [("type", VStr "INTEGER");
                                 ("range", VDict [("min", VInt 0);
                                                  ("max", VInt 100)])])])]);
         ("Business",
          VDict [("properties",
                  VDict [("business_id", required_string);
                         ("business_name", required_string);
                         ("business_type", required_string);
                         ("latitude", VDict [("type", VStr "FLOAT")]);
                         ("longitude", VDict [("type", VStr "FLOAT")]);
                         ("address", string_property);
                         ("rating", VDict [("type", VStr "FLOAT")]);
                         ("price_level", VDict [("type", VStr "INTEGER")])])])]);
     ("relationships", VDict [])].

End Reference.

(** * Observations and example inputs

    What the statements below measure on a graph, and the concrete inputs
    they are run on. *)

Local Open Scope list_scope.

Import Reference.

(** [n] is a [Zipcode] node whose key is [z]. *)
Definition is_zipcode (z : string) (n : node) : bool :=
  String.eqb (node_label n) "Zipcode"
  && match node_props n !! "zipcode_number" with
     | Some (VStr s) => String.eqb s z
     | _ => false
     end.

Definition zipcode_count (z : string) (g : graph) : nat :=
  length (filter (fun n => is_zipcode z n) (nodes g)).





(** A pairing with one category property, and one with a named entry and
    its representation level. *)
Definition single (type key category : string) (v : pyval) : GeoEnrichment.pairing :=
  GeoEnrichment.mk_pairing type [(key, VStr category)] v.

Definition graded (type key : string) (name : string) (lv : string * pyval)
  : GeoEnrichment.pairing :=
  GeoEnrichment.mk_pairing type [(key, VStr name); ("representation", VStr lv.1)] lv.2.

(** Both branches of a representation classifier return one combination
    and one source value per entry, in the order of the entries. *)
Definition graded_buckets (key : string) (names : list string)
    (lvs : list (string * pyval)) : list pydict * list pyval :=
  (zip_with (fun name lv => [(key, VStr name); ("representation", VStr lv.1)])
     names lvs,
   map snd lvs).

(** The fifteen pairings of a row, in the order the loops visit them. *)
Definition fifteen (c1 c2 c3 c5 c7 c8 : string) (v1 v2 v3 v5 v7 v8 : pyval)
    (a1 a2 a3 a4 a5 a6 e1 e2 e3 : string * pyval) : list GeoEnrichment.pairing :=
  [single "TotalPopulation" "level" c1 v1;
   single "PopulationGrowth" "growth_rate" c2 v2;
   single "AgeAverage" "group" c3 v3;
   graded "AgeGroup" "group" "0-4" a1;
   graded "AgeGroup" "group" "5-14" a2;
   graded "AgeGroup" "group" "15-24" a3;
   graded "AgeGroup" "group" "25-44" a4;
   graded "AgeGroup" "group" "45-64" a5;
   graded "AgeGroup" "group" "65+" a6;
   single "WealthIndex" "category" c5 v5;
   graded "EducationLevel" "level" "BASIC" e1;
   graded "EducationLevel" "level" "SECONDARY" e2;
   graded "EducationLevel" "level" "HIGHER" e3;
   single "CrimeIndex" "category" c7 v7;
   single "FastFoodSpendingIndex" "category" c8 v8].


Module ValidationExample.

Definition nameless_city : entity :=
  mk_entity "City" [("city_name", VStr "San Diego")].

Definition crowded_city : entity :=
  mk_entity "City"
    [("city_id", VStr "1"); ("city_name", VStr "San Diego");
     ("population", VInt 101)].

Definition population_constraints : pyval :=
  VDict [("type", VStr "INTEGER");
         ("range", VDict [("min", VInt 0); ("max", VInt 100)])].

End ValidationExample.

Module UpsertExample.

Definition g0 : graph :=
  mk_graph
    [mk_node 0 "BlockGroup" {[ "ct_block_group" := VStr "10001" ]};
     mk_node 1 "Zipcode" {[ "zipcode_number" := VStr "92101" ]}]
    [mk_rel 0 "IS_WITHIN" 1
       (<["overlap_ratio" := VFloat 0.5]> {[ "containment_type" := VStr "Partial" ]})]
    ∅ 2.

Definition supplied : pydict := [("containment_type", VStr "Full")].

End UpsertExample.

Module ContainmentExample.

Import Reference.

Definition block_group_node : node :=
  mk_node 0 "BlockGroup"
    (<["wkt" := VStr square_wkt]> {[ "ct_block_group" := VStr "10001" ]}).

Definition zipcode_node : node :=
  mk_node 1 "Zipcode"
    (<["wkt" := VStr left_half_wkt]> {[ "zipcode_number" := VStr "92101" ]}).

Definition flat_block_group : node :=
  mk_node 2 "BlockGroup"
    (<["wkt" := VStr degenerate_wkt]> {[ "ct_block_group" := VStr "10002" ]}).

Definition g0 : graph :=
  mk_graph [block_group_node; zipcode_node; flat_block_group] []
    {[ "zipcode_layer" := mk_layer (WKTLayer "wkt") [1%nat] ]} 3.

End ContainmentExample.

Module ZipcodeExample.

Definition raw_zipcodes : AdministrativeTopology.zipcode_table :=
  AdministrativeTopology.mk_zipcode_table true
    [(VStr "92101", VStr left_half_wkt); (VStr "92102", VStr square_wkt)].

Definition city_zipcodes : list pyval := [VList [VStr "92101"; VStr "92104"]].

Definition neighborhood_zipcodes : list pyval := [VList [VStr "92101"]].

End ZipcodeExample.

Module EnrichmentExample.

Definition count_columns : list string :=
  ["male0"; "male5"; "male10"; "male15"; "male20"; "male25"; "male30";
   "male35"; "male40"; "male45"; "male50"; "male55"; "male60"; "male65";
   "male70"; "male75"; "male80"; "male85";
   "fem0"; "fem5"; "fem10"; "fem15"; "fem20"; "fem25"; "fem30"; "fem35";
   "fem40"; "fem45"; "fem50"; "fem55"; "fem60"; "fem65"; "fem70"; "fem75";
   "fem80"; "fem85"].

(** A prepared input row of block group 83.01/1 with the same count in
    each age bracket. *)
Definition census_row (total each : Z) : pydict :=
  [("tractce", VFloat 8301); ("blkgrpce", VInt 1);
   ("totpop_cy", VInt total); ("popgrwcyfy", VFloat 1.5);
   ("avg_age", VFloat 37.5); ("normalized_wlthindxcy", VFloat 0.5);
   ("crmcytotc", VInt 100); ("normalized_fastfoodspending", VFloat 0.25);
   ("BASIC", VInt (4 * each)); ("SECONDARY", VInt (12 * each));
   ("HIGHER", VInt (8 * each))]
  ++ map (fun c => (c, VInt each)) count_columns.

End EnrichmentExample.

Module EdgeExample.

Definition block_group_node : node :=
  mk_node 0 "BlockGroup" {[ "ct_block_group" := VStr "83011" ]}.

Definition medium_population : node :=
  mk_node 1 "TotalPopulation" {[ "level" := VStr "MEDIUM" ]}.

Definition g0 : graph :=
  mk_graph [block_group_node; medium_population] [] ∅ 2.

Definition row : pydict := EnrichmentExample.census_row 1500 50.



End EdgeExample.

Module BusinessExample.

Definition square_block_group : node :=
  mk_node 0 "BlockGroup"
    (<["wkt" := VStr square_wkt]> {[ "ct_block_group" := VStr "10001" ]}).

Definition flat_block_group : node :=
  mk_node 1 "BlockGroup"
    (<["wkt" := VStr degenerate_wkt]> {[ "ct_block_group" := VStr "10002" ]}).

Definition one_block_group : graph :=
  mk_graph [square_block_group] [] ∅ 1.

Definition two_block_groups : graph :=
  mk_graph [square_block_group; flat_block_group] [] ∅ 2.

Definition businesses_in (g : graph) : list node :=
  filter (fun n => String.eqb (node_label n) "Business") (nodes g).

End BusinessExample.

(** Every relationship and every layer member of [g] refers to a node of
    [g], and the store has handed out every id in use. *)
Definition well_formed (g : graph) : Prop :=
  let ids := map node_id (nodes g) in
  Forall (fun i => (i < next_id g)%nat) ids
  /\ Forall (fun r => rel_start r ∈ ids /\ rel_end r ∈ ids) (rels g)
  /\ map_Forall (fun _ l => Forall (fun i => i ∈ ids) (layer_members l)) (layers g).

#[global] Instance well_formed_dec (g : graph) : Decision (well_formed g).
Proof. unfold well_formed. apply _. Defined.

(** What the assignments of [d] leave under [k]: the last one wins. *)
Fixpoint assigned (k : string) (d : pydict) : option (option pyval) :=
  match d with
  | [] => None
  | (k', v) :: d' =>
      match assigned k d' with
      | Some r => Some r
      | None =>
          if String.eqb k k'
          then Some (if is_none v then None else Some v)
          else None
      end
  end.


(** The constraint a statement names. *)
Definition named (s : statement) : string :=
  match s with
  | CreateConstraint constraint_name _ _ _ => constraint_name
  | DropConstraint constraint_name => constraint_name
  end.

(** The items of a list cell; any other cell lists nothing. *)
Definition listed (cell : pyval) : list pyval :=
  match cell with
  | VList l => l
  | _ => []
  end.

(** The list columns [create_city_relationships] reads, and those
    [create_neighborhood_relationships] reads. *)
Definition city_link_columns : list string :=
  ["zipcodes"; "neighborhoods"; "neighboring_cities";
   "neighboring_unincorporated_places"; "nearby_cities";
   "nearby_unincorporated_places"].

Definition neighborhood_link_columns : list string :=
  ["zipcodes"; "neighboring_communities"; "neighboring_cities";
   "nearby_communities"; "nearby_cities"].

(** The number of items a row lists under the given columns. *)
Definition links_listed (columns : list string) (row : pydict) : nat :=
  foldr (fun column total => (length (listed (dict_get column row)) + total)%nat)
    0%nat columns.

(** The upsert that [attempt] issues for one item of a row. *)
Definition attempted `{Builtins} (owner owner_key : string) (id : pyval)
    (kind : AdministrativeTopology.link_kind) (g : graph) (item : pyval) : graph :=
  (Construction.create_relationship g
     owner [(owner_key, VStr (py_str id))] [owner_key]
     (AdministrativeTopology.end_label kind)
     [(AdministrativeTopology.end_key kind, VStr (py_str item))]
     [AdministrativeTopology.end_key kind]
     (AdministrativeTopology.link_type kind)
     (AdministrativeTopology.link_properties kind)).1.

(** Every relationship of the type between the pair carries [d]. *)
Definition all_carry (a : nat) (T : string) (b : nat) (d : pydict)
    (g : graph) : Prop :=
  Cypher.rels_between a T b (rels g) <> []
  /\ Forall (fun r => rel_props r = Cypher.set_replace d)
       (Cypher.rels_between a T b (rels g)).


(** The failure entry [create_city_nodes] records for a row, if the row's
    entity does not pass validation. *)
Definition city_failure `{Builtins} (constraints : pyval) (row : pydict)
  : option pydict :=
  match AdministrativeTopology.city_properties row with
  | Raise _ => None
  | Ok properties =>
      match Validation.validate_data (mk_entity "City" properties) constraints false with
      | Ok _ => None
      | Raise e =>
          Some [("city", default (VStr "") (dict_lookup "city_name" properties));
                ("error", VStr (exn_msg e))]
      end
  end.

(** [n] is a node of type [node_type] that carries every value of the
    property dictionary. *)
Definition carries (node_type : string) (properties : pydict) (n : node) : Prop :=
  node_label n = node_type
  /\ forall k v, (k, v) ∈ properties -> node_props n !! k = Some v.

(** An enumeration of strings, as the schema declares them. *)
Definition string_enum (enum : pyval) : Prop :=
  exists values, enum = VList (map VStr values).

Module CategoryExample.

Definition enum_values (values : list string) : pyval := VList (map VStr values).

Definition enum (values : list string) : pyval :=
  VDict [("type", VStr "STRING"); ("enum", enum_values values)].

Definition levels : list string := ["VERY_LOW"; "LOW"; "MODERATE"].

(** The node section of a schema document with the eight category labels. *)
Definition node_constraints : pyval :=
  VDict
    [("TotalPopulation",
      VDict [("properties", VDict [("level", enum ["LOW"; "MEDIUM"; "HIGH"])])]);
     ("PopulationGrowth",
      VDict [("properties", VDict [("growth_rate", enum ["NEGATIVE"; "LOW"])])]);
     ("AgeAverage",
      VDict [("properties", VDict [("group", enum ["0-4"; "65+"])])]);
     ("AgeGroup",
      VDict [("properties",
              VDict [("group", enum ["0-4"; "65+"]);
                     ("representation", enum levels)])]);
     ("WealthIndex",
      VDict [("properties", VDict [("category", enum ["LOW"; "HIGH"])])]);
     ("EducationLevel",
      VDict [("properties",
              VDict [("level", enum ["BASIC"; "HIGHER"]);
                     ("representation", enum levels)])]);
     ("CrimeIndex",
      VDict [("properties", VDict [("category", enum ["SAFEST"; "SAFE"])])]);
     ("FastFoodSpendingIndex",
      VDict [("properties", VDict [("category", enum ["OCCASIONAL"; "REGULAR"])])])].

Definition schema : pyval :=
  VDict [("nodes", node_constraints); ("relationships", VDict [])].

(** The enumerations the builder reads from it. *)
Definition categories : list (string * pydict) :=
  match GeoEnrichment.enrichment_node_categories node_constraints with
  | Ok found => found
  | Raise _ => []
  end.

End CategoryExample.

Module TopologyExample.

Definition oak_park : node :=
  mk_node 0 "Neighborhood"
    (<["neighborhood_name" := VStr "Oak Park"]> {[ "neighborhood_id" := VStr "7" ]}).

Definition zipcode_92105 : node :=
  mk_node 1 "Zipcode" {[ "zipcode_number" := VStr "92105" ]}.

Definition g0 : graph := mk_graph [oak_park; zipcode_92105] [] ∅ 2.

(** A row of the neighborhood table that lists two zipcodes. *)
Definition oak_park_row : pydict :=
  [("id", VInt 7); ("community", VStr "Oak Park");
   ("zipcodes", VList [VStr "92105"; VStr "92102"]);
   ("neighboring_cities", VList [VStr "Lemon Grove"]);
   ("neighboring_unincorporated_places", VNone);
   ("nearby_unincorporated_places", VNone);
   ("neighboring_communities", VList [VStr "City Heights"]);
   ("nearby_communities", VList []);
   ("nearby_cities", VNone)].

(** A row of the city table that lists four items in all. *)
Definition lemon_grove_row : pydict :=
  [("id", VInt 3); ("city", VStr "Lemon Grove"); ("state_name", VStr "California");
   ("county", VStr "San Diego"); ("is_unincorporated_place", VBool false);
   ("zipcodes", VList [VStr "91945"]);
   ("neighboring_cities", VList [VStr "La Mesa"; VStr "San Diego"]);
   ("neighboring_unincorporated_places", VNone);
   ("nearby_unincorporated_places", VNone);
   ("neighborhoods", VList []);
   ("nearby_cities", VList [VStr "El Cajon"])].

(** A schema document for the three labels of the topology builders. *)
Definition schema : pyval :=
  VDict
    [("nodes",
      VDict
        [("City",
          VDict [("properties",
                  VDict [("city_id", required_string);
                         ("city_name", required_string);
                         ("state_name", string_property);
                         ("county", string_property);
                         ("is_unincorporated", VDict [("type", VStr "BOOLEAN")])])]);
         ("Neighborhood",
          VDict [("properties",
                  VDict [("neighborhood_id", required_string);
                         ("neighborhood_name", required_string)])]);
         ("BlockGroup",
          VDict [("properties",
                  VDict [("ct_block_group", required_string);
                         ("census_tract", string_property);
                         ("block_group", string_property);
                         ("object_id", string_property);
                         ("wkt", string_property)])])]);
     ("relationships", VDict [])].

Definition with_geometry : block_group_row :=
  mk_block_group_row (VStr "10001") (VStr "1") (VStr "1") (VInt 17)
    (Some square_wkt).

Definition without_geometry : block_group_row :=
  mk_block_group_row (VStr "10002") (VStr "1") (VStr "2") (VInt 18) None.

End TopologyExample.

Module DeleteExample.

(** A Zipcode the store of [UpsertExample] does not hold yet. *)
Definition new_zipcode : pydict :=
  [("zipcode_number", VStr "92103"); ("wkt", VStr "POLYGON ((0 0, 1 0, 1 1, 0 0))")].

(** The Zipcode it holds, with a geometry it does not have yet. *)
Definition known_zipcode : pydict :=
  [("zipcode_number", VStr "92101"); ("wkt", VStr "POLYGON ((0 0, 1 0, 1 1, 0 0))")].

End DeleteExample.

(** The text has ASCII characters only. *)
Definition ascii_only (s : string) : bool :=
  forallb (fun a => (nat_of_ascii a <? 128)%nat) (list_ascii_of_string s).

Module SkipExample.

(** The store of [ContainmentExample] with the block group of zero area in
    front: the intersection query returns its row first. *)
Definition flat_block_group : node :=
  mk_node 0 "BlockGroup"
    (<["wkt" := VStr degenerate_wkt]> {[ "ct_block_group" := VStr "10002" ]}).

Definition zipcode_node : node :=
  mk_node 1 "Zipcode"
    (<["wkt" := VStr left_half_wkt]> {[ "zipcode_number" := VStr "92101" ]}).

Definition block_group_node : node :=
  mk_node 2 "BlockGroup"
    (<["wkt" := VStr square_wkt]> {[ "ct_block_group" := VStr "10001" ]}).

Definition g0 : graph :=
  mk_graph [flat_block_group; zipcode_node; block_group_node] []
    {[ "zipcode_layer" := mk_layer (WKTLayer "wkt") [1%nat] ]} 3.

End SkipExample.

(** * Properties *)

(** ** The error monad *)

Lemma bind_ok {A B : Type} (m : result A) (k : A -> result B) (b : B) :
  bind m k = Ok b -> exists a, m = Ok a /\ k a = Ok b.
Proof. destruct m as [a|e]; simpl; [eauto | discriminate]. Qed.

(** Splits a hypothesis [let* x := m in k = Ok b]. *)
Ltac bind_inv H :=
  let a := fresh "a" in
  let Ha := fresh "Ha" in
  apply bind_ok in H; destruct H as (a & Ha & H).

(** ** Property maps *)

Lemma set_add_absent (d : pydict) (m : gmap string pyval) (k : string) :
  dict_lookup k d = None -> Cypher.set_add m d !! k = m !! k.
Proof.
  revert m. induction d as [|[k' v] d IH]; intros m Hk; [done|].
  simpl in Hk. destruct (String.eqb k k') eqn:E; [done|].
  apply String.eqb_neq in E.
  unfold Cypher.set_add in *. simpl. rewrite IH by done.
  unfold Cypher.set_prop. simpl.
  destruct v; rewrite ?lookup_delete_ne, ?lookup_insert_ne; done.
Qed.

(** ** Filtering with a boolean test *)

Lemma filter_bool_cons {A : Type} (p : A -> bool) (x : A) (l : list A) :
  filter (fun y => p y) (x :: l)
  = if p x then x :: filter (fun y => p y) l else filter (fun y => p y) l.
Proof. rewrite filter_cons. destruct (p x); by case_decide. Qed.

Lemma filter_bool_app {A : Type} (p : A -> bool) (l1 l2 : list A) :
  filter (fun y => p y) (l1 ++ l2)
  = filter (fun y => p y) l1 ++ filter (fun y => p y) l2.
Proof. apply filter_app. Qed.

Lemma elem_of_filter_bool {A : Type} (p : A -> bool) (x : A) (l : list A) :
  x ∈ filter (fun y => p y) l <-> p x = true /\ x ∈ l.
Proof. rewrite list_elem_of_filter, Is_true_true. done. Qed.

Lemma elem_of_map {A B : Type} (f : A -> B) (l : list A) (y : B) :
  y ∈ map f l <-> exists x, y = f x /\ x ∈ l.
Proof.
  rewrite list_elem_of_In, in_map_iff. split.
  - intros (x & <- & Hx). exists x. by rewrite list_elem_of_In.
  - intros (x & -> & Hx). exists x. by rewrite <- list_elem_of_In.
Qed.

(** ** Relationships between two nodes *)

Lemma between_spec (a : nat) (T : string) (b : nat) (r : relationship) :
  Cypher.between a T b r = true
  <-> rel_start r = a /\ rel_type r = T /\ rel_end r = b.
Proof.
  unfold Cypher.between.
  rewrite !andb_true_iff, !Nat.eqb_eq, String.eqb_eq. tauto.
Qed.

Lemma between_props (a : nat) (T : string) (b : nat) (r : relationship)
    (m : gmap string pyval) :
  Cypher.between a T b (mk_rel (rel_start r) (rel_type r) (rel_end r) m)
  = Cypher.between a T b r.
Proof. done. Qed.

Lemma between_other (a a' : nat) (T T' : string) (b b' : nat) (r : relationship) :
  (a, T, b) <> (a', T', b') ->
  Cypher.between a T b r = true -> Cypher.between a' T' b' r = false.
Proof.
  intros Hne H. apply between_spec in H as (<- & <- & <-).
  apply not_true_is_false. intros H'.
  apply between_spec in H' as (<- & <- & <-). done.
Qed.

(** Rewriting the properties of the relationships of one endpoint pair
    leaves those of every other pair or type as they are. *)
Lemma rels_between_map_other (a a' : nat) (T T' : string) (b b' : nat)
    (f : relationship -> gmap string pyval) (rs : list relationship) :
  (a, T, b) <> (a', T', b') ->
  Cypher.rels_between a' T' b'
    (map (fun r => if Cypher.between a T b r
                   then mk_rel (rel_start r) (rel_type r) (rel_end r) (f r)
                   else r) rs)
  = Cypher.rels_between a' T' b' rs.
Proof.
  intros Hne. unfold Cypher.rels_between.
  induction rs as [|r rs IH]; [done|]. simpl.
  destruct (Cypher.between a T b r) eqn:E.
  - rewrite !filter_bool_cons, between_props, (between_other _ _ _ _ _ _ _ Hne E).
    done.
  - rewrite !filter_bool_cons, IH. done.
Qed.

Lemma rels_between_map_same (a : nat) (T : string) (b : nat)
    (f : relationship -> gmap string pyval) (rs : list relationship) :
  Cypher.rels_between a T b
    (map (fun r => if Cypher.between a T b r
                   then mk_rel (rel_start r) (rel_type r) (rel_end r) (f r)
                   else r) rs)
  = map (fun r => mk_rel (rel_start r) (rel_type r) (rel_end r) (f r))
      (Cypher.rels_between a T b rs).
Proof.
  unfold Cypher.rels_between.
  induction rs as [|r rs IH]; [done|]. simpl.
  destruct (Cypher.between a T b r) eqn:E.
  - rewrite !filter_bool_cons, between_props, E. simpl. by rewrite IH.
  - by rewrite !filter_bool_cons, E.
Qed.

Lemma rels_between_nil (a : nat) (T : string) (b : nat) (rs : list relationship) :
  existsb (Cypher.between a T b) rs = false <-> Cypher.rels_between a T b rs = [].
Proof.
  unfold Cypher.rels_between. induction rs as [|r rs IH]; [done|].
  simpl. rewrite filter_bool_cons. destruct (Cypher.between a T b r); simpl.
  - split; discriminate.
  - done.
Qed.

Lemma rel_eta (r : relationship) (m : gmap string pyval) :
  rel_props r = m -> mk_rel (rel_start r) (rel_type r) (rel_end r) m = r.
Proof. intros <-. by destruct r. Qed.

Lemma merge_rel_other (a' : nat) (T' : string) (b' : nat) (T : string)
    (d : pydict) (rs : list relationship) (ab : nat * nat) :
  (ab.1, T, ab.2) <> (a', T', b') ->
  Cypher.rels_between a' T' b' (Cypher.merge_rel T d rs ab)
  = Cypher.rels_between a' T' b' rs.
Proof.
  intros Hne. unfold Cypher.merge_rel.
  destruct (existsb _ rs).
  - by apply rels_between_map_other.
  - unfold Cypher.rels_between. rewrite filter_bool_app, filter_bool_cons.
    destruct (Cypher.between a' T' b' _) eqn:E.
    + apply between_spec in E as (E1 & E2 & E3). simpl in *. congruence.
    + simpl. by rewrite app_nil_r.
Qed.

Lemma merge_rel_same (a : nat) (T : string) (b : nat) (d : pydict)
    (rs : list relationship) :
  Cypher.rels_between a T b (Cypher.merge_rel T d rs (a, b))
  = match Cypher.rels_between a T b rs with
    | [] => [mk_rel a T b (Cypher.set_replace d)]
    | l => map (fun r => mk_rel (rel_start r) (rel_type r) (rel_end r)
                           (Cypher.set_replace d)) l
    end.
Proof.
  unfold Cypher.merge_rel. simpl.
  destruct (existsb _ rs) eqn:E.
  - rewrite rels_between_map_same.
    destruct (Cypher.rels_between a T b rs) eqn:E'; [|done].
    apply rels_between_nil in E'. congruence.
  - apply rels_between_nil in E.
    unfold Cypher.rels_between in *. rewrite filter_bool_app, E. simpl.
    rewrite filter_bool_cons.
    replace (Cypher.between a T b _) with true; [done|].
    symmetry. by apply between_spec.
Qed.

(** What [MERGE ... SET r = $map] leaves between a matched pair: the same
    number of relationships, or one when there was none, all carrying the
    new property map. *)
Lemma merge_rel_replaces (a : nat) (T : string) (b : nat) (d : pydict)
    (rs : list relationship) :
  let after := Cypher.rels_between a T b (Cypher.merge_rel T d rs (a, b)) in
  length after = Nat.max 1 (length (Cypher.rels_between a T b rs))
  /\ Forall (fun r => rel_props r = Cypher.set_replace d) after.
Proof.
  simpl. rewrite merge_rel_same.
  destruct (Cypher.rels_between a T b rs) as [|r l]; simpl.
  - split; [done|]. by repeat constructor.
  - rewrite length_map. split; [done|].
    constructor; [done|]. apply Forall_map. by apply Forall_true.
Qed.

Lemma merge_rel_stable (a : nat) (T : string) (b : nat) (d : pydict)
    (rs : list relationship) (ab : nat * nat) :
  Cypher.rels_between a T b rs <> [] ->
  Forall (fun r => rel_props r = Cypher.set_replace d)
    (Cypher.rels_between a T b rs) ->
  Cypher.rels_between a T b (Cypher.merge_rel T d rs ab)
  = Cypher.rels_between a T b rs.
Proof.
  intros Hne Hall. destruct (decide (ab = (a, b))) as [->|Hab].
  - rewrite merge_rel_same.
    destruct (Cypher.rels_between a T b rs) as [|r l] eqn:E; [done|].
    clear E Hne. induction Hall as [|x xs Hx _ IH]; [done|].
    simpl. rewrite rel_eta by done. f_equal. apply IH.
  - apply merge_rel_other. destruct ab. simpl. congruence.
Qed.

Lemma merge_all_stable (a : nat) (T : string) (b : nat) (d : pydict)
    (rows : list (nat * nat)) (rs : list relationship) :
  Cypher.rels_between a T b rs <> [] ->
  Forall (fun r => rel_props r = Cypher.set_replace d)
    (Cypher.rels_between a T b rs) ->
  Cypher.rels_between a T b (foldl (Cypher.merge_rel T d) rs rows)
  = Cypher.rels_between a T b rs.
Proof.
  revert rs. induction rows as [|ab rows IH]; intros rs Hne Hall; [done|].
  simpl. pose proof (merge_rel_stable a T b d rs ab Hne Hall) as E.
  rewrite IH; rewrite E; done.
Qed.

Lemma merge_all_other (a' : nat) (T' : string) (b' : nat) (T : string)
    (d : pydict) (rows : list (nat * nat)) (rs : list relationship) :
  (T = T' -> (a', b') ∉ rows) ->
  Cypher.rels_between a' T' b' (foldl (Cypher.merge_rel T d) rs rows)
  = Cypher.rels_between a' T' b' rs.
Proof.
  revert rs. induction rows as [|ab rows IH]; intros rs Hout; [done|].
  simpl. rewrite IH.
  - apply merge_rel_other. intros [= E1 E2 E3]. apply Hout; [done|].
    destruct ab. simpl in *. subst. left.
  - intros HT Hin. apply Hout; [done|]. by right.
Qed.

Lemma merge_all_replaces (a : nat) (T : string) (b : nat) (d : pydict)
    (rows : list (nat * nat)) (rs : list relationship) :
  (a, b) ∈ rows ->
  let after := Cypher.rels_between a T b (foldl (Cypher.merge_rel T d) rs rows) in
  length after = Nat.max 1 (length (Cypher.rels_between a T b rs))
  /\ Forall (fun r => rel_props r = Cypher.set_replace d) after.
Proof.
  simpl. revert rs. induction rows as [|ab rows IH]; intros rs Hin.
  - by apply not_elem_of_nil in Hin.
  - simpl. destruct (decide (ab = (a, b))) as [->|Hab].
    + destruct (merge_rel_replaces a T b d rs) as [Hlen Hall].
      rewrite merge_all_stable; [done| |done].
      intros E. rewrite E in Hlen. simpl in Hlen. lia.
    + apply elem_of_cons in Hin as [Hin|Hin]; [congruence|].
      destruct (IH (Cypher.merge_rel T d rs ab) Hin) as [Hlen Hall].
      rewrite merge_rel_other in Hlen; [done|].
      destruct ab. simpl. congruence.
Qed.

(** [SET r += $map] keeps what the map does not mention. *)
Lemma update_all_keeps (a : nat) (T T0 : string) (b : nat) (d : pydict)
    (k : string) (rows : list (nat * nat)) (rs : list relationship) :
  dict_lookup k d = None ->
  map (fun r => rel_props r !! k)
    (Cypher.rels_between a T b (foldl (Cypher.update_rel T0 d) rs rows))
  = map (fun r => rel_props r !! k) (Cypher.rels_between a T b rs).
Proof.
  intros Hk. revert rs. induction rows as [|ab rows IH]; intros rs; [done|].
  simpl. rewrite IH. unfold Cypher.update_rel.
  destruct (decide ((ab.1, T0, ab.2) = (a, T, b))) as [[= -> -> ->]|Hne].
  - rewrite rels_between_map_same, map_map. apply map_ext. intros r. simpl.
    by apply set_add_absent.
  - by rewrite rels_between_map_other.
Qed.

(** A dictionary without [None] values is stored entry by entry. *)
Lemma set_add_lookup (d : pydict) (m : gmap string pyval) (k : string) :
  NoDup (dict_keys d) ->
  Forall (fun kv => is_none kv.2 = false) d ->
  Cypher.set_add m d !! k
  = match dict_lookup k d with Some v => Some v | None => m !! k end.
Proof.
  revert m. induction d as [|[k' v] d IH]; intros m Hnd Hnn; [done|].
  apply NoDup_cons in Hnd as [Hk' Hnd]. apply Forall_cons in Hnn as [Hv Hnn].
  unfold Cypher.set_add in *. simpl. rewrite IH by done.
  destruct (String.eqb k k') eqn:E.
  - apply String.eqb_eq in E. subst k'.
    replace (dict_lookup k d) with (@None pyval).
    + unfold Cypher.set_prop. simpl in *.
      destruct v; try discriminate; by rewrite lookup_insert_eq.
    + symmetry. clear -Hk'. induction d as [|[k0 v0] d IH]; [done|].
      simpl in *. apply not_elem_of_cons in Hk' as [Hne Hk'].
      destruct (String.eqb k k0) eqn:E; [|by apply IH].
      apply String.eqb_eq in E. congruence.
  - apply String.eqb_neq in E. destruct (dict_lookup k d); [done|].
    unfold Cypher.set_prop. simpl.
    destruct v; rewrite ?lookup_delete_ne, ?lookup_insert_ne; done.
Qed.

(** [SET r += $map] on a matched pair: under each key, the value of the
    map where it has one, and the previous value where it has none. *)
Lemma update_all_merges (a : nat) (T : string) (b : nat) (d : pydict)
    (k : string) (rows : list (nat * nat)) (rs : list relationship) :
  NoDup (dict_keys d) ->
  Forall (fun kv => is_none kv.2 = false) d ->
  map (fun r => rel_props r !! k)
    (Cypher.rels_between a T b (foldl (Cypher.update_rel T d) rs rows))
  = map (fun r => if decide ((a, b) ∈ rows)
                  then match dict_lookup k d with
                       | Some v => Some v
                       | None => rel_props r !! k
                       end
                  else rel_props r !! k)
      (Cypher.rels_between a T b rs).
Proof.
  intros Hnd Hnn. revert rs. induction rows as [|ab rows IH]; intros rs.
  - apply map_ext. intros r. by rewrite decide_False by apply not_elem_of_nil.
  - cbn [foldl]. rewrite IH. unfold Cypher.update_rel.
    destruct (decide (ab = (a, b))) as [->|Hab].
    + cbn [fst snd]. rewrite rels_between_map_same, map_map.
      apply map_ext. intros r. cbn [rel_props].
      rewrite (decide_True (P := (a, b) ∈ (a, b) :: rows)) by left.
      rewrite set_add_lookup by done.
      destruct (decide ((a, b) ∈ rows)); by destruct (dict_lookup k d).
    + rewrite rels_between_map_other
        by (destruct ab; cbn [fst snd]; congruence).
      apply map_ext. intros r.
      destruct (decide ((a, b) ∈ rows)) as [Hin|Hout].
      * by rewrite decide_True by (by right).
      * rewrite decide_False; [done |].
        intros [E|E]%elem_of_cons; [by apply Hab | done].
Qed.

(** ** The relationship upsert (neo4j/construction.py) *)

Lemma storable_not_none (d : pydict) :
  Forall (fun kv => Cypher.storable kv.2 = true) d ->
  Cypher.settable d = true /\ Forall (fun kv => is_none kv.2 = false) d.
Proof.
  intros Hd. split.
  - unfold Cypher.settable. apply forallb_forall. intros kv Hin.
    rewrite Forall_forall in Hd. rewrite (Hd kv); [apply orb_true_r|].
    by apply list_elem_of_In.
  - eapply Forall_impl; [exact Hd|]. intros [k v] Hs. simpl in *.
    by destruct v.
Qed.

Lemma create_relationship_rels (g : graph) (sl : string) (sp : pydict)
    (sk : list string) (el : string) (ep : pydict) (ek : list string)
    (T : string) (d : pydict) (rows : list (nat * nat)) :
  Construction.endpoint_rows g sl sp sk el ep ek "rel_properties" (VDict d)
  = Ok rows ->
  Cypher.settable d = true ->
  let g' := (Construction.create_relationship g sl sp sk el ep ek T (Some d)).1 in
  nodes g' = nodes g /\ layers g' = layers g /\ next_id g' = next_id g
  /\ rels g' = foldl (Cypher.merge_rel T d) (rels g) rows.
Proof.
  intros Hrows Hset. unfold Construction.create_relationship. simpl.
  rewrite Hrows, Hset. done.
Qed.

(** What one upsert leaves between a matched endpoint pair. *)
Lemma create_relationship_replaces_properties_aux (g : graph)
    (sl : string) (sp : pydict) (sk : list string)
    (el : string) (ep : pydict) (ek : list string)
    (T : string) (d : pydict) (rows : list (nat * nat)) (a b : nat) :
  Construction.endpoint_rows g sl sp sk el ep ek "rel_properties" (VDict d)
  = Ok rows ->
  (a, b) ∈ rows ->
  NoDup (dict_keys d) ->
  Forall (fun kv => Cypher.storable kv.2 = true) d ->
  let created := (Construction.create_relationship g sl sp sk el ep ek T (Some d)).1 in
  let before := Cypher.rels_between a T b (rels g) in
  let after := Cypher.rels_between a T b (rels created) in
  length after = Nat.max 1 (length before)
  /\ (forall r k, r ∈ after -> rel_props r !! k = dict_lookup k d).
Proof.
  intros Hrows Hin Hnd Hst. simpl.
  destruct (storable_not_none d Hst) as [Hset Hnn].
  destruct (create_relationship_rels g sl sp sk el ep ek T d rows Hrows Hset)
    as (_ & _ & _ & ->).
  destruct (merge_all_replaces a T b d rows (rels g) Hin) as [Hlen Hall].
  rewrite Forall_forall in Hall. split; [exact Hlen|].
  intros r k Hr. rewrite (Hall r Hr). unfold Cypher.set_replace.
  rewrite set_add_lookup by done. by destruct (dict_lookup k d).
Qed.

(** C7. The relationship upsert creates at most one relationship of the
    given type between a matched endpoint pair (one when there was none,
    none otherwise) and replaces the whole property map: afterwards every
    relationship of that type between the pair carries exactly the
    supplied properties, so a property absent from the supplied map is
    gone.  The update operation, by contrast, merges: it creates no
    relationship, and each relationship between a pair it matches then
    holds, under each key, the value of the map where the map has the key
    and its previous value where it has not; between any pair, a key the
    map does not mention keeps its value. *)
Theorem create_relationship_replaces_properties (g : graph)
    (sl : string) (sp : pydict) (sk : list string)
    (el : string) (ep : pydict) (ek : list string)
    (T : string) (d : pydict) (rows : list (nat * nat)) (a b : nat) :
  Construction.endpoint_rows g sl sp sk el ep ek "rel_properties" (VDict d)
  = Ok rows ->
  (a, b) ∈ rows ->
  NoDup (dict_keys d) ->
  Forall (fun kv => Cypher.storable kv.2 = true) d ->
  let created := (Construction.create_relationship g sl sp sk el ep ek T (Some d)).1 in
  let update := Construction.update_relationship_properties g sl sp sk el ep ek T d in
  let updated := update.1 in
  let before := Cypher.rels_between a T b (rels g) in
  let after := Cypher.rels_between a T b (rels created) in
  length after = Nat.max 1 (length before)
  /\ (forall r k, r ∈ after -> rel_props r !! k = dict_lookup k d)
  /\ (forall r k, r ∈ after -> dict_lookup k d = None -> rel_props r !! k = None)
  /\ (forall k, dict_lookup k d = None ->
        map (fun r => rel_props r !! k) (Cypher.rels_between a T b (rels updated))
        = map (fun r => rel_props r !! k) before)
  /\ (forall matched,
        Construction.endpoint_rows g sl sp sk el ep ek "new_properties" (VDict d)
        = Ok matched ->
        (a, b) ∈ matched ->
        update.2 = true
        /\ forall k,
             map (fun r => rel_props r !! k)
               (Cypher.rels_between a T b (rels updated))
             = map (fun r => match dict_lookup k d with
                             | Some v => Some v
                             | None => rel_props r !! k
                             end) before).
Proof.
  intros Hrows Hin Hnd Hst. simpl.
  destruct (create_relationship_replaces_properties_aux g sl sp sk el ep ek T d
              rows a b Hrows Hin Hnd Hst) as [Hlen Hprops].
  split; [exact Hlen|]. split; [exact Hprops|]. split; [|split].
  - intros r k Hr Hk. by rewrite Hprops.
  - intros k Hk. unfold Construction.update_relationship_properties.
    destruct (Construction.endpoint_rows g sl sp sk el ep ek "new_properties" _);
      [|reflexivity].
    destruct (negb _); [reflexivity|]. simpl. by apply update_all_keeps.
  - intros matched Hmatched Hpair.
    destruct (storable_not_none d Hst) as [Hset Hnn].
    unfold Construction.update_relationship_properties.
    rewrite Hmatched, Hset. cbn [negb fst snd rels]. split; [done |].
    intros k. rewrite update_all_merges by done.
    apply map_ext. intros r. by rewrite decide_True.
Qed.

(** The upsert on a pair that already has a relationship with two
    properties: one relationship remains, with the supplied property only.
    The update on the same pair keeps the relationship's other property. *)
Lemma create_relationship_replaces_properties_witness :
  let after :=
    Cypher.rels_between 0 "IS_WITHIN" 1
      (rels (Construction.create_relationship UpsertExample.g0
               "BlockGroup" [("ct_block_group", VStr "10001")] ["ct_block_group"]
               "Zipcode" [("zipcode_number", VStr "92101")] ["zipcode_number"]
               "IS_WITHIN" (Some UpsertExample.supplied)).1) in
  let updated :=
    Cypher.rels_between 0 "IS_WITHIN" 1
      (rels (Construction.update_relationship_properties UpsertExample.g0
               "BlockGroup" [("ct_block_group", VStr "10001")] ["ct_block_group"]
               "Zipcode" [("zipcode_number", VStr "92101")] ["zipcode_number"]
               "IS_WITHIN" UpsertExample.supplied).1) in
  length after = 1%nat
  /\ (forall r k, r ∈ after -> rel_props r !! k = dict_lookup k UpsertExample.supplied)
  /\ map (fun r => rel_props r !! "containment_type") updated = [Some (VStr "Full")]
  /\ map (fun r => rel_props r !! "overlap_ratio") updated = [Some (VFloat 0.5)].
Proof.
  destruct (create_relationship_replaces_properties UpsertExample.g0
              "BlockGroup" [("ct_block_group", VStr "10001")] ["ct_block_group"]
              "Zipcode" [("zipcode_number", VStr "92101")] ["zipcode_number"]
              "IS_WITHIN" UpsertExample.supplied [(0%nat, 1%nat)] 0%nat 1%nat)
    as (Hlen & Hprops & _ & _ & Hupdate).
  - vm_compute. reflexivity.
  - apply list_elem_of_singleton. reflexivity.
  - repeat constructor. apply not_elem_of_nil.
  - repeat constructor.
  - destruct (Hupdate [(0%nat, 1%nat)]) as [_ Hmerged].
    + vm_compute. reflexivity.
    + apply list_elem_of_singleton. reflexivity.
    + split; [exact Hlen |]. split; [exact Hprops |]. split.
      * exact (Hmerged "containment_type").
      * exact (Hmerged "overlap_ratio").
Defined.

(** ** Matching endpoints *)

Lemma elem_of_pairs (xs ys : list node) (x y : node) :
  x ∈ xs -> y ∈ ys -> (node_id x, node_id y) ∈ Cypher.pairs xs ys.
Proof.
  intros Hx Hy. unfold Cypher.pairs.
  apply list_elem_of_bind. exists x. split; [|done].
  apply list_elem_of_bind. exists y. split; [|done].
  apply list_elem_of_singleton. reflexivity.
Qed.

Lemma elem_of_pairs_inv (xs ys : list node) (a b : nat) :
  (a, b) ∈ Cypher.pairs xs ys ->
  exists x y, x ∈ xs /\ y ∈ ys /\ a = node_id x /\ b = node_id y.
Proof.
  unfold Cypher.pairs. intros Hab.
  apply list_elem_of_bind in Hab as (x & Hab & Hx).
  apply list_elem_of_bind in Hab as (y & Hab & Hy).
  apply list_elem_of_singleton in Hab as [= -> ->]. by exists x, y.
Qed.

Lemma node_by_id (l : list node) (x y : node) :
  NoDup (map node_id l) -> x ∈ l -> y ∈ l -> node_id x = node_id y -> x = y.
Proof.
  induction l as [|n l IH]; intros Hnd Hx Hy Hid.
  - by apply not_elem_of_nil in Hx.
  - simpl in Hnd. apply NoDup_cons in Hnd as [Hn Hnd].
    assert (forall z, z ∈ l -> node_id z <> node_id n) as Hfresh.
    { intros z Hz E. apply Hn. rewrite <- E. apply elem_of_map. eauto. }
    apply elem_of_cons in Hx as [->|Hx], Hy as [->|Hy]; [done| | |by apply IH].
    + exfalso. by apply (Hfresh y Hy).
    + exfalso. by apply (Hfresh x Hx).
Qed.

Lemma create_relationship_nodes (g : graph) (sl : string) (sp : pydict)
    (sk : list string) (el : string) (ep : pydict) (ek : list string)
    (T : string) (d : option pydict) :
  nodes (Construction.create_relationship g sl sp sk el ep ek T d).1 = nodes g.
Proof.
  unfold Construction.create_relationship.
  destruct (Construction.endpoint_rows _ _ _ _ _ _ _ _ _); [|done].
  by destruct (negb _).
Qed.

Lemma cypher_eqb_str_param (s : string) (p : pyval) :
  Cypher.eqb (VStr s) p = true -> p = VStr s.
Proof.
  destruct p; simpl; try discriminate.
  intros Hs. apply String.eqb_eq in Hs. by subst.
Qed.

(** ** Geometric containment (etl/administrative_topology.py) *)

Section Containment.
Context `{SpatialExtension} `{Shapely}.

Import AdministrativeTopology.

(** The pairs of the query are nodes of the graph with the two labels. *)
Lemma query_rows_sound (g : graph) (bgs : list node)
    (found : list (node * node)) (bg zip : node) :
  query_rows g bgs = Ok found -> (bg, zip) ∈ found ->
  bg ∈ bgs /\ zip ∈ nodes g /\ node_label zip = "Zipcode".
Proof.
  revert found. induction bgs as [|x bgs IH]; intros found Hq Hin; simpl in Hq.
  - injection Hq as <-. by apply not_elem_of_nil in Hin.
  - destruct (layers g !! "zipcode_layer") as [l|]; [|discriminate].
    destruct (negb _); [discriminate|].
    bind_inv Hq. injection Hq as <-.
    apply elem_of_app in Hin as [Hin|Hin].
    + apply elem_of_map in Hin as (z & [= -> ->] & Hz).
      unfold intersecting in Hz. apply elem_of_filter_bool in Hz as [Hp Hz].
      rewrite !andb_true_iff in Hp. destruct Hp as [[_ Hl] _].
      apply String.eqb_eq in Hl. split; [left|done].
    + destruct (IH a Ha Hin) as (? & ? & ?). split; [by right|done].
Qed.

Lemma intersecting_pairs_sound (g : graph) (found : list (node * node))
    (bg zip : node) :
  intersecting_pairs g = Ok found -> (bg, zip) ∈ found ->
  bg ∈ nodes g /\ node_label bg = "BlockGroup"
  /\ zip ∈ nodes g /\ node_label zip = "Zipcode".
Proof.
  intros Hq Hin. destruct (query_rows_sound _ _ _ _ _ Hq Hin) as (Hbg & Hz & Hl).
  apply elem_of_filter_bool in Hbg as [Hb Hbg]. apply String.eqb_eq in Hb. done.
Qed.

Lemma float_truediv_nonzero (x y : float) :
  (y =? 0)%float = false -> float_truediv x y = Ok (x / y)%float.
Proof. intros Hy. unfold float_truediv. by rewrite Hy. Qed.

Lemma float_truediv_zero (x y : float) :
  (y =? 0)%float = true ->
  float_truediv x y = raise ZeroDivisionError "float division by zero".
Proof. intros Hy. unfold float_truediv. by rewrite Hy. Qed.

(** Every record is either counted or listed, and no step touches the
    nodes or drops a failure entry. *)
Lemma record_step_outcome (st : batch) (record : intersection_record) :
  let after := record_step st record in
  nodes (store after) = nodes (store st)
  /\ success_count after + Z.of_nat (length (failed_instances after))
     = success_count st + Z.of_nat (length (failed_instances st)) + 1
  /\ exists more, failed_instances after = failed_instances st ++ more.
Proof.
  cbv zeta. unfold record_step, try_record.
  destruct (let* bg_geom := wkt_loads (bg_wkt record) in _) as [ratio|e].
  - pose proof (create_relationship_nodes (store st)) as Hnodes.
    destruct (Construction.create_relationship _ _ _ _ _ _ _ _ _) as [g' flag]
      eqn:Ecreate.
    cbn [store success_count failed_instances]. split.
    + specialize (Hnodes "BlockGroup" [("ct_block_group", block_group record)]
                    ["ct_block_group"] "Zipcode" [("zipcode_number", zipcode record)]
                    ["zipcode_number"] "IS_WITHIN"
                    (Some [("containment_type", VStr (containment_type ratio));
                           ("overlap_ratio", VFloat ratio)])).
      by rewrite Ecreate in Hnodes.
    + split; [lia |]. exists []. by rewrite app_nil_r.
  - cbn [store success_count failed_instances]. split; [done |]. split.
    + rewrite length_app, Nat2Z.inj_add. cbn [length]. lia.
    + by eexists.
Qed.

Lemma records_outcome (records : list intersection_record) (st : batch) :
  let final := foldl record_step st records in
  nodes (store final) = nodes (store st)
  /\ success_count final + Z.of_nat (length (failed_instances final))
     = success_count st + Z.of_nat (length (failed_instances st))
       + Z.of_nat (length records)
  /\ exists more, failed_instances final = failed_instances st ++ more.
Proof.
  cbv zeta. revert st. induction records as [|record records IH]; intros st.
  - cbn. split; [done |]. split; [lia |]. exists []. by rewrite app_nil_r.
  - cbn [foldl]. destruct (IH (record_step st record)) as (Hn & Hc & more & Hf).
    destruct (record_step_outcome st record) as (Hn' & Hc' & more' & Hf').
    rewrite Hn, Hc, Hf, Hn', Hf'. split; [done |]. split.
    + rewrite Hf' in Hc'. cbn [length]. lia.
    + exists (more' ++ more). by rewrite app_assoc.
Qed.

(** A step leaves the relationships between two nodes as they are, unless
    its record names the keys of both. *)
Lemma record_step_touches (st : batch) (record : intersection_record) (a b : nat) :
  Cypher.rels_between a "IS_WITHIN" b (rels (store (record_step st record)))
  = Cypher.rels_between a "IS_WITHIN" b (rels (store st))
  \/ exists x y,
       x ∈ nodes (store st) /\ y ∈ nodes (store st)
       /\ a = node_id x /\ b = node_id y
       /\ (exists v, node_props x !! "ct_block_group" = Some v
                     /\ Cypher.eqb v (block_group record) = true)
       /\ (exists v, node_props y !! "zipcode_number" = Some v
                     /\ Cypher.eqb v (zipcode record) = true).
Proof.
  unfold record_step, try_record.
  destruct (let* bg_geom := wkt_loads (bg_wkt record) in _) as [ratio|e];
    [|by left].
  unfold Construction.create_relationship, Construction.endpoint_rows.
  cbn [dict_select dict_lookup String.eqb Ascii.eqb Bool.eqb bind dict_set default
       from_option].
  match goal with |- context [negb ?c] => destruct c end; cbn [negb]; [|by left].
  cbn [store rels fst].
  match goal with |- context [foldl _ _ ?l] => set (rows := l) end.
  destruct (decide ((a, b) ∈ rows)) as [Hin|Hout].
  - right. apply elem_of_pairs_inv in Hin as (x & y & Hx & Hy & -> & ->).
    apply elem_of_filter_bool in Hx as [Hx Hxin], Hy as [Hy Hyin].
    exists x, y. split; [done |]. split; [done |]. split; [done |]. split; [done |].
    unfold Cypher.matches in Hx, Hy.
    cbn [forallb dict_lookup String.eqb Ascii.eqb Bool.eqb] in Hx, Hy.
    apply andb_true_iff in Hx as [_ Hx], Hy as [_ Hy].
    rewrite andb_true_r in Hx, Hy. split.
    + destruct (node_props x !! "ct_block_group") as [v|]; [|done]. by exists v.
    + destruct (node_props y !! "zipcode_number") as [v|]; [|done]. by exists v.
  - left. apply merge_all_other. by intros _.
Qed.

(** The step on the record of a pair whose ratio is defined. *)
Lemma record_step_target (st : batch) (bg zip : node) (bg_key zip_key : string)
    (bg_geom z_geom inter : geometry) :
  bg ∈ nodes (store st) -> node_label bg = "BlockGroup" ->
  zip ∈ nodes (store st) -> node_label zip = "Zipcode" ->
  node_props bg !! "ct_block_group" = Some (VStr bg_key) ->
  node_props zip !! "zipcode_number" = Some (VStr zip_key) ->
  let record := record_of bg zip in
  wkt_loads (bg_wkt record) = Ok bg_geom ->
  wkt_loads (z_wkt record) = Ok z_geom ->
  geom_intersection bg_geom z_geom = Ok inter ->
  (geom_area bg_geom =? 0)%float = false ->
  let overlap_ratio := (geom_area inter / geom_area bg_geom)%float in
  let supplied :=
    [("containment_type", VStr (containment_type overlap_ratio));
     ("overlap_ratio", VFloat overlap_ratio)] in
  let after :=
    Cypher.rels_between (node_id bg) "IS_WITHIN" (node_id zip)
      (rels (store (record_step st record))) in
  length after
  = Nat.max 1 (length (Cypher.rels_between (node_id bg) "IS_WITHIN" (node_id zip)
                         (rels (store st))))
  /\ Forall (fun r => rel_props r = Cypher.set_replace supplied) after.
Proof.
  intros Hbg Hbg_l Hz Hz_l Hbk Hzk record Hbg_geom Hz_geom Hinter Harea
    overlap_ratio supplied.
  assert (Hratio : overlap_ratio_of bg_geom z_geom = Ok overlap_ratio).
  { unfold overlap_ratio_of. rewrite Hinter. simpl.
    by apply float_truediv_nonzero. }
  cbv zeta. unfold record_step, try_record. rewrite Hbg_geom, Hz_geom.
  cbn [bind]. rewrite Hratio. fold supplied.
  unfold Construction.create_relationship, Construction.endpoint_rows.
  cbn [dict_select dict_lookup String.eqb Ascii.eqb Bool.eqb bind dict_set default
       from_option].
  replace (Cypher.settable supplied) with true by done. cbn [negb store rels fst].
  apply merge_all_replaces.
  apply elem_of_pairs; apply elem_of_filter_bool; (split; [|done]);
    unfold Cypher.matches, record, record_of, prop_of;
    cbn [forallb dict_lookup String.eqb Ascii.eqb Bool.eqb block_group zipcode].
  - rewrite Hbg_l, Hbk. cbn. by rewrite String.eqb_refl.
  - rewrite Hz_l, Hzk. cbn. by rewrite String.eqb_refl.
Qed.

(** The loop over records among which only the pair's own record names
    the keys of the pair: once that record is processed, the relationships
    between the pair stay as it left them. *)
Lemma records_settle_the_pair (g : graph) (bg zip : node) (bg_key zip_key : string)
    (bg_geom z_geom inter : geometry) (base : list relationship)
    (records : list intersection_record) (st : batch) :
  NoDup (map node_id (nodes g)) ->
  bg ∈ nodes g -> node_label bg = "BlockGroup" ->
  zip ∈ nodes g -> node_label zip = "Zipcode" ->
  node_props bg !! "ct_block_group" = Some (VStr bg_key) ->
  node_props zip !! "zipcode_number" = Some (VStr zip_key) ->
  let record := record_of bg zip in
  wkt_loads (bg_wkt record) = Ok bg_geom ->
  wkt_loads (z_wkt record) = Ok z_geom ->
  geom_intersection bg_geom z_geom = Ok inter ->
  (geom_area bg_geom =? 0)%float = false ->
  (forall other, other ∈ records ->
     block_group other = VStr bg_key -> zipcode other = VStr zip_key ->
     other = record) ->
  nodes (store st) = nodes g ->
  let overlap_ratio := (geom_area inter / geom_area bg_geom)%float in
  let supplied :=
    [("containment_type", VStr (containment_type overlap_ratio));
     ("overlap_ratio", VFloat overlap_ratio)] in
  let within (s : batch) :=
    Cypher.rels_between (node_id bg) "IS_WITHIN" (node_id zip) (rels (store s)) in
  let settled (s : batch) :=
    length (within s) = Nat.max 1 (length base)
    /\ Forall (fun r => rel_props r = Cypher.set_replace supplied) (within s) in
  within st = base \/ settled st ->
  let final := foldl record_step st records in
  (within final = base \/ settled final)
  /\ (record ∈ records \/ settled st -> settled final).
Proof.
  intros Hnd Hbg Hbg_l Hz Hz_l Hbk Hzk record Hbg_geom Hz_geom Hinter Harea
    Honly Hnodes overlap_ratio supplied within settled Hst final.
  subst final. revert st Hnodes Hst.
  induction records as [|other records IH]; intros st Hnodes Hst.
  - cbn [foldl]. split; [done |]. intros [Hin|Hs]; [|done].
    by apply not_elem_of_nil in Hin.
  - cbn [foldl].
    assert (Hown : settled (record_step st record)).
    { destruct (record_step_target st bg zip bg_key zip_key bg_geom z_geom inter)
        as [Hlen Hall]; try done; try (by rewrite Hnodes).
      split; [|exact Hall]. fold record in Hlen. unfold within. rewrite Hlen.
      destruct Hst as [Hbase | [Hlen' _]].
      - unfold within in Hbase. by rewrite Hbase.
      - unfold within in Hlen'. rewrite Hlen'. lia. }
    assert (Hstep :
              (within (record_step st other) = within st
               \/ settled (record_step st other))
              /\ (other = record -> settled (record_step st other))).
    { split; [|by intros ->].
      destruct (record_step_touches st other (node_id bg) (node_id zip))
        as [Hsame | (x & y & Hx & Hy & Hxid & Hyid
                     & (vx & Hvx & Hxk) & (vy & Hvy & Hyk))];
        [by left |].
      right. rewrite Hnodes in Hx, Hy.
      assert (x = bg) as -> by (by apply (node_by_id (nodes g))).
      assert (y = zip) as -> by (by apply (node_by_id (nodes g))).
      rewrite Hbk in Hvx. rewrite Hzk in Hvy.
      injection Hvx as <-. injection Hvy as <-.
      apply cypher_eqb_str_param in Hxk, Hyk.
      rewrite (Honly other) by (done || left). exact Hown. }
    destruct Hstep as [Hkept Hsettles].
    assert (Hnodes' : nodes (store (record_step st other)) = nodes g).
    { destruct (record_step_outcome st other) as [-> _]. exact Hnodes. }
    assert (Hinv : within (record_step st other) = base
                   \/ settled (record_step st other)).
    { destruct Hkept as [Hsame | Hs]; [|by right].
      destruct Hst as [Hbase | [Hlen Hall]].
      - left. by rewrite Hsame.
      - right. split; by rewrite Hsame. }
    destruct (IH (fun r Hr => Honly r (list_elem_of_further _ _ _ Hr))
                (record_step st other) Hnodes' Hinv) as [Hfinal Hsettled].
    split; [exact Hfinal |].
    intros [Hin | Hs]; apply Hsettled.
    + apply elem_of_cons in Hin as [<- | Hin]; [right; by apply Hsettles | by left].
    + right. destruct Hkept as [Hsame | Hs']; [|done].
      destruct Hs as [Hlen Hall]. split; by rewrite Hsame.
Qed.

(** C1. The routine processes every pair the spatial intersection query
    finds.  For a found pair whose geometries load and intersect, whose
    block group has a non-zero area, and whose keys no other found pair
    with other geometries shares, it computes the ratio of the
    intersection area to the block group's area and the run ends with an
    [IS_WITHIN] relationship between the two nodes (one is created when
    there was none) whose properties are exactly [containment_type],
    [Full] if and only if the ratio exceeds 0.95 and [Partial] otherwise,
    and [overlap_ratio], the ratio itself; 0.9501 gives [Full] and 0.95
    gives [Partial].  Every found pair is counted or listed as failed. *)
Theorem overlap_ratio_classifies_containment (g : graph)
    (found : list (node * node)) (bg zip : node) (bg_key zip_key : string)
    (bg_geom z_geom inter : geometry) :
  intersecting_pairs g = Ok found ->
  (bg, zip) ∈ found ->
  NoDup (map node_id (nodes g)) ->
  node_props bg !! "ct_block_group" = Some (VStr bg_key) ->
  node_props zip !! "zipcode_number" = Some (VStr zip_key) ->
  let record := record_of bg zip in
  (forall other, other ∈ found ->
     block_group (record_of other.1 other.2) = VStr bg_key ->
     zipcode (record_of other.1 other.2) = VStr zip_key ->
     record_of other.1 other.2 = record) ->
  wkt_loads (bg_wkt record) = Ok bg_geom ->
  wkt_loads (z_wkt record) = Ok z_geom ->
  geom_intersection bg_geom z_geom = Ok inter ->
  (geom_area bg_geom =? 0)%float = false ->
  let overlap_ratio := (geom_area inter / geom_area bg_geom)%float in
  let run := create_block_group_zipcode_intersection g in
  let before := Cypher.rels_between (node_id bg) "IS_WITHIN" (node_id zip) (rels g) in
  let within :=
    Cypher.rels_between (node_id bg) "IS_WITHIN" (node_id zip) (rels (store run.1)) in
  overlap_ratio_of bg_geom z_geom = Ok overlap_ratio
  /\ run.2 = true
  /\ success_count run.1 + Z.of_nat (length (failed_instances run.1))
     = Z.of_nat (length found)
  /\ length within = Nat.max 1 (length before)
  /\ within <> []
  /\ (forall r k, r ∈ within ->
        rel_props r !! k
        = dict_lookup k
            [("containment_type",
              VStr (if (0.95 <? overlap_ratio)%float then "Full" else "Partial"));
             ("overlap_ratio", VFloat overlap_ratio)])
  /\ (forall ratio : float,
        containment_type ratio = "Full" <-> (0.95 <? ratio)%float = true)
  /\ containment_type 0.9501 = "Full"
  /\ containment_type 0.95 = "Partial".
Proof.
  intros Hq Hin Hnd Hbk Hzk record Honly Hbg Hz Hinter Harea overlap_ratio.
  destruct (intersecting_pairs_sound g found bg zip Hq Hin)
    as (Hbg_in & Hbg_l & Hz_in & Hz_l).
  assert (Hratio : overlap_ratio_of bg_geom z_geom = Ok overlap_ratio).
  { unfold overlap_ratio_of. rewrite Hinter. simpl.
    by apply float_truediv_nonzero. }
  cbv zeta. unfold create_block_group_zipcode_intersection, intersection_query.
  rewrite Hq. cbn [bind fst snd].
  set (records := map (fun p : node * node => record_of p.1 p.2) found).
  destruct (records_outcome records (mk_batch g 0 [])) as (_ & Hcount & _).
  destruct (records_settle_the_pair g bg zip bg_key zip_key bg_geom z_geom inter
              (Cypher.rels_between (node_id bg) "IS_WITHIN" (node_id zip) (rels g))
              records (mk_batch g 0 []))
    as [_ Hsettled]; try done.
  { intros other Hother Hb Hk. apply elem_of_map in Hother as (p & -> & Hp).
    by apply Honly. }
  { by left. }
  destruct Hsettled as [Hlen Hall].
  { left. apply elem_of_map. by exists (bg, zip). }
  split; [exact Hratio |]. split; [done |]. split.
  { cbn [success_count failed_instances length] in Hcount.
    rewrite Hcount. unfold records. rewrite length_map. lia. }
  split; [exact Hlen |]. split.
  { intros E. rewrite E in Hlen. cbn [length] in Hlen. lia. }
  split.
  { intros r k Hr. rewrite Forall_forall in Hall. rewrite (Hall r Hr).
    unfold Cypher.set_replace. rewrite set_add_lookup.
    - unfold containment_type. by destruct (dict_lookup k _).
    - repeat constructor; [|apply not_elem_of_nil].
      intros Hc. apply list_elem_of_singleton in Hc. discriminate.
    - repeat constructor. }
  split; [|split; reflexivity].
  intros ratio. unfold containment_type.
  destruct (0.95 <? ratio)%float; split; done.
Qed.

(** C4. When the block group's polygon has zero area the record never
    yields a ratio: the computation raises inside the per-record [try]
    block, with the division error when the other steps succeed.  The
    step ends normally, the pair is appended to the failure list with the
    error, nothing is written or counted for it, the loop goes on with
    the records after it, and the routine returns [True]: in the end the
    pair is in the failure list and every record of the query is counted
    or listed. *)
Theorem zero_area_is_recorded_and_skipped (g : graph)
    (pre : list intersection_record) (record : intersection_record)
    (rest : list intersection_record) (bg_geom : geometry) :
  intersection_query g = Ok (pre ++ record :: rest) ->
  wkt_loads (bg_wkt record) = Ok bg_geom ->
  (geom_area bg_geom =? 0)%float = true ->
  let before := foldl record_step (mk_batch g 0 []) pre in
  let run := create_block_group_zipcode_intersection g in
  exists e,
    let entry :=
      [("block_group", block_group record);
       ("zipcode", zipcode record);
       ("error", VStr (exn_msg e))] in
    let recorded :=
      mk_batch (store before) (success_count before)
        (failed_instances before ++ [entry]) in
    (forall z_geom inter,
       wkt_loads (z_wkt record) = Ok z_geom ->
       geom_intersection bg_geom z_geom = Ok inter ->
       overlap_ratio_of bg_geom z_geom = Raise e
       /\ exn_type e = ZeroDivisionError)
    /\ record_step before record = recorded
    /\ run = (foldl record_step recorded rest, true)
    /\ entry ∈ failed_instances run.1
    /\ success_count run.1 + Z.of_nat (length (failed_instances run.1))
       = Z.of_nat (length (pre ++ record :: rest)).
Proof.
  intros Hq Hbg Harea before run.
  assert (Hraises : exists e,
            (let* bg_geom := wkt_loads (bg_wkt record) in
             let* z_geom := wkt_loads (z_wkt record) in
             overlap_ratio_of bg_geom z_geom) = Raise e
            /\ forall z_geom inter,
                 wkt_loads (z_wkt record) = Ok z_geom ->
                 geom_intersection bg_geom z_geom = Ok inter ->
                 overlap_ratio_of bg_geom z_geom = Raise e
                 /\ exn_type e = ZeroDivisionError).
  { rewrite Hbg. cbn [bind].
    destruct (wkt_loads (z_wkt record)) as [z_geom|e] eqn:Ez; cbn [bind].
    2:{ exists e. split; [done |]. intros ? ? [=]. }
    unfold overlap_ratio_of.
    destruct (geom_intersection bg_geom z_geom) as [inter|e] eqn:Einter; cbn [bind].
    2:{ exists e. split; [done |]. intros ? ? [= <-]. by rewrite Einter. }
    rewrite float_truediv_zero by done. eexists. split; [reflexivity |].
    intros ? ? [= <-] Hinter. rewrite Hinter. cbn [bind].
    by rewrite float_truediv_zero. }
  destruct Hraises as (e & Hraise & Hdivision). exists e. cbv zeta.
  assert (Hstep : record_step before record
                  = mk_batch (store before) (success_count before)
                      (failed_instances before
                       ++ [[("block_group", block_group record);
                            ("zipcode", zipcode record);
                            ("error", VStr (exn_msg e))]])).
  { unfold record_step, try_record. by rewrite Hraise. }
  assert (Hrun : run
                 = (foldl record_step
                      (mk_batch (store before) (success_count before)
                         (failed_instances before
                          ++ [[("block_group", block_group record);
                               ("zipcode", zipcode record);
                               ("error", VStr (exn_msg e))]])) rest, true)).
  { unfold run, create_block_group_zipcode_intersection. rewrite Hq.
    rewrite foldl_app. cbn [foldl]. fold before. by rewrite Hstep. }
  split; [exact Hdivision |]. split; [exact Hstep |]. split; [exact Hrun |].
  split.
  - rewrite Hrun. cbn [fst].
    match goal with |- context [foldl record_step ?s rest] =>
      destruct (records_outcome rest s) as (_ & _ & more & ->) end.
    cbn [failed_instances]. apply elem_of_app. left. apply elem_of_app. right. left.
  - unfold run, create_block_group_zipcode_intersection. rewrite Hq. cbn [fst].
    destruct (records_outcome (pre ++ record :: rest) (mk_batch g 0 []))
      as (_ & -> & _).
    cbn [success_count failed_instances length]. lia.
Qed.

End Containment.

(** The square block group and the zip code covering its left half: ratio
    0.5, [Partial], written by the run over both block groups. *)
Lemma overlap_ratio_classifies_containment_witness :
  let run :=
    AdministrativeTopology.create_block_group_zipcode_intersection
      ContainmentExample.g0 in
  let within := Cypher.rels_between 0 "IS_WITHIN" 1 (rels (store run.1)) in
  run.2 = true
  /\ length within = 1%nat
  /\ (forall r k, r ∈ within ->
        rel_props r !! k
        = dict_lookup k [("containment_type", VStr "Partial");
                         ("overlap_ratio", VFloat 0.5)]).
Proof.
  destruct (@overlap_ratio_classifies_containment
              Reference.spatial_extension Reference.shapely ContainmentExample.g0
              [(ContainmentExample.block_group_node, ContainmentExample.zipcode_node);
               (ContainmentExample.flat_block_group, ContainmentExample.zipcode_node)]
              ContainmentExample.block_group_node ContainmentExample.zipcode_node
              "10001" "92101" Reference.Square Reference.LeftHalf Reference.LeftHalf)
    as (_ & Hflag & _ & Hlen & _ & Hprops & _).
  - vm_compute. reflexivity.
  - left.
  - apply (bool_decide_unpack _). by vm_compute.
  - reflexivity.
  - reflexivity.
  - intros other Hother Hb Hk.
    apply elem_of_cons in Hother as [-> | Hother]; [reflexivity |].
    apply list_elem_of_singleton in Hother as ->. discriminate Hb.
  - vm_compute. reflexivity.
  - vm_compute. reflexivity.
  - reflexivity.
  - vm_compute. reflexivity.
  - split; [exact Hflag |]. split; [exact Hlen | exact Hprops].
Defined.

(** C1 as stated fails on the code: the query finds the pair of the
    degenerate block group and the zip code, the routine ends normally,
    and no relationship is written between the two, so no ratio is
    persisted for that pair. *)
Lemma found_pair_is_left_without_relationship :
  let run :=
    AdministrativeTopology.create_block_group_zipcode_intersection
      ContainmentExample.g0 in
  AdministrativeTopology.intersecting_pairs ContainmentExample.g0
  = Ok [(ContainmentExample.block_group_node, ContainmentExample.zipcode_node);
        (ContainmentExample.flat_block_group, ContainmentExample.zipcode_node)]
  /\ run.2 = true
  /\ Cypher.rels_between 2 "IS_WITHIN" 1 (rels (store run.1)) = []
  /\ ~ (forall found bg zip,
          AdministrativeTopology.intersecting_pairs ContainmentExample.g0 = Ok found ->
          (bg, zip) ∈ found ->
          Cypher.rels_between (node_id bg) "IS_WITHIN" (node_id zip)
            (rels (store run.1)) <> []).
Proof.
  cbv zeta.
  assert (Hfound :
            AdministrativeTopology.intersecting_pairs ContainmentExample.g0
            = Ok [(ContainmentExample.block_group_node, ContainmentExample.zipcode_node);
                  (ContainmentExample.flat_block_group,
                   ContainmentExample.zipcode_node)])
    by (by vm_compute).
  assert (Hnone :
            Cypher.rels_between 2 "IS_WITHIN" 1
              (rels (store (AdministrativeTopology.create_block_group_zipcode_intersection
                              ContainmentExample.g0).1)) = [])
    by (by vm_compute).
  split; [exact Hfound |]. split; [by vm_compute |]. split; [exact Hnone |].
  intros Hall.
  apply (Hall _ ContainmentExample.flat_block_group ContainmentExample.zipcode_node
           Hfound); [right; left | exact Hnone].
Qed.

(** A run in which the block group of zero area comes first: its pair is
    listed with the division error, and the pair after it is processed
    and gets its relationship. *)
Lemma zero_area_is_recorded_and_skipped_witness :
  let run :=
    AdministrativeTopology.create_block_group_zipcode_intersection SkipExample.g0 in
  run.2 = true
  /\ success_count run.1 = 1
  /\ failed_instances run.1
     = [[("block_group", VStr "10002"); ("zipcode", VStr "92101");
         ("error", VStr "float division by zero")]]
  /\ length (Cypher.rels_between 2 "IS_WITHIN" 1 (rels (store run.1))) = 1%nat.
Proof.
  destruct (@zero_area_is_recorded_and_skipped
              Reference.spatial_extension Reference.shapely SkipExample.g0
              []
              (AdministrativeTopology.record_of SkipExample.flat_block_group
                 SkipExample.zipcode_node)
              [AdministrativeTopology.record_of SkipExample.block_group_node
                 SkipExample.zipcode_node]
              Reference.Degenerate)
    as (e & Hdivision & Hstep & Hrun & _ & _);
    [by vm_compute | by vm_compute | by vm_compute |].
  destruct (Hdivision Reference.LeftHalf Reference.Degenerate) as [Hraise _];
    [by vm_compute | by vm_compute |].
  injection Hraise as <-.
  cbv zeta. rewrite Hrun. by vm_compute.
Defined.

(** ** The validator (neo4j/validation.py) *)

(** C10. The run-time type checks overlap: the FLOAT check accepts every
    integer, and the INTEGER and FLOAT checks accept booleans, so such a
    value passes the type validation of a property declared with that
    type. *)
Theorem type_checks_are_not_exclusive `{Builtins} :
  (forall z, Validation.VALIDATORS "FLOAT" (VInt z) = Ok true)
  /\ (forall b, Validation.VALIDATORS "INTEGER" (VBool b) = Ok true)
  /\ (forall b, Validation.VALIDATORS "FLOAT" (VBool b) = Ok true)
  /\ (forall l name z,
        Validation.validate_property (mk_entity l [(name, VInt z)]) name
          (VDict [("type", VStr "FLOAT")]) = Ok tt)
  /\ (forall l name b,
        Validation.validate_property (mk_entity l [(name, VBool b)]) name
          (VDict [("type", VStr "INTEGER")]) = Ok tt)
  /\ (forall l name b,
        Validation.validate_property (mk_entity l [(name, VBool b)]) name
          (VDict [("type", VStr "FLOAT")]) = Ok tt).
Proof.
  repeat split; try done; intros l name v;
    unfold Validation.validate_property, dict_get; simpl;
    rewrite String.eqb_refl; reflexivity.
Qed.

(** [validate_property] enforces a declared range with both bounds
    included: an integer value is accepted exactly when it lies between
    [min] and [max]. *)
Theorem validate_property_range_is_inclusive `{Builtins} (l name : string)
    (v lo hi : Z) :
  Validation.validate_property (mk_entity l [(name, VInt v)]) name
    (VDict [("range", VDict [("min", VInt lo); ("max", VInt hi)])]) = Ok tt
  <-> lo <= v <= hi.
Proof.
  unfold Validation.validate_property, dict_get. simpl.
  rewrite String.eqb_refl. simpl.
  destruct (v <? lo) eqn:Hlo; simpl.
  - apply Z.ltb_lt in Hlo. split; [discriminate|lia].
  - apply Z.ltb_ge in Hlo. destruct (hi <? v) eqn:Hhi; simpl.
    + apply Z.ltb_lt in Hhi. split; [discriminate|lia].
    + apply Z.ltb_ge in Hhi. split; [lia|done].
Qed.

(** The loop of [validate_data] runs over the items of the label's schema
    entry, whose only key is [properties], rather than over the declared
    properties: whatever the declarations require, an entity whose property
    names are all declared is accepted. *)
Lemma validate_data_checks_names_only `{Builtins} (e : entity)
    (constraints section : pyval) (declared : pydict) :
  py_get constraints "nodes" = Ok section ->
  py_get section (label e) = Ok (VDict [("properties", VDict declared)]) ->
  Forall (fun k => k ∈ dict_keys declared) (dict_keys (properties e)) ->
  dict_lookup "exists" declared = None ->
  dict_lookup "properties" (properties e) = None ->
  Validation.validate_data e constraints false = Ok tt.
Proof.
  intros Hnodes Hlabel Hdeclared Hexists Hprops.
  unfold Validation.validate_data. simpl. rewrite Hnodes. simpl.
  rewrite Hlabel. simpl.
  replace (filter _ (dict_keys (properties e))) with (@nil string).
  - simpl. unfold dict_get. rewrite Hexists. simpl.
    unfold Validation.validate_property, dict_get.
    rewrite Hprops. simpl. unfold dict_get. rewrite Hexists. reflexivity.
  - symmetry. induction Hdeclared as [|k ks Hk _ IH]; [done|].
    rewrite filter_cons, decide_False by (intros Hn; by apply Hn). exact IH.
Qed.

(** C2 at a failing input: the schema declares [city_id] of [City] with
    [exists], the entity has no [city_id], [validate_property] would reject
    it, and [validate_data] accepts the entity. *)
Theorem missing_required_property_is_accepted :
  dict_lookup "city_id" (properties ValidationExample.nameless_city) = None
  /\ is_ok (Validation.validate_property ValidationExample.nameless_city
              "city_id" Reference.required_string) = false
  /\ Validation.validate_data ValidationExample.nameless_city Reference.schema false
     = Ok tt.
Proof. split; [|split]; vm_compute; reflexivity. Qed.

(** C6 at a failing input: [population] is declared with the range
    [0, 100]; [validate_property] accepts 0 and 100 and rejects -1 and 101,
    but [validate_data] accepts the entity whose [population] is 101. *)
Theorem out_of_range_value_is_accepted :
  (forall v, v ∈ [0; 100] ->
     Validation.validate_property (mk_entity "City" [("population", VInt v)])
       "population" ValidationExample.population_constraints = Ok tt)
  /\ (forall v, v ∈ [-1; 101] ->
        is_ok (Validation.validate_property
                 (mk_entity "City" [("population", VInt v)])
                 "population" ValidationExample.population_constraints) = false)
  /\ Validation.validate_data ValidationExample.crowded_city Reference.schema false
     = Ok tt.
Proof.
  split; [|split].
  - intros v Hv. repeat (apply elem_of_cons in Hv as [->|Hv]; [by vm_compute|]).
    by apply not_elem_of_nil in Hv.
  - intros v Hv. repeat (apply elem_of_cons in Hv as [->|Hv]; [by vm_compute|]).
    by apply not_elem_of_nil in Hv.
  - by vm_compute.
Qed.

(** ** The business builder (etl/businesses.py) *)

(** A block group's step never reads the totals accumulated so far. *)
Lemma block_group_step_forgets_totals `{Builtins} `{SpatialExtension}
    `{Shapely} `{!PlaceSearch} (constraints : pyval) (st : batch)
    (entry : pyval * (geometry * circle)) :
  Businesses.block_group_step constraints st entry
  = Businesses.block_group_step constraints (mk_batch (store st) 0 []) entry.
Proof. by destruct entry as [? []]. Qed.

(** When the loop over block groups ends normally, the reported count and
    failure list are those of the last block group alone, each taken
    twice. *)
Lemma summary_reports_last_block_group `{Builtins} `{SpatialExtension}
    `{Shapely} `{!PlaceSearch} (constraints : pyval) (st final : batch)
    (earlier : list (pyval * (geometry * circle)))
    (last : pyval * (geometry * circle)) :
  Businesses.block_groups_loop constraints st (earlier ++ [last]) = (final, Ok tt) ->
  exists g businesses,
    let returned :=
      Businesses.create_business_nodes g businesses last.1 constraints in
    store final = store returned
    /\ success_count final = 2 * success_count returned
    /\ failed_instances final
       = failed_instances returned ++ failed_instances returned.
Proof.
  revert st. induction earlier as [|entry earlier IH]; intros st Hloop; simpl in Hloop.
  - destruct last as [ct [polygon c]]. unfold Businesses.block_group_step in Hloop.
    destruct (Businesses.collect_businesses polygon c _) as [businesses|e];
      simpl in Hloop; [|discriminate].
    injection Hloop as <-. exists (store st), businesses. simpl.
    split; [done|]. split; [lia|done].
  - destruct (Businesses.block_group_step constraints st entry) as [st'|e];
      [|discriminate].
    by apply (IH st').
Qed.

(** C9 at two failing inputs.  With one block group holding one bakery,
    one business is created without failure and the summary reports two.
    With a second, empty block group processed after it, the summary
    reports none. *)
Theorem business_summary_is_not_the_batch_total :
  (let run := Businesses.populate_businesses BusinessExample.one_block_group
                Reference.schema in
   run.2 = Ok tt
   /\ length (BusinessExample.businesses_in (store run.1)) = 1%nat
   /\ success_count run.1 = 2 /\ failed_instances run.1 = [])
  /\ (let run := Businesses.populate_businesses BusinessExample.two_block_groups
                   Reference.schema in
      run.2 = Ok tt
      /\ length (BusinessExample.businesses_in (store run.1)) = 1%nat
      /\ success_count run.1 = 0 /\ failed_instances run.1 = []).
Proof. vm_compute. repeat split. Qed.

(** ** The enrichment classifier (etl/geoenrichment.py) *)

Section Enrichment.

Import GeoEnrichment.

Lemma age_group_aggregations_keys (row aggs : pydict) :
  age_group_aggregations row = Ok aggs ->
  dict_keys aggs = ["0-4"; "5-14"; "15-24"; "25-44"; "45-64"; "65+"].
Proof.
  unfold age_group_aggregations. intros Hagg.
  repeat bind_inv Hagg. by injection Hagg as <-.
Qed.

Lemma education_levels_keys (row levels : pydict) :
  education_levels row = Ok levels ->
  dict_keys levels = ["BASIC"; "SECONDARY"; "HIGHER"].
Proof.
  unfold education_levels. intros Hlev.
  repeat bind_inv Hlev. by injection Hlev as <-.
Qed.

Lemma represent_default_keys (key : string) (entries : pydict) :
  represent_default key entries
  = (map (fun name => [(key, VStr name); ("representation", VStr "VERY_LOW")])
       (dict_keys entries),
     map (fun _ => VFloat 0) (dict_keys entries)).
Proof. unfold represent_default, dict_keys. by rewrite !map_map. Qed.

(** Dividing by a population that equals zero raises. *)
Lemma truediv_by_zero_raises (amount total : pyval) :
  py_eq total (VInt 0) = true -> is_ok (py_truediv amount total) = false.
Proof.
  intros Hzero. unfold py_truediv.
  destruct (as_number amount) as [x|]; [|done].
  destruct total; simpl in *; try discriminate; rewrite Hzero; done.
Qed.

(** C3. For a record whose total population equals zero (and whose count
    columns are there to be summed), every age-group bucket and every
    education bucket is [VERY_LOW] with source value 0.0; both classifiers
    return normally, whereas the division the other branch starts with
    would have raised on this population. *)
Theorem zero_population_defaults_to_lowest (row : pydict) (total : pyval) :
  row_get row "totpop_cy" = Ok total ->
  py_eq total (VInt 0) = true ->
  is_ok (age_group_aggregations row) = true ->
  is_ok (education_levels row) = true ->
  determine_age_group_representations row
  = Ok (map (fun group => [("group", VStr group);
                           ("representation", VStr "VERY_LOW")])
          ["0-4"; "5-14"; "15-24"; "25-44"; "45-64"; "65+"],
        [VFloat 0; VFloat 0; VFloat 0; VFloat 0; VFloat 0; VFloat 0])
  /\ determine_education_level row
     = Ok (map (fun level => [("level", VStr level);
                              ("representation", VStr "VERY_LOW")])
             ["BASIC"; "SECONDARY"; "HIGHER"],
           [VFloat 0; VFloat 0; VFloat 0])
  /\ (forall key level_of entry entries,
        is_ok (represent key level_of total (entry :: entries)) = false).
Proof.
  intros Htotal Hzero Hages Hlevels. split; [|split].
  - unfold determine_age_group_representations. rewrite Htotal. simpl.
    destruct (age_group_aggregations row) as [aggs|] eqn:Hagg; [|done].
    simpl. rewrite Hzero, represent_default_keys.
    by rewrite (age_group_aggregations_keys row aggs Hagg).
  - unfold determine_education_level.
    destruct (education_levels row) as [levels|] eqn:Hlev; [|done].
    simpl. rewrite Htotal. simpl. rewrite Hzero, represent_default_keys.
    by rewrite (education_levels_keys row levels Hlev).
  - intros key level_of [name amount] entries. simpl.
    pose proof (truediv_by_zero_raises amount total Hzero) as Hdiv.
    by destruct (py_truediv amount total).
Qed.

End Enrichment.

(** An empty block group. *)
Lemma zero_population_defaults_to_lowest_witness :
  GeoEnrichment.determine_education_level (EnrichmentExample.census_row 0 0)
  = Ok (map (fun level => [("level", VStr level);
                           ("representation", VStr "VERY_LOW")])
          ["BASIC"; "SECONDARY"; "HIGHER"],
        [VFloat 0; VFloat 0; VFloat 0]).
Proof.
  refine (proj1 (proj2
    (zero_population_defaults_to_lowest (EnrichmentExample.census_row 0 0)
       (VInt 0) _ _ _ _))); reflexivity.
Defined.

(** ** The Zipcode builder (etl/administrative_topology.py) *)

Lemma matches_is_zipcode (z : string) (v : pyval) (n : node) :
  Cypher.matches "Zipcode" ["zipcode_number"]
    [("zipcode_number", VStr z); ("remaining_props", v)] n
  = is_zipcode z n.
Proof.
  unfold Cypher.matches, is_zipcode. simpl.
  destruct (node_props n !! "zipcode_number") as [[]|]; simpl;
    rewrite ?andb_true_r, ?andb_false_r; done.
Qed.

Lemma filter_matches_zipcode (z : string) (v : pyval) (l : list node) :
  filter (fun n => Cypher.matches "Zipcode" ["zipcode_number"]
                     [("zipcode_number", VStr z); ("remaining_props", v)] n) l
  = filter (fun n => is_zipcode z n) l.
Proof.
  induction l as [|n l IH]; [done|].
  by rewrite !filter_bool_cons, IH, matches_is_zipcode.
Qed.

Lemma dict_lookup_without (k : string) (d : pydict) :
  dict_lookup k (filter (fun kv : string * pyval => kv.1 ∉ [k]) d) = None.
Proof.
  induction d as [|[k' v] d IH]; [done|].
  rewrite filter_cons. case_decide as Hk; [|done].
  simpl. destruct (String.eqb k k') eqn:E; [|done].
  apply String.eqb_eq in E. subst. exfalso. apply Hk. left.
Qed.

Lemma is_zipcode_update (z : string) (rem : pydict) (n : node) :
  dict_lookup "zipcode_number" rem = None ->
  is_zipcode z (mk_node (node_id n) (node_label n) (Cypher.set_add (node_props n) rem))
  = is_zipcode z n.
Proof. intros Hrem. unfold is_zipcode. simpl. by rewrite set_add_absent. Qed.

Lemma filter_map_preserved {A : Type} (p : A -> bool) (f : A -> A) (l : list A) :
  (forall x, p (f x) = p x) ->
  length (filter (fun x => p x) (map f l)) = length (filter (fun x => p x) l).
Proof.
  intros Hp. induction l as [|x l IH]; [done|].
  simpl. rewrite !filter_bool_cons, Hp. destruct (p x); simpl; by rewrite IH.
Qed.

(** What [create_node] does to the number of [Zipcode] nodes of each key:
    the merged key gets a node when it had none, and nothing else changes. *)
Lemma create_node_zipcode_count (g : graph) (properties : pydict) (z' z : string) :
  dict_lookup "zipcode_number" properties = Some (VStr z') ->
  let created :=
    Construction.create_node g "Zipcode" properties (Some ["zipcode_number"]) in
  (zipcode_count z created.1
   = if decide (z = z') then Nat.max 1 (zipcode_count z g) else zipcode_count z g)
  \/ (created = (g, None) /\ Cypher.settable properties = false).
Proof.
  intros Hkey. unfold Construction.create_node. simpl. rewrite Hkey. simpl.
  set (rem := filter (fun kv : string * pyval => kv.1 ∉ ["zipcode_number"]) properties).
  assert (Hrem : dict_lookup "zipcode_number" rem = None) by apply dict_lookup_without.
  destruct (Cypher.settable rem) eqn:Hset; simpl.
  2:{ right. split; [done|].
      unfold Cypher.settable in *. apply not_true_is_false. intros Hall.
      rewrite forallb_forall in Hall.
      assert (forallb (fun kv => is_none kv.2 || Cypher.storable kv.2) rem = true)
        as Hc; [|congruence].
      apply forallb_forall. intros kv Hkv. apply Hall.
      apply list_elem_of_In. apply list_elem_of_In in Hkv.
      by apply list_elem_of_filter in Hkv as [_ ?]. }
  left. unfold zipcode_count.
  rewrite filter_matches_zipcode.
  destruct (filter _ (nodes g)) as [|n found] eqn:Hfound; simpl.
  - rewrite filter_bool_app, filter_bool_cons, length_app.
    assert (Hnew : is_zipcode z
                     (mk_node (next_id g) "Zipcode"
                        (Cypher.set_add (<["zipcode_number" := VStr z']> ∅) rem))
                   = String.eqb z' z).
    { unfold is_zipcode. simpl. rewrite set_add_absent by done.
      by rewrite lookup_insert_eq. }
    rewrite Hnew. clear Hnew.
    case_decide as Hz.
    + subst z'. rewrite String.eqb_refl, Hfound. done.
    + apply String.eqb_neq in Hz. rewrite String.eqb_sym, Hz. simpl. lia.
  - rewrite filter_map_preserved.
    + case_decide as Hz; [|done]. subst z'. by rewrite Hfound.
    + intros x. rewrite matches_is_zipcode.
      destruct (is_zipcode z' x); [|done]. by apply is_zipcode_update.
Qed.

Section ZipcodeBuilder.
Context `{Builtins} `{SpatialExtension}.

Import AdministrativeTopology.

Lemma add_node_to_spatial_layer_nodes (g : graph) (n : node) (layer_name : string) :
  nodes (Spatial.add_node_to_spatial_layer g n layer_name).1 = nodes g.
Proof.
  unfold Spatial.add_node_to_spatial_layer.
  destruct (filter _ (nodes g)) as [|m ?]; [done|].
  destruct (layers g !! layer_name) as [lay|]; [|done].
  by destruct (encodable _ _).
Qed.

Lemma zipcode_properties_key (zipcode_df : zipcode_table) (z : string) :
  dict_lookup "zipcode_number" (zipcode_properties zipcode_df z) = Some (VStr z).
Proof.
  unfold zipcode_properties.
  destruct (filter _ (zip_rows zipcode_df)) as [|row ?]; [done|].
  by destruct (has_the_geom zipcode_df).
Qed.

(** One iteration changes the number of nodes of a key only for its own
    key, and only from none to one. *)
Lemma try_zipcode_count (constraints : pyval) (g : graph) (properties : pydict)
    (z' z : string) :
  dict_lookup "zipcode_number" properties = Some (VStr z') ->
  let g' := (try_zipcode constraints g properties).1 in
  (zipcode_count z g'
   = if decide (z = z') then Nat.max 1 (zipcode_count z g) else zipcode_count z g)
  \/ (zipcode_count z g' = zipcode_count z g
      /\ (Validation.validate_data (mk_entity "Zipcode" properties) constraints false
          <> Ok tt
          \/ Cypher.settable properties = false)).
Proof.
  intros Hkey. unfold try_zipcode.
  destruct (Validation.validate_data _ _ _) as [[]|e] eqn:Hvalid.
  2:{ right. split; [done|]. left. done. }
  destruct (create_node_zipcode_count g properties z' z Hkey) as [Hc|[Hc Hs]].
  - left. rewrite <- Hc.
    destruct (Construction.create_node g "Zipcode" properties _) as [g1 [n|]];
      [|done].
    destruct (negb _); [done|]. destruct (dict_has _ _); [|done].
    pose proof (add_node_to_spatial_layer_nodes g1 n "zipcode_layer") as Hn.
    destruct (Spatial.add_node_to_spatial_layer g1 n "zipcode_layer") as [g2 []];
      simpl in *; unfold zipcode_count; by rewrite Hn.
  - right. rewrite Hc. simpl. split; [done|]. by right.
Qed.

Lemma zipcode_step_store (constraints : pyval) (zipcode_df : zipcode_table)
    (st : batch) (z : string) :
  store (zipcode_step constraints zipcode_df st z)
  = (try_zipcode constraints (store st) (zipcode_properties zipcode_df z)).1.
Proof.
  unfold zipcode_step. by destruct (try_zipcode _ _ _) as [g []].
Qed.

Lemma zipcode_loop_other (constraints : pyval) (zipcode_df : zipcode_table)
    (todo : list string) (st : batch) (z : string) :
  z ∉ todo ->
  zipcode_count z (store (foldl (zipcode_step constraints zipcode_df) st todo))
  = zipcode_count z (store st).
Proof.
  revert st. induction todo as [|z' todo IH]; intros st Hz; [done|].
  apply not_elem_of_cons in Hz as [Hne Hz]. simpl. rewrite IH by done.
  rewrite zipcode_step_store.
  destruct (try_zipcode_count constraints (store st)
              (zipcode_properties zipcode_df z') z' z
              (zipcode_properties_key zipcode_df z')) as [Hc|[Hc _]];
    [|done].
  by rewrite Hc, decide_False.
Qed.

(** One iteration either counts its identifier or lists it as failed. *)
Lemma zipcode_step_outcome (constraints : pyval) (zipcode_df : zipcode_table)
    (st : batch) (z : string) :
  let after := zipcode_step constraints zipcode_df st z in
  (success_count after = success_count st + 1
   /\ failed_instances after = failed_instances st)
  \/ (success_count after = success_count st
      /\ exists message,
           failed_instances after
           = failed_instances st
             ++ [[("zipcode", VStr z); ("error", VStr message)]]).
Proof.
  cbv zeta. unfold zipcode_step. rewrite zipcode_properties_key.
  destruct (try_zipcode _ _ _) as [g [[]|e]]; cbn [success_count failed_instances].
  - by left.
  - right. split; [done |]. by eexists.
Qed.

(** The loop submits each identifier of its list once: it is counted, or
    listed as failed under its own key, in the order of the list. *)
Lemma zipcode_loop_outcome (constraints : pyval) (zipcode_df : zipcode_table)
    (todo : list string) (st : batch) :
  let final := foldl (zipcode_step constraints zipcode_df) st todo in
  exists failed,
    sublist failed todo
    /\ map (dict_get "zipcode") (failed_instances final)
       = map (dict_get "zipcode") (failed_instances st) ++ map VStr failed
    /\ success_count final
       = success_count st + Z.of_nat (length todo) - Z.of_nat (length failed).
Proof.
  cbv zeta. revert st. induction todo as [|z todo IH]; intros st.
  - exists []. cbn. rewrite app_nil_r. split; [done |]. split; [done | lia].
  - cbn [foldl]. destruct (IH (zipcode_step constraints zipcode_df st z))
      as (failed & Hsub & Hkeys & Hcount).
    destruct (zipcode_step_outcome constraints zipcode_df st z)
      as [[Hc Hf] | [Hc [message Hf]]].
    + exists failed. split; [by apply sublist_cons |].
      rewrite Hkeys, Hcount, Hc, Hf. split; [done |]. cbn [length]. lia.
    + exists (z :: failed). split; [by apply sublist_skip |].
      rewrite Hkeys, Hcount, Hc, Hf. split.
      * rewrite map_app. cbn [map]. by rewrite <- app_assoc.
      * cbn [length]. lia.
Qed.

(** C5. The builder iterates once over the set union of the identifiers
    of the three sources.  Every identifier of the union is submitted
    exactly once: it is counted, or listed as failed under its own key,
    no key is listed twice, and the two numbers add up to the size of the
    union.  Nothing else is submitted: a key outside the union has as
    many nodes after the run as before.  An identifier referenced by any
    of the sources, whose entity passes validation and whose properties
    the store accepts, has exactly one [Zipcode] node after the run (the
    store holding at most one beforehand). *)
Theorem zipcode_union_creates_one_node (g : graph) (constraints : pyval)
    (zipcode_df : zipcode_table) (city_zipcodes neighborhood_zipcodes : list pyval)
    (z : string) :
  let sources :=
    map py_str (explode city_zipcodes)
    ++ map py_str (explode neighborhood_zipcodes)
    ++ map (fun row => py_str row.1) (zip_rows zipcode_df) in
  let combined := combined_zipcodes zipcode_df city_zipcodes neighborhood_zipcodes in
  let zip_properties := zipcode_properties zipcode_df z in
  z ∈ sources ->
  (zipcode_count z g <= 1)%nat ->
  Validation.validate_data (mk_entity "Zipcode" zip_properties) constraints false
  = Ok tt ->
  Cypher.settable zip_properties = true ->
  let run :=
    create_zipcode_nodes g constraints zipcode_df city_zipcodes neighborhood_zipcodes in
  (forall s, s ∈ combined <-> s ∈ sources)
  /\ (exists before after,
        elements combined = before ++ z :: after /\ (z ∉ before) /\ (z ∉ after))
  /\ zipcode_count z (store run) = 1%nat
  /\ success_count run + Z.of_nat (length (failed_instances run))
     = Z.of_nat (size combined)
  /\ (exists failed,
        map (dict_get "zipcode") (failed_instances run) = map VStr failed
        /\ NoDup failed
        /\ forall s, s ∈ failed -> s ∈ combined)
  /\ (forall s, s ∉ combined -> zipcode_count s (store run) = zipcode_count s g).
Proof.
  intros sources combined zip_properties Hin Hcount Hvalid Hset run. subst run.
  assert (Hunion : forall s, s ∈ combined <-> s ∈ sources).
  { intros s. unfold combined, combined_zipcodes, referenced, sources.
    rewrite !elem_of_union, !elem_of_list_to_set, !elem_of_app. tauto. }
  assert (Hsplit : exists before after,
             elements combined = before ++ z :: after /\ (z ∉ before) /\ (z ∉ after)).
  { assert (z ∈ elements combined) as Hz by (apply elem_of_elements, Hunion, Hin).
    apply list_elem_of_split in Hz as (before & after & Hz).
    exists before, after. split; [done|].
    pose proof (NoDup_elements combined) as Hnd. rewrite Hz in Hnd.
    apply NoDup_app in Hnd as (_ & Hb & Ha). apply NoDup_cons in Ha as [Ha _].
    split; [|done]. intros Hz'. apply (Hb z Hz'). left. }
  assert (Hlayer : forall s,
            zipcode_count s (Spatial.init_wkt_layer g "zipcode_layer" "wkt").1
            = zipcode_count s g).
  { intros s. unfold Spatial.init_wkt_layer.
    by destruct (layers g !! "zipcode_layer"). }
  split; [exact Hunion|]. split; [exact Hsplit|]. split; [|split; [|split]].
  - destruct Hsplit as (before & after & Hz & Hb & Ha).
    unfold create_zipcode_nodes. fold combined. rewrite Hz, foldl_app. simpl.
    rewrite zipcode_loop_other by done. rewrite zipcode_step_store.
    destruct (try_zipcode_count constraints
                (store (foldl (zipcode_step constraints zipcode_df)
                          (mk_batch (Spatial.init_wkt_layer g "zipcode_layer" "wkt").1 0 [])
                          before))
                (zipcode_properties zipcode_df z) z z
                (zipcode_properties_key zipcode_df z)) as [Hc|[_ [Hc|Hc]]].
    + rewrite Hc, decide_True by done. rewrite zipcode_loop_other by done.
      simpl. rewrite Hlayer. lia.
    + by destruct Hc.
    + fold zip_properties in Hc. congruence.
  - destruct (zipcode_loop_outcome constraints zipcode_df (elements combined)
                (mk_batch (Spatial.init_wkt_layer g "zipcode_layer" "wkt").1 0 []))
      as (failed & Hsub & Hkeys & Hsuccess).
    unfold create_zipcode_nodes. fold combined.
    cbn [success_count failed_instances map app] in Hkeys, Hsuccess.
    apply (f_equal length) in Hkeys. rewrite !length_map in Hkeys.
    rewrite Hsuccess, Hkeys. unfold size, set_size. cbn. lia.
  - destruct (zipcode_loop_outcome constraints zipcode_df (elements combined)
                (mk_batch (Spatial.init_wkt_layer g "zipcode_layer" "wkt").1 0 []))
      as (failed & Hsub & Hkeys & _).
    unfold create_zipcode_nodes. fold combined.
    exists failed. split; [exact Hkeys |]. split.
    + exact (sublist_NoDup _ _ (NoDup_elements combined) Hsub).
    + intros s Hs. apply elem_of_elements.
      eapply sublist_subseteq; [exact Hsub | exact Hs].
  - intros s Hs. unfold create_zipcode_nodes. fold combined.
    rewrite zipcode_loop_other by (by rewrite elem_of_elements).
    apply Hlayer.
Qed.

End ZipcodeBuilder.

(** Zip code 92101 is referenced by the city table, the neighborhood table
    and the raw table; the union has three identifiers.  Each is counted
    once, and one node is created for 92101. *)
Lemma zipcode_union_creates_one_node_witness :
  let run :=
    AdministrativeTopology.create_zipcode_nodes empty_graph Reference.schema
      ZipcodeExample.raw_zipcodes ZipcodeExample.city_zipcodes
      ZipcodeExample.neighborhood_zipcodes in
  zipcode_count "92101" (store run) = 1%nat
  /\ success_count run + Z.of_nat (length (failed_instances run)) = 3.
Proof.
  destruct (zipcode_union_creates_one_node empty_graph Reference.schema
              ZipcodeExample.raw_zipcodes ZipcodeExample.city_zipcodes
              ZipcodeExample.neighborhood_zipcodes "92101")
    as (_ & _ & Hone & Hall & _).
  - left.
  - vm_compute. lia.
  - vm_compute. reflexivity.
  - vm_compute. reflexivity.
  - split; [exact Hone |]. refine (eq_trans Hall _). by vm_compute.
Defined.

(** ** Enrichment relationships (etl/geoenrichment.py) *)

Section EnrichmentShape.

Import GeoEnrichment.

Ltac single_shape H :=
  bind_inv H; injection H as <-; eauto.

Lemma determine_population_level_shape (v : pyval) (b : list pydict * list pyval) :
  determine_population_level v = Ok b ->
  exists c, b = ([[("level", VStr c)]], [v]).
Proof. unfold determine_population_level. intros Hb. single_shape Hb. Qed.

Lemma determine_growth_rate_shape (v : pyval) (b : list pydict * list pyval) :
  determine_growth_rate v = Ok b ->
  exists c, b = ([[("growth_rate", VStr c)]], [v]).
Proof. unfold determine_growth_rate. intros Hb. single_shape Hb. Qed.

Lemma determine_age_average_shape (v : pyval) (b : list pydict * list pyval) :
  determine_age_average v = Ok b ->
  exists c, b = ([[("group", VStr c)]], [v]).
Proof. unfold determine_age_average. intros Hb. single_shape Hb. Qed.

Lemma determine_wealth_category_shape (v : pyval) (b : list pydict * list pyval) :
  determine_wealth_category v = Ok b ->
  exists c, b = ([[("category", VStr c)]], [v]).
Proof. unfold determine_wealth_category. intros Hb. single_shape Hb. Qed.

Lemma determine_crime_level_shape (v : pyval) (b : list pydict * list pyval) :
  determine_crime_level v = Ok b ->
  exists c, b = ([[("category", VStr c)]], [v]).
Proof. unfold determine_crime_level. intros Hb. single_shape Hb. Qed.

Lemma determine_spending_level_shape (v : pyval) (b : list pydict * list pyval) :
  determine_spending_level v = Ok b ->
  exists c, b = ([[("category", VStr c)]], [v]).
Proof. unfold determine_spending_level. intros Hb. single_shape Hb. Qed.

Lemma represent_shape (key : string) (level_of : pyval -> result string)
    (total : pyval) (entries : pydict) (b : list pydict * list pyval) :
  represent key level_of total entries = Ok b ->
  exists lvs, length lvs = length entries
              /\ b = graded_buckets key (dict_keys entries) lvs.
Proof.
  revert b. induction entries as [|[name amount] entries IH]; intros b Hb.
  - injection Hb as <-. by exists [].
  - simpl in Hb. bind_inv Hb. bind_inv Hb. bind_inv Hb. injection Hb as <-.
    destruct (IH _ Ha1) as (lvs & Hlen & ->).
    exists ((a0, a) :: lvs). split; [simpl; by rewrite Hlen|done].
Qed.

Lemma represent_default_shape (key : string) (entries : pydict) :
  exists lvs, length lvs = length entries
              /\ represent_default key entries
                 = graded_buckets key (dict_keys entries) lvs.
Proof.
  exists (map (fun _ => ("VERY_LOW", VFloat 0)) entries).
  split; [by rewrite length_map|].
  unfold represent_default, graded_buckets. f_equal.
  - induction entries as [|[name amount] entries IH]; [done|].
    simpl. by rewrite IH.
  - by rewrite map_map.
Qed.

Lemma determine_age_group_representations_shape (row : pydict)
    (b : list pydict * list pyval) :
  determine_age_group_representations row = Ok b ->
  exists lvs, length lvs = 6%nat
              /\ b = graded_buckets "group"
                       ["0-4"; "5-14"; "15-24"; "25-44"; "45-64"; "65+"] lvs.
Proof.
  unfold determine_age_group_representations. intros Hb.
  bind_inv Hb. bind_inv Hb.
  rewrite <- (age_group_aggregations_keys row a0 Ha0).
  assert (length a0 = 6%nat) as Hlen.
  { rewrite <- (length_map fst). change (map fst a0) with (dict_keys a0).
    by rewrite (age_group_aggregations_keys row a0 Ha0). }
  rewrite <- Hlen.
  destruct (py_eq a (VInt 0)).
  - injection Hb as <-. apply represent_default_shape.
  - by apply represent_shape in Hb.
Qed.

Lemma determine_education_level_shape (row : pydict)
    (b : list pydict * list pyval) :
  determine_education_level row = Ok b ->
  exists lvs, length lvs = 3%nat
              /\ b = graded_buckets "level" ["BASIC"; "SECONDARY"; "HIGHER"] lvs.
Proof.
  unfold determine_education_level. intros Hb.
  bind_inv Hb. bind_inv Hb.
  rewrite <- (education_levels_keys row a Ha).
  assert (length a = 3%nat) as Hlen.
  { rewrite <- (length_map fst). change (map fst a) with (dict_keys a).
    by rewrite (education_levels_keys row a Ha). }
  rewrite <- Hlen.
  destruct (py_eq a0 (VInt 0)).
  - injection Hb as <-. apply represent_default_shape.
  - by apply represent_shape in Hb.
Qed.

Lemma pairings_shape (row : pydict) (es : list (string * (list pydict * list pyval))) :
  enrichments row = Ok es ->
  exists c1 c2 c3 c5 c7 c8 v1 v2 v3 v5 v7 v8 a1 a2 a3 a4 a5 a6 e1 e2 e3,
    pairings es
    = fifteen c1 c2 c3 c5 c7 c8 v1 v2 v3 v5 v7 v8 a1 a2 a3 a4 a5 a6 e1 e2 e3.
Proof.
  unfold enrichments. intros Hes. repeat bind_inv Hes. injection Hes as <-.
  repeat match goal with
         | Hd : determine_population_level _ = Ok _ |- _ =>
             apply determine_population_level_shape in Hd as (? & ->)
         | Hd : determine_growth_rate _ = Ok _ |- _ =>
             apply determine_growth_rate_shape in Hd as (? & ->)
         | Hd : determine_age_average _ = Ok _ |- _ =>
             apply determine_age_average_shape in Hd as (? & ->)
         | Hd : determine_wealth_category _ = Ok _ |- _ =>
             apply determine_wealth_category_shape in Hd as (? & ->)
         | Hd : determine_crime_level _ = Ok _ |- _ =>
             apply determine_crime_level_shape in Hd as (? & ->)
         | Hd : determine_spending_level _ = Ok _ |- _ =>
             apply determine_spending_level_shape in Hd as (? & ->)
         | Hd : determine_age_group_representations _ = Ok _ |- _ =>
             apply determine_age_group_representations_shape in Hd
               as ([|? [|? [|? [|? [|? [|? [|]]]]]]] & [=] & ->)
         | Hd : determine_education_level _ = Ok _ |- _ =>
             apply determine_education_level_shape in Hd
               as ([|? [|? [|? [|]]]] & [=] & ->)
         end.
  by repeat eexists.
Qed.

End EnrichmentShape.

Section EnrichmentLinks.
Context `{Builtins}.

Import GeoEnrichment.

Lemma cypher_eqb_str (w : pyval) (s : string) :
  Cypher.eqb w (VStr s) = true -> w = VStr s.
Proof.
  destruct w; simpl; try discriminate.
  intros Hs. apply String.eqb_eq in Hs. by subst.
Qed.

Lemma dict_lookup_elem (k : string) (v : pyval) (d : pydict) :
  dict_lookup k d = Some v -> In (k, v) d.
Proof.
  induction d as [|[k' v'] d IH]; [done|]. simpl.
  destruct (String.eqb k k') eqn:E.
  - intros [= ->]. apply String.eqb_eq in E. subst. by left.
  - intros Hk. right. by apply IH.
Qed.




Lemma link_store (ct : string) (st : batch) (p : pairing) :
  store (link ct st p)
  = (Construction.create_relationship (store st)
       "BlockGroup" [("ct_block_group", VStr ct)] ["ct_block_group"]
       (enrichment_type p) (combination p) (dict_keys (combination p))
       "HAS_ENRICHMENT"
       (Some [("source_value", VStr (py_str (source_value p)))])).1
  /\ success_count (link ct st p) = success_count st + 1
  /\ failed_instances (link ct st p) = failed_instances st.
Proof. unfold link. by destruct (Construction.create_relationship _ _ _ _ _ _ _ _ _). Qed.

Lemma link_nodes (ct : string) (st : batch) (p : pairing) :
  nodes (store (link ct st p)) = nodes (store st).
Proof.
  destruct (link_store ct st p) as (-> & _). apply create_relationship_nodes.
Qed.

Lemma links_nodes (ct : string) (ps : list pairing) (st : batch) :
  nodes (store (foldl (link ct) st ps)) = nodes (store st)
  /\ success_count (foldl (link ct) st ps) = success_count st + Z.of_nat (length ps)
  /\ failed_instances (foldl (link ct) st ps) = failed_instances st.
Proof.
  revert st. induction ps as [|p ps IH]; intros st.
  - simpl. split; [done|]. split; [lia|done].
  - simpl foldl. destruct (IH (link ct st p)) as (-> & -> & ->).
    destruct (link_store ct st p) as (_ & -> & ->).
    rewrite link_nodes. split; [done|]. split; [|done].
    simpl length. lia.
Qed.





End EnrichmentLinks.

Section EnrichmentEdges.
Context `{Builtins}.

Import GeoEnrichment.


End EnrichmentEdges.



(** ** Labels, undeclared properties and types (neo4j/validation.py) *)

Section ValidationEdges.
Context `{Builtins}.

(** [validate_data] looks the label up in the [nodes] section, or in the
    [relationships] section for a relationship.  A label the section does
    not declare, or declares with an empty entry, is rejected with a
    [ValueError] that names it. *)
Theorem validate_data_rejects_unknown_label (e : entity) (sections declared : pydict)
    (is_relationship : bool) :
  dict_lookup (if is_relationship then "relationships" else "nodes") sections
  = Some (VDict declared) ->
  truthy (dict_get (label e) declared) = false ->
  Validation.validate_data e (VDict sections) is_relationship
  = raise ValueError ("No constraints found for label '" ++ label e ++ "'.").
Proof.
  intros Hsection Hentry. unfold Validation.validate_data.
  destruct is_relationship; simpl; unfold dict_get; rewrite Hsection; simpl;
    fold (dict_get (label e) declared); by rewrite Hentry.
Qed.

Lemma filter_not_nil {A : Type} (P : A -> Prop) `{forall x, Decision (P x)}
    (l : list A) (x : A) :
  x ∈ l -> P x -> filter P l <> [].
Proof.
  intros Hx HP Hnil.
  assert (x ∈ filter P l) as Hin by (apply list_elem_of_filter; done).
  rewrite Hnil in Hin. by apply elem_of_nil in Hin.
Qed.

(** A property of the entity that the [properties] schema of its label
    does not declare makes [validate_data] raise a [ValueError] that lists
    the undeclared names. *)
Theorem validate_data_rejects_undeclared_property (e : entity)
    (sections declared schema properties_schema : pydict) (is_relationship : bool)
    (k : string) :
  dict_lookup (if is_relationship then "relationships" else "nodes") sections
  = Some (VDict declared) ->
  dict_lookup (label e) declared = Some (VDict schema) ->
  dict_lookup "properties" schema = Some (VDict properties_schema) ->
  k ∈ dict_keys (properties e) ->
  k ∉ dict_keys properties_schema ->
  Validation.validate_data e (VDict sections) is_relationship
  = raise ValueError
      ("Extra properties found in data: "
       ++ py_set_text (filter (fun k => k ∉ dict_keys properties_schema)
                         (dict_keys (properties e)))).
Proof.
  intros Hsection Hentry Hschema Hk Hextra. unfold Validation.validate_data.
  assert (truthy (VDict schema) = true) as Htruthy.
  { destruct schema; [discriminate | done]. }
  destruct is_relationship; simpl; unfold dict_get; rewrite Hsection; simpl;
    unfold dict_get; rewrite Hentry; rewrite Htruthy; simpl;
    rewrite Hschema; simpl;
    (rewrite bool_decide_eq_true_2; [done | by eapply filter_not_nil]).
Qed.

(** A property that is absent, or present with the value [None], is
    rejected exactly when its constraints set [exists]; its type, enum and
    range are not looked at. *)
Theorem validate_property_absent_value (e : entity) (name : string)
    (property_constraints : pydict) :
  dict_get name (properties e) = VNone ->
  Validation.validate_property e name (VDict property_constraints)
  = if truthy (dict_get "exists" property_constraints)
    then raise ValueError ("Property '" ++ name ++ "' must exist but is missing.")
    else Ok tt.
Proof.
  intros Habsent. unfold Validation.validate_property. simpl.
  rewrite Habsent. simpl.
  by destruct (truthy (dict_get "exists" property_constraints)).
Qed.


Lemma VALIDATORS_outside_table (tag : string) (x : pyval) :
  tag ∉ ["STRING"; "INTEGER"; "FLOAT"; "BOOLEAN"; "POINT"; "LIST"; "MAP"] ->
  Validation.VALIDATORS tag x = Ok false
  \/ exists e, Validation.VALIDATORS tag x = Raise e /\ exn_type e = TypeError.
Proof.
  intros Htag. unfold Validation.VALIDATORS.
  repeat match goal with
  | |- context [String.eqb tag ?s] =>
      destruct (String.eqb_spec tag s) as [->|_];
      [try (exfalso; apply Htag; set_solver) | ]
  end.
  - right. eexists. split; [reflexivity | done].
  - by left.
Qed.

(** The validator table has seven entries that take one value.  A [type]
    tag of ASCII characters whose upper case is none of them rejects
    every value that is present, with a [TypeError].  (On a tag with
    other characters [str.upper] may give an entry of the table where the
    model's mapping gives none.) *)
Theorem undeclared_type_rejects_every_value (e : entity) (name t : string)
    (property_constraints : pydict) (v : pyval) :
  dict_lookup name (properties e) = Some v ->
  is_none v = false ->
  dict_get "type" property_constraints = VStr t ->
  t <> "" ->
  ascii_only t = true ->
  Validation.upper_string t
    ∉ ["STRING"; "INTEGER"; "FLOAT"; "BOOLEAN"; "POINT"; "LIST"; "MAP"] ->
  exists err,
    Validation.validate_property e name (VDict property_constraints) = Raise err
    /\ exn_type err = TypeError.
Proof.
  intros Hv Hnone Htype Ht _ Htag. unfold Validation.validate_property.
  assert (dict_get name (properties e) = v) as Hget by (unfold dict_get; by rewrite Hv).
  rewrite Hget. unfold py_get, bind. rewrite Hnone, !andb_false_r, Htype.
  cbn [truthy].
  destruct (String.eqb_spec t "") as [->|_]; [done|]. simpl.
  destruct (VALIDATORS_outside_table (Validation.upper_string t) v Htag)
    as [-> | (err & -> & Herr)]; simpl; eauto.
Qed.

Lemma existsb_py_eq_str (s : string) (allowed : list string) :
  existsb (py_eq (VStr s)) (map VStr allowed) = bool_decide (s ∈ allowed).
Proof.
  induction allowed as [|t allowed IH].
  - done.
  - cbn [map existsb]. rewrite IH. cbn [py_eq as_number].
    destruct (String.eqb_spec s t) as [->|Hne]; simpl.
    + symmetry. apply bool_decide_eq_true_2. by left.
    + apply bool_decide_ext. rewrite elem_of_cons. tauto.
Qed.

(** An [enum] constraint accepts a string exactly when the string is in
    the list; an empty list is no constraint. *)
Theorem enum_accepts_its_members_only (l name s : string) (allowed : list string) :
  Validation.validate_property (mk_entity l [(name, VStr s)]) name
    (VDict [("enum", VList (map VStr allowed))]) = Ok tt
  <-> allowed = [] \/ s ∈ allowed.
Proof.
  unfold Validation.validate_property.
  assert (dict_get name (properties (mk_entity l [(name, VStr s)])) = VStr s) as ->.
  { unfold dict_get. simpl. by rewrite String.eqb_refl. }
  destruct allowed as [|t allowed].
  - simpl. split; [intros _; by left | intros _; reflexivity].
  - cbn -[existsb py_eq].
    change (VStr t :: map VStr allowed) with (map VStr (t :: allowed)).
    rewrite existsb_py_eq_str. case_bool_decide as Hin; simpl.
    + split; [intros _; by right | intros _; reflexivity].
    + split; [discriminate | by intros [? | ?]].
Qed.

End ValidationEdges.

(** A Park node against a schema that declares cities only. *)
Lemma validate_data_rejects_unknown_label_witness :
  Validation.validate_data (mk_entity "Park" [("park_name", VStr "Balboa")])
    (VDict [("nodes", VDict [("City", VDict [("properties", VDict [])])])]) false
  = raise ValueError "No constraints found for label 'Park'.".
Proof.
  apply (validate_data_rejects_unknown_label
           (mk_entity "Park" [("park_name", VStr "Balboa")])
           [("nodes", VDict [("City", VDict [("properties", VDict [])])])]
           [("City", VDict [("properties", VDict [])])] false);
    reflexivity.
Defined.

(** A city with a mayor the schema does not declare. *)
Lemma validate_data_rejects_undeclared_property_witness :
  Validation.validate_data
    (mk_entity "City" [("city_id", VStr "1"); ("mayor", VStr "Gloria")])
    (VDict [("nodes",
             VDict [("City",
                     VDict [("properties",
                             VDict [("city_id", VDict [("type", VStr "STRING")])])])])])
    false
  = raise ValueError "Extra properties found in data: {'mayor'}".
Proof.
  refine (eq_trans _ (_ : raise ValueError _ = _)).
  apply (validate_data_rejects_undeclared_property
           (mk_entity "City" [("city_id", VStr "1"); ("mayor", VStr "Gloria")])
           [("nodes",
             VDict [("City",
                     VDict [("properties",
                             VDict [("city_id", VDict [("type", VStr "STRING")])])])])]
           [("City",
             VDict [("properties",
                     VDict [("city_id", VDict [("type", VStr "STRING")])])])]
           [("properties", VDict [("city_id", VDict [("type", VStr "STRING")])])]
           [("city_id", VDict [("type", VStr "STRING")])]
           false "mayor");
    try reflexivity.
  - apply (bool_decide_unpack _). by vm_compute.
  - apply (bool_decide_unpack _). by vm_compute.
  - by vm_compute.
Defined.

(** The city without an id, against a required and an optional id. *)
Lemma validate_property_absent_value_witness :
  Validation.validate_property ValidationExample.nameless_city "city_id"
    (VDict [("type", VStr "STRING"); ("exists", VBool true)])
  = raise ValueError "Property 'city_id' must exist but is missing."
  /\ Validation.validate_property ValidationExample.nameless_city "city_id"
       (VDict [("type", VStr "STRING")])
     = Ok tt.
Proof.
  split.
  - apply (validate_property_absent_value ValidationExample.nameless_city "city_id"
             [("type", VStr "STRING"); ("exists", VBool true)]).
    reflexivity.
  - apply (validate_property_absent_value ValidationExample.nameless_city "city_id"
             [("type", VStr "STRING")]).
    reflexivity.
Defined.

(** The tag NUMBER is not in the table: the integer 5 is rejected. *)
Lemma undeclared_type_rejects_every_value_witness :
  exists err,
    Validation.validate_property (mk_entity "City" [("population", VInt 5)])
      "population" (VDict [("type", VStr "NUMBER")]) = Raise err
    /\ exn_type err = TypeError.
Proof.
  apply (undeclared_type_rejects_every_value
           (mk_entity "City" [("population", VInt 5)]) "population" "NUMBER"
           [("type", VStr "NUMBER")] (VInt 5)); try reflexivity.
  - discriminate.
  - apply (bool_decide_unpack _). by vm_compute.
Defined.

(** ** Thresholds and age groups (etl/geoenrichment.py) *)

Section Classifiers.
Import GeoEnrichment.

Lemma is_nan_SF (f : float) : is_nan f = true -> Prim2SF f = S754_nan.
Proof.
  unfold is_nan. rewrite FloatAxioms.eqb_spec. intros Hnan.
  destruct (Prim2SF f) as [s|s| |s m e]; try reflexivity; exfalso; revert Hnan.
  - by destruct s.
  - by destruct s.
  - unfold SFeqb, SFcompare. rewrite Z.compare_refl, Pos.compare_cont_refl.
    by destruct s.
Qed.

Lemma nan_lt (f : float) (b : pyval) :
  is_nan f = true -> is_Some (as_number b) -> py_lt (VFloat f) b = Ok false.
Proof.
  intros Hnan%is_nan_SF [n Hn]. unfold py_lt. rewrite Hn. simpl.
  destruct n as [z|g]; simpl.
  - unfold Z_compare_float. by rewrite Hnan.
  - rewrite FloatAxioms.ltb_spec, Hnan. done.
Qed.

Lemma nan_le (f : float) (b : pyval) :
  is_nan f = true -> is_Some (as_number b) -> py_le (VFloat f) b = Ok false.
Proof.
  intros Hnan%is_nan_SF [n Hn]. unfold py_le. rewrite Hn. simpl.
  destruct n as [z|g]; simpl.
  - unfold Z_compare_float. by rewrite Hnan.
  - rewrite FloatAxioms.leb_spec, Hnan. done.
Qed.

(** NaN is below no threshold: each of the six threshold classifiers
    puts it into its last bucket, and keeps it as the source value. *)
Theorem nan_falls_into_the_last_bucket (f : float) :
  is_nan f = true ->
  determine_population_level (VFloat f)
  = Ok ([[("level", VStr "HIGH")]], [VFloat f])
  /\ determine_growth_rate (VFloat f)
     = Ok ([[("growth_rate", VStr "VERY_HIGH")]], [VFloat f])
  /\ determine_age_average (VFloat f)
     = Ok ([[("group", VStr "65+")]], [VFloat f])
  /\ determine_wealth_category (VFloat f)
     = Ok ([[("category", VStr "HIGH")]], [VFloat f])
  /\ determine_crime_level (VFloat f)
     = Ok ([[("category", VStr "MOST_UNSAFE")]], [VFloat f])
  /\ determine_spending_level (VFloat f)
     = Ok ([[("category", VStr "SUPER_FAN")]], [VFloat f]).
Proof.
  intros Hnan.
  unfold determine_population_level, determine_growth_rate, determine_age_average,
    determine_wealth_category, determine_crime_level, determine_spending_level.
  repeat (first [rewrite (nan_lt f) by (done || by eexists)
                 | rewrite (nan_le f) by (done || by eexists)];
          cbn [bind]).
  repeat split.
Qed.

(** The six age groups partition the 36 count columns: when each column
    holds an integer, the aggregation returns six integers whose sum is
    the sum of all the columns. *)
Theorem age_groups_partition_the_count_columns (row : pydict) (count : string -> Z) :
  (forall c, c ∈ EnrichmentExample.count_columns ->
     dict_lookup c row = Some (VInt (count c))) ->
  exists g0 g5 g15 g25 g45 g65,
    age_group_aggregations row
    = Ok [("0-4", VInt g0); ("5-14", VInt g5); ("15-24", VInt g15);
          ("25-44", VInt g25); ("45-64", VInt g45); ("65+", VInt g65)]
    /\ g0 + g5 + g15 + g25 + g45 + g65
       = foldr (fun c total => count c + total) 0 EnrichmentExample.count_columns.
Proof.
  intros Hrow.
  assert (forall c, c ∈ EnrichmentExample.count_columns ->
            row_get row c = Ok (VInt (count c))) as Hget.
  { intros c Hc. unfold row_get, py_getitem. by rewrite (Hrow c Hc). }
  unfold age_group_aggregations, row_sum.
  repeat (rewrite Hget by (apply (bool_decide_unpack _); by vm_compute);
          cbn [bind row_sum_from py_add as_number]).
  do 6 eexists. split; [reflexivity |].
  unfold EnrichmentExample.count_columns. cbn [foldr]. lia.
Qed.

End Classifiers.

(** The quiet NaN. *)
Lemma nan_falls_into_the_last_bucket_witness :
  GeoEnrichment.determine_population_level (VFloat nan)
  = Ok ([[("level", VStr "HIGH")]], [VFloat nan])
  /\ GeoEnrichment.determine_age_average (VFloat nan)
     = Ok ([[("group", VStr "65+")]], [VFloat nan]).
Proof.
  destruct (nan_falls_into_the_last_bucket nan) as (Hlevel & _ & Hage & _).
  - reflexivity.
  - split; [exact Hlevel | exact Hage].
Defined.

(** A row with 100 inhabitants in each of the 36 brackets. *)
Lemma age_groups_partition_the_count_columns_witness :
  exists g0 g5 g15 g25 g45 g65,
    GeoEnrichment.age_group_aggregations (EnrichmentExample.census_row 3600 100)
    = Ok [("0-4", VInt g0); ("5-14", VInt g5); ("15-24", VInt g15);
          ("25-44", VInt g25); ("45-64", VInt g45); ("65+", VInt g65)]
    /\ g0 + g5 + g15 + g25 + g45 + g65 = 3600.
Proof.
  apply (age_groups_partition_the_count_columns
           (EnrichmentExample.census_row 3600 100) (fun _ => 100)).
  intros c Hc.
  unfold EnrichmentExample.count_columns in Hc.
  repeat (apply elem_of_cons in Hc as [-> | Hc]; [reflexivity |]).
  destruct (proj1 (elem_of_nil c) Hc).
Defined.

(** ** Upserts without an endpoint *)

Lemma graph_eta (g : graph) :
  mk_graph (nodes g) (rels g) (layers g) (next_id g) = g.
Proof. by destruct g. Qed.

Lemma filter_bool_nil {A : Type} (p : A -> bool) (l : list A) :
  (forall x, x ∈ l -> p x = false) -> filter (fun x => p x) l = [].
Proof.
  induction l as [|x l IH]; intros Hp; [done |].
  rewrite filter_bool_cons, (Hp x) by left. apply IH.
  intros y Hy. apply Hp. by right.
Qed.

Lemma pairs_nil_l (ys : list node) : Cypher.pairs [] ys = [].
Proof. done. Qed.

Lemma pairs_nil_r (xs : list node) : Cypher.pairs xs [] = [].
Proof. unfold Cypher.pairs. by induction xs as [|x xs IH]. Qed.

(** Without a node of one of the two labels the upsert has no row to work
    on: it writes nothing and returns [False]. *)
Lemma create_relationship_without_endpoint (g : graph)
    (sl : string) (sp : pydict) (sk : list string)
    (el : string) (ep : pydict) (ek : list string)
    (T : string) (d : option pydict) :
  (forall n, n ∈ nodes g -> node_label n <> sl)
  \/ (forall n, n ∈ nodes g -> node_label n <> el) ->
  Construction.create_relationship g sl sp sk el ep ek T d = (g, false).
Proof.
  intros Hnone. unfold Construction.create_relationship, Construction.endpoint_rows.
  destruct (dict_select sk sp []) as [start_params|]; simpl; [|done].
  destruct (dict_select ek ep start_params) as [params|]; simpl; [|done].
  destruct (negb (Cypher.settable (default [] d))); [done |].
  assert (Cypher.pairs
            (filter (fun n => Cypher.matches sl sk
                                (dict_set "rel_properties" (VDict (default [] d)) params) n)
                    (nodes g))
            (filter (fun n => Cypher.matches el ek
                                (dict_set "rel_properties" (VDict (default [] d)) params) n)
                    (nodes g)) = []) as ->.
  { destruct Hnone as [Hnone | Hnone].
    - rewrite filter_bool_nil; [done |]. intros n Hn. unfold Cypher.matches.
      destruct (String.eqb_spec (node_label n) sl) as [E|_]; [|done].
      by apply Hnone in Hn.
    - rewrite (filter_bool_nil (fun n => Cypher.matches el ek _ n)).
      { apply pairs_nil_r. }
      intros n Hn. unfold Cypher.matches.
      destruct (String.eqb_spec (node_label n) el) as [E|_]; [|done].
      by apply Hnone in Hn. }
  simpl. by rewrite graph_eta.
Qed.

(** ** Enrichment runs (etl/geoenrichment.py) *)

Section EnrichmentRuns.
Context `{Builtins}.
Import GeoEnrichment.

(** The state of the outer loop after a row whose key could be built. *)
Lemma enrich_row_remembers (st : batch * option string) (row : pydict) (ct : string) :
  ct_block_group_of row = Ok ct -> (enrich_row st row).2 = Some ct.
Proof.
  intros Hct. unfold enrich_row. rewrite Hct. by destruct (enrichments row).
Qed.

(** A row whose block-group key cannot be built is recorded under the key
    of the row before it, and under [unknown] when no row came before. *)
Theorem failed_row_is_reported_under_the_previous_key (g : graph)
    (earlier : list pydict) (previous failing : pydict) (ct : string) (e : exn) :
  ct_block_group_of previous = Ok ct ->
  ct_block_group_of failing = Raise e ->
  failed_instances
    (create_enrichment_relationships g (earlier ++ [previous; failing]))
  = failed_instances (create_enrichment_relationships g (earlier ++ [previous]))
    ++ [[("block_group", VStr ct); ("error", VStr (exn_msg e))]]
  /\ failed_instances (create_enrichment_relationships g [failing])
     = [[("block_group", VStr "unknown"); ("error", VStr (exn_msg e))]].
Proof.
  intros Hprevious Hfailing. unfold create_enrichment_relationships. split.
  2: { cbn [foldl]. unfold enrich_row. by rewrite Hfailing. }
  change [previous; failing] with ([previous] ++ [failing]).
  rewrite app_assoc, (foldl_app _ (earlier ++ [previous])). cbn [foldl].
  rewrite foldl_app. cbn [foldl].
  set (before := foldl enrich_row (mk_batch g 0 [], None) earlier).
  pose proof (enrich_row_remembers before previous ct Hprevious) as Hkey.
  destruct (enrich_row before previous) as [st key]. simpl in Hkey. subst key.
  unfold enrich_row at 1. rewrite Hfailing. done.
Qed.

Lemma fifteen_length c1 c2 c3 c5 c7 c8 v1 v2 v3 v5 v7 v8 a1 a2 a3 a4 a5 a6 e1 e2 e3 :
  length (fifteen c1 c2 c3 c5 c7 c8 v1 v2 v3 v5 v7 v8 a1 a2 a3 a4 a5 a6 e1 e2 e3)
  = 15%nat.
Proof. done. Qed.

Lemma links_without_block_groups (ct : string) (ps : list pairing) (st : batch) :
  (forall n, n ∈ nodes (store st) -> node_label n <> "BlockGroup") ->
  store (foldl (link ct) st ps) = store st.
Proof.
  revert st. induction ps as [|p ps IH]; intros st Hnone; [done |].
  cbn [foldl].
  assert (store (link ct st p) = store st) as Hstep.
  { destruct (link_store ct st p) as (-> & _ & _).
    rewrite create_relationship_without_endpoint; [done | by left]. }
  rewrite IH; [done |]. by rewrite Hstep.
Qed.

Lemma enrich_accepted_row (st : batch * option string) (row : pydict) :
  is_ok (ct_block_group_of row) = true ->
  is_ok (enrichments row) = true ->
  let after := (enrich_row st row).1 in
  success_count after = success_count st.1 + 15
  /\ failed_instances after = failed_instances st.1
  /\ nodes (store after) = nodes (store st.1)
  /\ ((forall n, n ∈ nodes (store st.1) -> node_label n <> "BlockGroup") ->
      store after = store st.1).
Proof.
  intros Hct Hes. unfold enrich_row.
  destruct (ct_block_group_of row) as [ct|]; [|done].
  destruct (enrichments row) as [es|] eqn:Ees; [|done]. simpl.
  destruct (pairings_shape row es Ees)
    as (c1&c2&c3&c5&c7&c8&v1&v2&v3&v5&v7&v8&a1&a2&a3&a4&a5&a6&e1&e2&e3&Hps).
  destruct (links_nodes ct (pairings es) st.1) as (Hnodes & Hcount & Hfailed).
  rewrite Hcount, Hfailed, Hnodes, Hps, fifteen_length.
  repeat split. apply links_without_block_groups.
Qed.

(** A run over rows the classifier accepts counts fifteen successes a row
    and records no failure, whatever the store holds.  It creates no node,
    and writes nothing at all when the store has no [BlockGroup] node. *)
Theorem enrichment_count_ignores_the_store (g : graph) (df : list pydict) :
  Forall (fun row => is_ok (ct_block_group_of row) = true
                     /\ is_ok (enrichments row) = true) df ->
  let final := create_enrichment_relationships g df in
  success_count final = 15 * Z.of_nat (length df)
  /\ failed_instances final = []
  /\ nodes (store final) = nodes g
  /\ ((forall n, n ∈ nodes g -> node_label n <> "BlockGroup") ->
      store final = g).
Proof.
  intros Hdf. unfold create_enrichment_relationships.
  assert (forall st : batch * option string,
            let final := (foldl enrich_row st df).1 in
            success_count final = success_count st.1 + 15 * Z.of_nat (length df)
            /\ failed_instances final = failed_instances st.1
            /\ nodes (store final) = nodes (store st.1)
            /\ ((forall n, n ∈ nodes (store st.1) -> node_label n <> "BlockGroup") ->
                store final = store st.1)) as Hloop.
  { induction Hdf as [|row df [Hct Hes] _ IH]; intros st.
    - simpl. repeat split; lia.
    - cbn [foldl length]. cbv zeta in IH.
      destruct (IH (enrich_row st row)) as (Hc & Hf & Hn & Hs).
      destruct (enrich_accepted_row st row Hct Hes) as (Hc' & Hf' & Hn' & Hs').
      rewrite Hc, Hf, Hn, Hc', Hf', Hn'. repeat split; [lia |].
      intros Hnone. rewrite Hs; [by apply Hs' |].
      intros n Hn0. apply Hnone. by rewrite <- Hn'. }
  destruct (Hloop (mk_batch g 0 [], None)) as (Hc & Hf & Hn & Hs).
  repeat split; simpl in *; auto.
Qed.

End EnrichmentRuns.

(** A row without its tract column after a complete row of block group
    83.01/1. *)
Lemma failed_row_is_reported_under_the_previous_key_witness :
  failed_instances
    (GeoEnrichment.create_enrichment_relationships empty_graph
       [EnrichmentExample.census_row 1500 50; []])
  = [[("block_group", VStr "83011"); ("error", VStr "'tractce'")]]
  /\ failed_instances
       (GeoEnrichment.create_enrichment_relationships empty_graph [[]])
     = [[("block_group", VStr "unknown"); ("error", VStr "'tractce'")]].
Proof.
  destruct (failed_row_is_reported_under_the_previous_key empty_graph []
              (EnrichmentExample.census_row 1500 50) [] "83011"
              (mk_exn KeyError "'tractce'")) as [Hprevious Hfirst].
  - by vm_compute.
  - by vm_compute.
  - split; [| exact Hfirst].
    refine (eq_trans Hprevious _). by vm_compute.
Defined.

(** One complete row, run on the empty store. *)
Lemma enrichment_count_ignores_the_store_witness :
  let final :=
    GeoEnrichment.create_enrichment_relationships empty_graph
      [EnrichmentExample.census_row 1500 50] in
  success_count final = 15 /\ failed_instances final = [] /\ store final = empty_graph.
Proof.
  destruct (enrichment_count_ignores_the_store empty_graph
              [EnrichmentExample.census_row 1500 50])
    as (Hcount & Hfailed & _ & Hstore).
  - repeat constructor.
  - split; [exact Hcount |]. split; [exact Hfailed |].
    apply Hstore. intros n Hn. destruct (proj1 (elem_of_nil n) Hn).
Defined.

(** ** The node upsert (neo4j/construction.py): dictionaries *)

Lemma dict_lookup_set (k k' : string) (v : pyval) (d : pydict) :
  dict_lookup k (dict_set k' v d) = if String.eqb k k' then Some v else dict_lookup k d.
Proof.
  induction d as [|[k0 v0] d IH]; simpl.
  - done.
  - destruct (String.eqb_spec k' k0) as [->|Hne]; simpl.
    + by destruct (String.eqb k k0).
    + destruct (String.eqb_spec k k0) as [->|Hne'].
      * destruct (String.eqb_spec k0 k') as [->|_]; [done | done].
      * done.
Qed.

Lemma dict_keys_lookup (k : string) (d : pydict) :
  k ∈ dict_keys d <-> is_Some (dict_lookup k d).
Proof.
  unfold dict_keys. induction d as [|[k0 v0] d IH]; simpl.
  - split; [by intros ?%elem_of_nil | by intros [? ?]].
  - rewrite elem_of_cons, IH.
    destruct (String.eqb_spec k k0) as [->|Hne]; split; eauto; intros [?|?]; done.
Qed.

Lemma dict_select_lookup (keys : list string) (d acc m : pydict) :
  dict_select keys d acc = Ok m ->
  forall k, dict_lookup k m
            = if decide (k ∈ keys) then dict_lookup k d else dict_lookup k acc.
Proof.
  revert acc. induction keys as [|k0 keys IH]; intros acc Hm k; simpl in Hm.
  - injection Hm as <-. by rewrite decide_False by apply not_elem_of_nil.
  - destruct (dict_lookup k0 d) as [v0|] eqn:E0; [|done].
    rewrite (IH _ Hm k), dict_lookup_set.
    destruct (decide (k ∈ keys)) as [Hin|Hout].
    + by rewrite decide_True by (by right).
    + destruct (String.eqb_spec k k0) as [->|Hne].
      * by rewrite decide_True by left.
      * rewrite decide_False; [done |]. rewrite elem_of_cons. tauto.
Qed.

Lemma dict_lookup_filter_keys (keys : list string) (d : pydict) (k : string) :
  k ∈ keys ->
  dict_lookup k (filter (fun kv : string * pyval => kv.1 ∉ keys) d) = None.
Proof.
  intros Hk. induction d as [|[k0 v0] d IH]; [done |].
  rewrite filter_cons. case_decide as Hin; simpl in *; [|done].
  destruct (String.eqb_spec k k0) as [->|_]; [done | done].
Qed.

(** ** Property maps *)

Lemma set_prop_lookup (m : gmap string pyval) (kv : string * pyval) (k : string) :
  Cypher.set_prop m kv !! k
  = if String.eqb k kv.1 then (if is_none kv.2 then None else Some kv.2) else m !! k.
Proof.
  unfold Cypher.set_prop. destruct kv as [k' v]. simpl.
  destruct (String.eqb_spec k k') as [->|Hne].
  - destruct v; simpl; by rewrite ?lookup_delete_eq, ?lookup_insert_eq.
  - destruct v; simpl; by rewrite ?lookup_delete_ne, ?lookup_insert_ne.
Qed.

Lemma set_add_assigned (d : pydict) (m : gmap string pyval) (k : string) :
  Cypher.set_add m d !! k
  = match assigned k d with Some r => r | None => m !! k end.
Proof.
  unfold Cypher.set_add. revert m.
  induction d as [|[k' v] d IH]; intros m; [done |].
  cbn [foldl assigned]. rewrite IH.
  destruct (assigned k d); [done |].
  rewrite set_prop_lookup. simpl. by destruct (String.eqb k k').
Qed.

Lemma set_add_idempotent (d : pydict) (m : gmap string pyval) :
  Cypher.set_add (Cypher.set_add m d) d = Cypher.set_add m d.
Proof.
  apply map_eq. intros k. rewrite !set_add_assigned.
  by destruct (assigned k d).
Qed.

Lemma list_to_map_omap_lookup (f : string -> option pyval) (ks : list string)
    (k : string) :
  (list_to_map (omap (fun k => pair k <$> f k) ks) : gmap string pyval) !! k
  = if decide (k ∈ ks) then f k else None.
Proof.
  induction ks as [|k0 ks IH].
  - rewrite decide_False by apply not_elem_of_nil. done.
  - assert (omap (fun k => pair k <$> f k) (k0 :: ks)
            = match f k0 with
              | Some v => (k0, v) :: omap (fun k => pair k <$> f k) ks
              | None => omap (fun k => pair k <$> f k) ks
              end) as -> by (simpl; by destruct (f k0)).
    destruct (f k0) as [v0|] eqn:E0.
    + rewrite list_to_map_cons. destruct (decide (k = k0)) as [->|Hne].
      * rewrite lookup_insert_eq. by rewrite decide_True by left.
      * rewrite lookup_insert_ne by done. rewrite IH.
        destruct (decide (k ∈ ks)).
        -- by rewrite decide_True by (by right).
        -- rewrite decide_False; [done |]. rewrite elem_of_cons. tauto.
    + rewrite IH. destruct (decide (k ∈ ks)).
      * by rewrite decide_True by (by right).
      * destruct (decide (k = k0)) as [->|Hne].
        -- by rewrite decide_True by left.
        -- rewrite decide_False; [done |]. rewrite elem_of_cons. tauto.
Qed.

Lemma forallb_eq_on {A : Type} (p q : A -> bool) (l : list A) :
  (forall x, x ∈ l -> p x = q x) -> forallb p l = forallb q l.
Proof.
  induction l as [|x l IH]; intros Hpq; [done |]. simpl.
  rewrite (Hpq x) by left. rewrite IH; [done |]. intros y Hy. apply Hpq. by right.
Qed.

Lemma filter_bool_map {A : Type} (p : A -> bool) (f : A -> A) (l : list A) :
  (forall x, p (f x) = p x) ->
  filter (fun x => p x) (map f l) = map f (filter (fun x => p x) l).
Proof.
  intros Hp. induction l as [|x l IH]; [done |].
  cbn [map]. rewrite !filter_bool_cons, Hp. destruct (p x); simpl; by rewrite IH.
Qed.

Lemma filter_bool_nil_inv {A : Type} (p : A -> bool) (l : list A) (x : A) :
  filter (fun x => p x) l = [] -> x ∈ l -> p x = false.
Proof.
  intros Hnil Hx. destruct (p x) eqn:E; [|done].
  assert (x ∈ filter (fun x => p x) l) as Hin by (by apply elem_of_filter_bool).
  rewrite Hnil in Hin. by apply elem_of_nil in Hin.
Qed.

Lemma map_id_on {A : Type} (f : A -> A) (l : list A) :
  (forall x, x ∈ l -> f x = x) -> map f l = l.
Proof.
  induction l as [|x l IH]; intros Hf; [done |]. simpl.
  rewrite (Hf x) by left. rewrite IH; [done |]. intros y Hy. apply Hf. by right.
Qed.

(** The [MERGE ... SET n += ...] of [create_node], for any pattern [hit] and
    any [update] of the matched nodes that the pattern does not see. *)
Lemma merge_twice (hit : node -> bool) (update : node -> node) (n0 : node)
    (g : graph) :
  (forall n, hit (update n) = hit n) ->
  (forall n, update (update n) = update n) ->
  hit (update n0) = true ->
  let merge (g : graph) : graph * option node :=
    match filter (fun n => hit n) (nodes g) with
    | [] =>
        (mk_graph (nodes g ++ [update n0]) (rels g) (layers g) (S (next_id g)),
         Some (update n0))
    | n :: _ =>
        (mk_graph (map (fun n => if hit n then update n else n) (nodes g))
           (rels g) (layers g) (next_id g),
         Some (update n))
    end in
  let merge' (g' : graph) : graph * option node :=
    match filter (fun n => hit n) (nodes g') with
    | [] =>
        (mk_graph (nodes g' ++ [update (mk_node (next_id g') (node_label n0) (node_props n0))])
           (rels g') (layers g') (S (next_id g')),
         Some (update (mk_node (next_id g') (node_label n0) (node_props n0))))
    | n :: _ =>
        (mk_graph (map (fun n => if hit n then update n else n) (nodes g'))
           (rels g') (layers g') (next_id g'),
         Some (update n))
    end in
  merge' (merge g).1 = merge g.
Proof.
  intros Hhit Hupdate Hnew merge merge'. unfold merge, merge'.
  destruct (filter (fun n => hit n) (nodes g)) as [|n found] eqn:Efound.
  - cbn [fst nodes rels layers next_id].
    rewrite filter_bool_app, Efound, filter_bool_cons, Hnew.
    rewrite ?filter_nil. cbn [app].
    rewrite map_app. cbn [map]. rewrite Hnew, Hupdate.
    rewrite (map_id_on _ (nodes g)); [done |].
    intros x Hx. by rewrite (filter_bool_nil_inv hit (nodes g) x Efound Hx).
  - cbn [fst nodes rels layers next_id].
    assert (forall x, hit (if hit x then update x else x) = hit x) as Hhit'.
    { intros x. destruct (hit x) eqn:E; [by rewrite Hhit | done]. }
    rewrite (filter_bool_map hit _ (nodes g) Hhit'), Efound. cbn [map].
    assert (hit n = true) as Hn.
    { assert (n ∈ filter (fun n => hit n) (nodes g)) as Hin by (rewrite Efound; left).
      by apply elem_of_filter_bool in Hin as [? _]. }
    rewrite Hn, Hupdate, map_map. f_equal. f_equal.
    apply map_ext. intros x. destruct (hit x) eqn:E.
    + by rewrite Hhit, E, Hupdate.
    + by rewrite E.
Qed.

Lemma forallb_elem {A : Type} (p : A -> bool) (l : list A) (x : A) :
  forallb p l = true -> x ∈ l -> p x = true.
Proof.
  intros Hall Hx. rewrite forallb_forall in Hall. apply Hall.
  by apply list_elem_of_In.
Qed.

Lemma elem_of_omap_pair (f : string -> option pyval) (ks : list string)
    (k : string) (v : pyval) :
  k ∈ ks -> f k = Some v -> (k, v) ∈ omap (fun k => pair k <$> f k) ks.
Proof.
  intros Hk Hv. apply list_elem_of_omap. exists k. split; [done |]. by rewrite Hv.
Qed.

Lemma dict_select_present (keys : list string) (d acc m : pydict) (k : string) :
  dict_select keys d acc = Ok m -> k ∈ keys -> is_Some (dict_lookup k d).
Proof.
  revert acc. induction keys as [|k0 keys IH]; intros acc Hm Hk.
  - by apply elem_of_nil in Hk.
  - simpl in Hm. destruct (dict_lookup k0 d) as [v0|] eqn:E0; [|done].
    apply elem_of_cons in Hk as [->|Hk]; [by rewrite E0 | by eapply IH].
Qed.

Lemma dict_select_missing (keys : list string) (d acc : pydict) (k : string) :
  k ∈ keys -> dict_lookup k d = None -> is_ok (dict_select keys d acc) = false.
Proof.
  intros Hk Hnone. destruct (dict_select keys d acc) as [m|] eqn:E; [|done].
  destruct (dict_select_present keys d acc m k E Hk) as [v Hv]. congruence.
Qed.

Lemma dict_select_keys (keys : list string) (d m : pydict) (k : string) :
  dict_select keys d [] = Ok m -> k ∈ dict_keys m <-> k ∈ keys.
Proof.
  intros Hm. rewrite dict_keys_lookup, (dict_select_lookup _ _ _ _ Hm).
  destruct (decide (k ∈ keys)) as [Hin|Hout].
  - split; [done |]. intros _. by eapply dict_select_present.
  - split; [by intros [? ?] | done].
Qed.

Lemma forallb_same_elements {A : Type} (p : A -> bool) (l l' : list A) :
  (forall x, x ∈ l <-> x ∈ l') -> forallb p l = forallb p l'.
Proof.
  intros Hsame. apply eq_true_iff_eq. rewrite !forallb_forall.
  split; intros Hall x Hx%list_elem_of_In; apply Hall, list_elem_of_In, Hsame, Hx.
Qed.

Lemma storable_sendable (v : pyval) : Cypher.storable v = true -> Cypher.sendable v = true.
Proof.
  assert (forall x, Cypher.scalar x = true -> Cypher.sendable x = true) as Hscalar.
  { by intros []. }
  destruct v as [| | | | |l|]; try done. simpl.
  induction l as [|x l IH]; [done |]. simpl.
  intros [Hx Hl]%andb_true_iff. by rewrite (Hscalar x Hx), IH.
Qed.

Lemma matches_same_params (label : string) (keys keys' : list string)
    (params params' : pydict) (n : node) :
  (forall k, k ∈ keys <-> k ∈ keys') ->
  (forall k, k ∈ keys -> dict_lookup k params = dict_lookup k params') ->
  Cypher.matches label keys params n = Cypher.matches label keys' params' n.
Proof.
  intros Hkeys Hparams. unfold Cypher.matches. f_equal.
  rewrite <- (forallb_same_elements _ keys keys' Hkeys).
  apply forallb_eq_on. intros k Hk. by rewrite Hparams.
Qed.

Lemma dict_set_Forall (P : pyval -> Prop) (k : string) (v : pyval) (d : pydict) :
  P v -> Forall (fun kv => P kv.2) d -> Forall (fun kv => P kv.2) (dict_set k v d).
Proof.
  intros Hv Hd. induction Hd as [|[k0 v0] d H0 Hd IH]; simpl.
  - by repeat constructor.
  - destruct (String.eqb k k0); by constructor.
Qed.

Lemma dict_select_Forall (P : pyval -> Prop) (keys : list string) (d acc m : pydict) :
  dict_select keys d acc = Ok m ->
  (forall k v, k ∈ keys -> dict_lookup k d = Some v -> P v) ->
  Forall (fun kv => P kv.2) acc -> Forall (fun kv => P kv.2) m.
Proof.
  revert acc. induction keys as [|k0 keys IH]; intros acc Hm Hkeys Hacc; simpl in Hm.
  - by injection Hm as <-.
  - destruct (dict_lookup k0 d) as [v0|] eqn:E0; [|done].
    apply (IH _ Hm).
    + intros k v Hk. apply Hkeys. by right.
    + apply dict_set_Forall; [|done]. apply (Hkeys k0); [by left | done].
Qed.

(** The pattern of [create_node] does not see what its [SET] writes, the
    [SET] can be repeated, and a node created from the pattern matches it. *)
Lemma merge_facts (label : string) (properties : pydict) (keys : list string)
    (merge_props : pydict) :
  (forall k v, k ∈ keys -> dict_lookup k properties = Some v ->
     Cypher.eqb v v = true) ->
  dict_select keys properties [] = Ok merge_props ->
  let remaining_props := filter (fun kv : string * pyval => kv.1 ∉ keys) properties in
  let params := dict_set "remaining_props" (VDict remaining_props) merge_props in
  let pattern :=
    omap (fun k => pair k <$> dict_lookup k params) (dict_keys merge_props) in
  let hit n := Cypher.matches label (dict_keys merge_props) params n in
  let update n :=
    mk_node (node_id n) (node_label n)
      (Cypher.set_add (node_props n) remaining_props) in
  forallb (fun kv : string * pyval => Cypher.storable kv.2) pattern = true ->
  (forall n, hit (update n) = hit n)
  /\ (forall n, update (update n) = update n)
  /\ (forall id, hit (update (mk_node id label (list_to_map pattern))) = true)
  /\ (forall n, hit n = Cypher.matches label keys properties n)
  /\ Forall (fun kv => Cypher.storable kv.2 = true) merge_props.
Proof.
  intros Hself Eselect remaining_props params pattern hit update Hstorable.
  pose proof (dict_select_lookup keys properties [] merge_props Eselect) as Hmerge.
  assert (forall k, k ∈ dict_keys merge_props ->
            k ∈ keys /\ exists p, dict_lookup k params = Some p
                                  /\ dict_lookup k properties = Some p
                                  /\ Cypher.eqb p p = true) as Hkeys.
  { intros k Hk. pose proof Hk as [v Hv]%dict_keys_lookup.
    rewrite Hmerge in Hv. destruct (decide (k ∈ keys)) as [Hin|]; [|done].
    split; [done |].
    destruct (String.eqb_spec k "remaining_props") as [->|Hne].
    - exfalso.
      assert (("remaining_props", VDict remaining_props) ∈ pattern) as Hp.
      { apply elem_of_omap_pair; [done |]. unfold params.
        by rewrite dict_lookup_set. }
      by apply (forallb_elem _ _ _ Hstorable) in Hp.
    - exists v. split; [|split; [done | by eapply Hself]].
      unfold params. rewrite dict_lookup_set, Hmerge, decide_True by done.
      by destruct (String.eqb_spec k "remaining_props"). }
  assert (forall k, k ∈ dict_keys merge_props ->
            dict_lookup k remaining_props = None) as Hremaining.
  { intros k Hk. apply dict_lookup_filter_keys. by apply Hkeys. }
  split_and!.
  - intros n. unfold hit, update, Cypher.matches. cbn [node_label node_props]. f_equal.
    apply forallb_eq_on. intros k Hk. by rewrite set_add_absent by by apply Hremaining.
  - intros n. unfold update. cbn [node_id node_label node_props].
    by rewrite set_add_idempotent.
  - intros id. unfold hit, update, Cypher.matches. cbn [node_label node_props].
    rewrite String.eqb_refl. cbn [andb]. apply forallb_forall. intros k Hk%list_elem_of_In.
    rewrite set_add_absent by by apply Hremaining.
    unfold pattern. rewrite list_to_map_omap_lookup, decide_True by done.
    by destruct (Hkeys k Hk) as (_ & p & -> & _ & Hp).
  - intros n. unfold hit. apply matches_same_params.
    + intros k. by eapply dict_select_keys.
    + intros k Hk. by destruct (Hkeys k Hk) as (_ & p & -> & -> & _).
  - apply (dict_select_Forall (fun v => Cypher.storable v = true) _ _ _ _ Eselect);
      [|done].
    intros k v Hk Hv.
    assert (k ∈ dict_keys merge_props) as Hk' by (by eapply dict_select_keys).
    destruct (Hkeys k Hk') as (_ & p & Hp & Hp' & _).
    assert (p = v) as -> by congruence.
    assert ((k, v) ∈ pattern) as Hin by (by apply elem_of_omap_pair).
    by apply (forallb_elem _ _ _ Hstorable) in Hin.
Qed.

(** Repeating a node upsert with the same label, properties and keys
    changes nothing and returns the same node, when each key value is
    equal to itself (NaN is not). *)
Theorem create_node_is_idempotent (g : graph) (label : string)
    (properties : pydict) (keys : list string) :
  (forall k v, k ∈ keys -> dict_lookup k properties = Some v ->
     Cypher.eqb v v = true) ->
  let first := Construction.create_node g label properties (Some keys) in
  Construction.create_node first.1 label properties (Some keys) = first.
Proof.
  intros Hself. cbv zeta. unfold Construction.create_node.
  destruct (dict_select keys properties []) as [merge_props|] eqn:Eselect; [|done].
  match goal with |- context [negb (?a && ?b)] =>
    destruct a eqn:Hstorable; [destruct b|]; [|done..] end.
  cbn [negb andb].
  destruct (merge_facts label properties keys merge_props Hself Eselect Hstorable)
    as (Hhit & Hupdate & Hnew & _).
  set (remaining_props := filter (fun kv : string * pyval => kv.1 ∉ keys) properties) in *.
  set (params := dict_set "remaining_props" (VDict remaining_props) merge_props) in *.
  exact (merge_twice
           (fun n => Cypher.matches label (dict_keys merge_props) params n)
           (fun n => mk_node (node_id n) (node_label n)
                       (Cypher.set_add (node_props n) remaining_props))
           (mk_node (next_id g) label
              (list_to_map
                 (omap (fun k => pair k <$> dict_lookup k params)
                    (dict_keys merge_props))))
           g Hhit Hupdate (Hnew (next_id g))).
Qed.

(** Merging the Zipcode 92103 into the example store twice. *)
Lemma create_node_is_idempotent_witness :
  let first :=
    Construction.create_node UpsertExample.g0 "Zipcode" DeleteExample.new_zipcode
      (Some ["zipcode_number"]) in
  Construction.create_node first.1 "Zipcode" DeleteExample.new_zipcode
    (Some ["zipcode_number"]) = first.
Proof.
  apply (create_node_is_idempotent UpsertExample.g0 "Zipcode"
           DeleteExample.new_zipcode ["zipcode_number"]).
  intros k v Hk Hv. apply list_elem_of_singleton in Hk as ->.
  injection Hv as <-. reflexivity.
Defined.

Lemma dict_lookup_filter_absent (P : string * pyval -> Prop)
    `{forall kv, Decision (P kv)} (d : pydict) (k : string) :
  dict_lookup k d = None -> dict_lookup k (filter P d) = None.
Proof.
  induction d as [|[k0 v0] d IH]; [done |]. simpl.
  destruct (String.eqb_spec k k0) as [->|Hne]; [done |]. intros Hd.
  rewrite filter_cons. destruct (decide (P (k0, v0))); simpl; [|by apply IH].
  destruct (String.eqb_spec k k0); [done | by apply IH].
Qed.

(** A node upsert leaves relationships and layers alone and removes no
    node: a node of the store keeps its id, its label and every property
    the supplied dictionary does not mention. *)
Theorem create_node_keeps_what_it_is_not_given (g : graph) (label : string)
    (properties : pydict) (match_keys : option (list string)) (n : node) :
  n ∈ nodes g ->
  let g' := (Construction.create_node g label properties match_keys).1 in
  rels g' = rels g /\ layers g' = layers g
  /\ exists n', n' ∈ nodes g'
       /\ node_id n' = node_id n /\ node_label n' = node_label n
       /\ forall k, dict_lookup k properties = None ->
            node_props n' !! k = node_props n !! k.
Proof.
  intros Hn. cbv zeta. unfold Construction.create_node.
  assert (rels g = rels g /\ layers g = layers g
          /\ exists n', n' ∈ nodes g /\ node_id n' = node_id n
               /\ node_label n' = node_label n
               /\ forall k, dict_lookup k properties = None ->
                    node_props n' !! k = node_props n !! k) as Hsame.
  { repeat split. exists n. by repeat split. }
  destruct match_keys as [keys|]; [|done].
  destruct (dict_select keys properties []) as [merge_props|]; [|done].
  match goal with |- context [negb ?c] => destruct c end; [|done].
  cbn [negb].
  match goal with |- context [filter ?p (nodes g)] =>
    destruct (filter p (nodes g)) as [|found rest] end;
    cbn [fst rels layers nodes]; (split; [done |]); (split; [done |]).
  - exists n. repeat split. apply elem_of_app. by left.
  - match goal with |- context [map ?f (nodes g)] => exists (f n) end.
    split; [apply elem_of_map; by exists n |].
    match goal with |- context [if ?c then _ else _] => destruct c end;
      cbn [node_id node_label node_props]; repeat split.
    intros k Hk. rewrite set_add_absent; [done |].
    by apply dict_lookup_filter_absent.
Qed.

(** Merging a geometry into the Zipcode 92101 of the example store: its
    key stays, and so does the relationship that ends in it. *)
Lemma create_node_keeps_what_it_is_not_given_witness :
  let g' :=
    (Construction.create_node UpsertExample.g0 "Zipcode" DeleteExample.known_zipcode
       (Some ["zipcode_number"])).1 in
  rels g' = rels UpsertExample.g0 /\ layers g' = layers UpsertExample.g0
  /\ exists n', n' ∈ nodes g'
       /\ node_id n' = 1%nat /\ node_label n' = "Zipcode"
       /\ forall k, dict_lookup k DeleteExample.known_zipcode = None ->
            node_props n' !! k
            = ({[ "zipcode_number" := VStr "92101" ]} : gmap string pyval) !! k.
Proof.
  pose proof (create_node_keeps_what_it_is_not_given UpsertExample.g0 "Zipcode"
                DeleteExample.known_zipcode (Some ["zipcode_number"])
                (mk_node 1 "Zipcode" {[ "zipcode_number" := VStr "92101" ]}))
    as Hkept.
  cbn [node_id node_label node_props] in Hkept. apply Hkept.
  right. left.
Defined.

(** ** Well-formedness *)

Lemma well_formed_rels (g : graph) (rs : list relationship) :
  well_formed g ->
  Forall (fun r => rel_start r ∈ map node_id (nodes g)
                   /\ rel_end r ∈ map node_id (nodes g)) rs ->
  well_formed (mk_graph (nodes g) rs (layers g) (next_id g)).
Proof. intros (Hids & _ & Hlayers) Hrs. by repeat split. Qed.

Lemma well_formed_same_ids (g : graph) (ns : list node) :
  well_formed g -> map node_id ns = map node_id (nodes g) ->
  well_formed (mk_graph ns (rels g) (layers g) (next_id g)).
Proof.
  intros (Hids & Hrels & Hlayers) Hns. unfold well_formed. simpl.
  rewrite Hns. by repeat split.
Qed.

Lemma survivor (doomed : node -> bool) (ns : list node) (i : nat) :
  i ∈ map node_id ns ->
  i ∉ map node_id (filter (fun n => doomed n) ns) ->
  i ∈ map node_id (filter (fun n => negb (doomed n)) ns).
Proof.
  intros (n & -> & Hn)%elem_of_map Hgone. apply elem_of_map. exists n.
  split; [done |]. apply elem_of_filter_bool. split; [|done].
  destruct (doomed n) eqn:E; [|done]. exfalso. apply Hgone.
  apply elem_of_map. exists n. split; [done |]. by apply elem_of_filter_bool.
Qed.

Lemma detach_delete_well_formed (doomed : node -> bool) (g : graph) :
  well_formed g -> well_formed (Cypher.detach_delete doomed g).
Proof.
  intros (Hids & Hrels & Hlayers). unfold well_formed, Cypher.detach_delete. simpl.
  split; [|split].
  - rewrite Forall_forall in Hids |- *. intros i (n & -> & Hn)%elem_of_map.
    apply Hids. apply elem_of_map. exists n. split; [done |].
    by apply elem_of_filter_bool in Hn as [_ ?].
  - rewrite Forall_forall in Hrels |- *. intros r Hr.
    apply elem_of_filter_bool in Hr as [Hkeep Hr].
    apply negb_true_iff, orb_false_iff in Hkeep as [Hs He].
    apply bool_decide_eq_false in Hs, He. destruct (Hrels r Hr) as [Hs' He'].
    split; by apply survivor.
  - apply map_Forall_fmap. intros name l Hl. simpl.
    specialize (Hlayers name l Hl). simpl in Hlayers.
    rewrite Forall_forall in Hlayers |- *. intros i Hi.
    apply list_elem_of_filter in Hi as [Hgone Hi]. apply survivor; auto.
Qed.

Lemma pairs_ids (xs ys : list node) (ns : list node) (ab : nat * nat) :
  xs ⊆ ns -> ys ⊆ ns -> ab ∈ Cypher.pairs xs ys ->
  ab.1 ∈ map node_id ns /\ ab.2 ∈ map node_id ns.
Proof.
  intros Hxs Hys Hab. destruct ab as [a b].
  apply elem_of_pairs_inv in Hab as (x & y & Hx & Hy & -> & ->).
  split; apply elem_of_map; eexists; split; eauto.
Qed.

Lemma filter_bool_subseteq {A : Type} (p : A -> bool) (l : list A) :
  filter (fun x => p x) l ⊆ l.
Proof. intros x Hx. by apply elem_of_filter_bool in Hx as [_ ?]. Qed.

Lemma merge_rel_ends (ids : list nat) (T : string) (d : pydict)
    (rs : list relationship) (ab : nat * nat) :
  ab.1 ∈ ids -> ab.2 ∈ ids ->
  Forall (fun r => rel_start r ∈ ids /\ rel_end r ∈ ids) rs ->
  Forall (fun r => rel_start r ∈ ids /\ rel_end r ∈ ids) (Cypher.merge_rel T d rs ab).
Proof.
  intros Ha Hb Hrs. unfold Cypher.merge_rel.
  destruct (existsb _ rs).
  - rewrite Forall_forall in Hrs |- *. intros r (r0 & -> & Hr0)%elem_of_map.
    destruct (Cypher.between _ _ _ r0); simpl; by apply Hrs.
  - apply Forall_app. split; [done |]. by repeat constructor.
Qed.

Lemma merge_all_ends (ids : list nat) (T : string) (d : pydict)
    (rows : list (nat * nat)) (rs : list relationship) :
  Forall (fun ab => ab.1 ∈ ids /\ ab.2 ∈ ids) rows ->
  Forall (fun r => rel_start r ∈ ids /\ rel_end r ∈ ids) rs ->
  Forall (fun r => rel_start r ∈ ids /\ rel_end r ∈ ids)
    (foldl (Cypher.merge_rel T d) rs rows).
Proof.
  intros Hrows. revert rs. induction Hrows as [|ab rows [Ha Hb] _ IH]; intros rs Hrs.
  - done.
  - simpl. apply IH. by apply merge_rel_ends.
Qed.

Lemma update_all_ends (ids : list nat) (T : string) (d : pydict)
    (rows : list (nat * nat)) (rs : list relationship) :
  Forall (fun r => rel_start r ∈ ids /\ rel_end r ∈ ids) rs ->
  Forall (fun r => rel_start r ∈ ids /\ rel_end r ∈ ids)
    (foldl (Cypher.update_rel T d) rs rows).
Proof.
  revert rs. induction rows as [|ab rows IH]; intros rs Hrs; [done |].
  simpl. apply IH. unfold Cypher.update_rel.
  rewrite Forall_forall in Hrs |- *. intros r (r0 & -> & Hr0)%elem_of_map.
  destruct (Cypher.between _ _ _ r0); simpl; by apply Hrs.
Qed.

Lemma endpoint_rows_ids (g : graph) (sl : string) (sp : pydict) (sk : list string)
    (el : string) (ep : pydict) (ek : list string) (name : string) (value : pyval)
    (rows : list (nat * nat)) :
  Construction.endpoint_rows g sl sp sk el ep ek name value = Ok rows ->
  Forall (fun ab => ab.1 ∈ map node_id (nodes g) /\ ab.2 ∈ map node_id (nodes g)) rows.
Proof.
  unfold Construction.endpoint_rows. intros Hrows.
  bind_inv Hrows. bind_inv Hrows. injection Hrows as <-.
  apply Forall_forall. intros ab Hab.
  eapply pairs_ids; [| |exact Hab]; apply filter_bool_subseteq.
Qed.

Lemma create_relationship_well_formed (g : graph) (sl : string) (sp : pydict)
    (sk : list string) (el : string) (ep : pydict) (ek : list string)
    (T : string) (d : option pydict) :
  well_formed g ->
  well_formed (Construction.create_relationship g sl sp sk el ep ek T d).1.
Proof.
  intros Hg. unfold Construction.create_relationship.
  destruct (Construction.endpoint_rows _ _ _ _ _ _ _ _ _) as [rows|] eqn:Erows; [|done].
  destruct (negb _); [done |]. simpl.
  apply well_formed_rels; [done |].
  apply merge_all_ends; [by eapply endpoint_rows_ids | apply Hg].
Qed.

Lemma update_relationship_properties_well_formed (g : graph) (sl : string)
    (sp : pydict) (sk : list string) (el : string) (ep : pydict) (ek : list string)
    (T : string) (d : pydict) :
  well_formed g ->
  well_formed (Construction.update_relationship_properties g sl sp sk el ep ek T d).1.
Proof.
  intros Hg. unfold Construction.update_relationship_properties.
  destruct (Construction.endpoint_rows _ _ _ _ _ _ _ _ _) as [rows|]; [|done].
  destruct (negb _); [done |]. simpl.
  apply well_formed_rels; [done |]. apply update_all_ends, Hg.
Qed.

Lemma create_node_well_formed (g : graph) (label : string) (properties : pydict)
    (match_keys : option (list string)) :
  well_formed g ->
  well_formed (Construction.create_node g label properties match_keys).1.
Proof.
  intros Hg. unfold Construction.create_node.
  destruct match_keys as [keys|]; [|done].
  destruct (dict_select keys properties []) as [merge_props|]; [|done].
  match goal with |- context [negb ?c] => destruct c end; [|done].
  cbn [negb].
  match goal with |- context [filter ?p (nodes g)] =>
    destruct (filter p (nodes g)) as [|found rest] end; cbn [fst].
  - destruct Hg as (Hids & Hrels & Hlayers). unfold well_formed. simpl.
    rewrite map_app. simpl. split; [|split].
    + apply Forall_app. split; [|repeat constructor; lia].
      eapply Forall_impl; [exact Hids |]. simpl. lia.
    + eapply Forall_impl; [exact Hrels |]. simpl. intros r [? ?].
      split; apply elem_of_app; by left.
    + intros name l Hl. specialize (Hlayers name l Hl). simpl in *.
      eapply Forall_impl; [exact Hlayers |]. simpl. intros i ?.
      apply elem_of_app; by left.
  - apply well_formed_same_ids; [done |]. rewrite map_map. apply map_ext.
    intros n. by destruct (Cypher.matches _ _ _ n).
Qed.

Lemma delete_node_well_formed (g : graph) (label : string) (properties : pydict)
    (match_keys : option (list string)) :
  well_formed g ->
  well_formed (Construction.delete_node g label properties match_keys).1.
Proof.
  intros Hg. unfold Construction.delete_node.
  match goal with |- context [match ?m with Ok _ => _ | Raise _ => _ end] =>
    destruct m as [match_props|] end; [|done].
  destruct (negb _); [done |].
  destruct (_ =? _)%nat; [done |]. by apply detach_delete_well_formed.
Qed.

Lemma delete_relationship_well_formed (g : graph) (sl : string) (sp : pydict)
    (sk : list string) (el : string) (ep : pydict) (ek : list string) (T : string) :
  well_formed g ->
  well_formed (Construction.delete_relationship g sl sp sk el ep ek T).1.
Proof.
  intros Hg. unfold Construction.delete_relationship.
  match goal with |- context [match ?m with Ok _ => _ | Raise _ => _ end] =>
    destruct m as [params|] end; [|done].
  destruct (negb _); [done |]. simpl.
  apply well_formed_rels; [done |].
  destruct Hg as (_ & Hrels & _). rewrite Forall_forall in Hrels |- *.
  intros r Hr. apply Hrels. by apply elem_of_filter_bool in Hr as [_ ?].
Qed.

(** The seven operations of the construction module keep the store well
    formed: no relationship and no layer member is left referring to a
    node that is gone, and no id in use is handed out again. *)
Theorem construction_keeps_the_graph_well_formed (g : graph)
    (label : string) (properties : pydict) (match_keys : option (list string))
    (sl : string) (sp : pydict) (sk : list string)
    (el : string) (ep : pydict) (ek : list string)
    (T : string) (d : option pydict) (d' : pydict) :
  well_formed g ->
  well_formed (Construction.create_node g label properties match_keys).1
  /\ well_formed (Construction.create_relationship g sl sp sk el ep ek T d).1
  /\ well_formed (Construction.update_relationship_properties g sl sp sk el ep ek T d').1
  /\ well_formed (Construction.delete_node g label properties match_keys).1
  /\ well_formed (Construction.delete_nodes_by_label g label)
  /\ well_formed (Construction.delete_relationship g sl sp sk el ep ek T).1
  /\ well_formed (Construction.delete_relationships_by_type g T).1.
Proof.
  intros Hg. split_and!.
  - by apply create_node_well_formed.
  - by apply create_relationship_well_formed.
  - by apply update_relationship_properties_well_formed.
  - by apply delete_node_well_formed.
  - by apply detach_delete_well_formed.
  - by apply delete_relationship_well_formed.
  - apply well_formed_rels; [done |].
    destruct Hg as (_ & Hrels & _). rewrite Forall_forall in Hrels |- *.
    intros r Hr. apply Hrels. by apply elem_of_filter_bool in Hr as [_ ?].
Qed.

(** The seven operations on the example store. *)
Lemma construction_keeps_the_graph_well_formed_witness :
  well_formed
    (Construction.create_node UpsertExample.g0 "Zipcode" DeleteExample.new_zipcode
       (Some ["zipcode_number"])).1
  /\ well_formed
       (Construction.create_relationship UpsertExample.g0
          "BlockGroup" [("ct_block_group", VStr "10001")] ["ct_block_group"]
          "Zipcode" [("zipcode_number", VStr "92101")] ["zipcode_number"]
          "IS_WITHIN" (Some UpsertExample.supplied)).1
  /\ well_formed
       (Construction.update_relationship_properties UpsertExample.g0
          "BlockGroup" [("ct_block_group", VStr "10001")] ["ct_block_group"]
          "Zipcode" [("zipcode_number", VStr "92101")] ["zipcode_number"]
          "IS_WITHIN" UpsertExample.supplied).1
  /\ well_formed
       (Construction.delete_node UpsertExample.g0 "Zipcode"
          DeleteExample.new_zipcode (Some ["zipcode_number"])).1
  /\ well_formed (Construction.delete_nodes_by_label UpsertExample.g0 "Zipcode")
  /\ well_formed
       (Construction.delete_relationship UpsertExample.g0
          "BlockGroup" [("ct_block_group", VStr "10001")] ["ct_block_group"]
          "Zipcode" [("zipcode_number", VStr "92101")] ["zipcode_number"]
          "IS_WITHIN").1
  /\ well_formed (Construction.delete_relationships_by_type UpsertExample.g0 "IS_WITHIN").1.
Proof.
  apply (construction_keeps_the_graph_well_formed UpsertExample.g0).
  apply (bool_decide_unpack _). by vm_compute.
Defined.

(** ** Deleting what was created *)

Lemma filter_bool_all {A : Type} (p : A -> bool) (l : list A) :
  (forall x, x ∈ l -> p x = true) -> filter (fun x => p x) l = l.
Proof.
  induction l as [|x l IH]; intros Hp; [done |].
  rewrite filter_bool_cons, (Hp x) by left. f_equal. apply IH.
  intros y Hy. apply Hp. by right.
Qed.


(** Deleting the one node that carries a fresh id leaves a well-formed
    graph as it was. *)
Lemma detach_delete_fresh (hit : node -> bool) (g : graph) (n : node) :
  well_formed g ->
  (forall x, x ∈ nodes g -> hit x = false) ->
  hit n = true -> node_id n = next_id g ->
  Cypher.detach_delete hit
    (mk_graph (nodes g ++ [n]) (rels g) (layers g) (S (next_id g)))
  = mk_graph (nodes g) (rels g) (layers g) (S (next_id g)).
Proof.
  intros (Hids & Hrels & Hlayers) Hmiss Hn Hid.
  unfold Cypher.detach_delete. cbn [nodes rels layers next_id].
  assert (forall i, i ∈ map node_id (nodes g) -> i <> next_id g) as Hfresh.
  { intros i Hi. rewrite Forall_forall in Hids. specialize (Hids i Hi). lia. }
  rewrite (filter_bool_app hit), (filter_bool_nil hit (nodes g) Hmiss).
  rewrite filter_bool_cons, Hn. rewrite filter_nil. cbn [app map].
  rewrite (filter_bool_app (fun x => negb (hit x))).
  rewrite (filter_bool_all (fun x => negb (hit x)) (nodes g))
    by (intros x Hx; by rewrite Hmiss).
  rewrite (filter_bool_cons (fun x => negb (hit x))), Hn. cbn [negb].
  rewrite filter_nil, app_nil_r, Hid. f_equal.
  - apply filter_bool_all. intros r Hr. rewrite Forall_forall in Hrels.
    destruct (Hrels r Hr) as [Hs He].
    rewrite !bool_decide_eq_false_2; [done | |];
      rewrite list_elem_of_singleton; by apply Hfresh.
  - apply map_eq. intros name. rewrite lookup_fmap.
    destruct (layers g !! name) as [l|] eqn:El; [|done]. simpl. f_equal.
    specialize (Hlayers name l El). simpl in Hlayers.
    destruct l as [kind members]. simpl in *. f_equal. clear El.
    induction Hlayers as [|i members Hi _ IH]; [done |].
    rewrite filter_cons, decide_True.
    + by rewrite IH.
    + rewrite list_elem_of_singleton. by apply Hfresh.
Qed.

Lemma filter_bool_ext {A : Type} (p q : A -> bool) (l : list A) :
  (forall x, p x = q x) -> filter (fun x => p x) l = filter (fun x => q x) l.
Proof.
  intros Hpq. induction l as [|x l IH]; [done |].
  by rewrite !filter_bool_cons, Hpq, IH.
Qed.

Lemma detach_delete_ext (p q : node -> bool) (g : graph) :
  (forall x, p x = q x) -> Cypher.detach_delete p g = Cypher.detach_delete q g.
Proof.
  intros Hpq. unfold Cypher.detach_delete.
  rewrite (filter_bool_ext p q _ Hpq).
  by rewrite (filter_bool_ext (fun n => negb (p n)) (fun n => negb (q n)))
    by (intros x; by rewrite Hpq).
Qed.

(** [delete_node] with match keys that [properties] holds and the driver
    can send: the pattern is the keys' part of [properties]. *)
Lemma delete_node_matched (g : graph) (label : string) (properties : pydict)
    (k0 : string) (ks : list string) (match_props : pydict) :
  dict_select (k0 :: ks) properties [] = Ok match_props ->
  Forall (fun kv => Cypher.sendable kv.2 = true) match_props ->
  Construction.delete_node g label properties (Some (k0 :: ks))
  = if (length (filter (fun x => Cypher.matches label (k0 :: ks) properties x)
                  (nodes g)) =? 0)%nat
    then (g, Ok false)
    else (Cypher.detach_delete
            (fun x => Cypher.matches label (k0 :: ks) properties x) g, Ok true).
Proof.
  intros Eselect Hvalues. unfold Construction.delete_node. rewrite Eselect.
  assert (forallb (fun kv : string * pyval => Cypher.sendable kv.2) match_props
          = true) as ->.
  { apply forallb_forall. intros kv Hkv%list_elem_of_In.
    rewrite Forall_forall in Hvalues. by apply Hvalues. }
  cbn [negb].
  assert (forall x, Cypher.matches label (dict_keys match_props) match_props x
                    = Cypher.matches label (k0 :: ks) properties x) as Hsame.
  { intros x. apply matches_same_params.
    - intros k. by eapply dict_select_keys.
    - intros k Hk. rewrite (dict_select_lookup _ _ _ _ Eselect).
      rewrite decide_True; [done |]. by eapply dict_select_keys. }
  rewrite (filter_bool_ext _ _ _ Hsame).
  by rewrite (detach_delete_ext _ _ _ Hsame).
Qed.

(** What a successful [create_node] returns. *)
Lemma create_node_result (g : graph) (label : string) (properties : pydict)
    (keys : list string) (n : node) :
  (forall k v, k ∈ keys -> dict_lookup k properties = Some v ->
     Cypher.eqb v v = true) ->
  let created := Construction.create_node g label properties (Some keys) in
  created.2 = Some n ->
  Cypher.matches label keys properties n = true
  /\ n ∈ nodes created.1
  /\ (exists match_props,
        dict_select keys properties [] = Ok match_props
        /\ Forall (fun kv => Cypher.storable kv.2 = true) match_props)
  /\ (filter (fun x => Cypher.matches label keys properties x) (nodes g) = [] ->
      created.1 = mk_graph (nodes g ++ [n]) (rels g) (layers g) (S (next_id g))
      /\ node_id n = next_id g).
Proof.
  intros Hself. cbv zeta. unfold Construction.create_node.
  destruct (dict_select keys properties []) as [merge_props|] eqn:Eselect; [|done].
  match goal with |- context [negb (?a && ?b)] =>
    destruct a eqn:Hstorable; [destruct b|]; [|done..] end.
  cbn [negb andb].
  destruct (merge_facts label properties keys merge_props Hself Eselect Hstorable)
    as (Hhit & Hupdate & Hnew & Hmatches & Hvalues).
  rewrite (filter_bool_ext _ _ (nodes g) Hmatches).
  destruct (filter (fun x => Cypher.matches label keys properties x) (nodes g))
    as [|found rest] eqn:Efound; cbn [fst snd nodes]; intros [= <-].
  - split; [rewrite <- Hmatches; exact (Hnew (next_id g)) |].
    split; [apply elem_of_app; right; by left |].
    split; [eauto |]. intros _. by split.
  - assert (found ∈ nodes g /\ Cypher.matches label keys properties found = true)
      as [Hfound Hfound'].
    { assert (found ∈ filter (fun x => Cypher.matches label keys properties x) (nodes g))
        as Hin by (rewrite Efound; left).
      by apply elem_of_filter_bool in Hin as [? ?]. }
    split; [rewrite <- Hmatches; etransitivity; [apply Hhit |]; by rewrite Hmatches |].
    split; [|split; [eauto | done]].
    apply elem_of_map. exists found. split; [|done]. by rewrite Hmatches, Hfound'.
Qed.

(** Deleting a node with the label, properties and keys it was created
    with succeeds and leaves no node matching the keys.  When no node
    matched before the creation, the nodes, relationships and layers are
    those from before it. *)
Theorem delete_node_undoes_create_node (g : graph) (label : string)
    (properties : pydict) (keys : list string) (n : node) :
  well_formed g ->
  keys <> [] ->
  (forall k v, k ∈ keys -> dict_lookup k properties = Some v ->
     Cypher.eqb v v = true) ->
  let created := Construction.create_node g label properties (Some keys) in
  created.2 = Some n ->
  let deleted := Construction.delete_node created.1 label properties (Some keys) in
  deleted.2 = Ok true
  /\ (forall x, x ∈ nodes deleted.1 ->
        Cypher.matches label keys properties x = false)
  /\ ((forall x, x ∈ nodes g -> Cypher.matches label keys properties x = false) ->
      nodes deleted.1 = nodes g /\ rels deleted.1 = rels g
      /\ layers deleted.1 = layers g).
Proof.
  intros Hg Hkeys Hself created Hn.
  destruct (create_node_result g label properties keys n Hself Hn)
    as (Hmatch & Hin & (match_props & Eselect & Hvalues) & Hfresh).
  fold created in Hin, Hfresh. destruct keys as [|k0 ks]; [done |]. cbv zeta.
  rewrite (delete_node_matched _ _ _ _ _ match_props Eselect)
    by (eapply Forall_impl; [exact Hvalues |]; intros kv; apply storable_sendable).
  destruct (filter (fun x => Cypher.matches label (k0 :: ks) properties x)
              (nodes created.1)) as [|y found] eqn:Efound.
  { exfalso. by rewrite (filter_bool_nil_inv _ _ n Efound Hin) in Hmatch. }
  cbn [length Nat.eqb fst snd]. split; [done |]. split.
  - intros x Hx. unfold Cypher.detach_delete in Hx. cbn [nodes] in Hx.
    apply elem_of_filter_bool in Hx as [Hx _]. by apply negb_true_iff.
  - intros Hmiss. destruct Hfresh as [-> Hid]; [by apply filter_bool_nil |].
    by rewrite (detach_delete_fresh
                  (fun x => Cypher.matches label (k0 :: ks) properties x)
                  g n Hg Hmiss Hmatch Hid).
Qed.

(** Creating and deleting the Zipcode 92103 on the example store. *)
Lemma delete_node_undoes_create_node_witness :
  let created :=
    Construction.create_node UpsertExample.g0 "Zipcode" DeleteExample.new_zipcode
      (Some ["zipcode_number"]) in
  let deleted :=
    Construction.delete_node created.1 "Zipcode" DeleteExample.new_zipcode
      (Some ["zipcode_number"]) in
  deleted.2 = Ok true
  /\ nodes deleted.1 = nodes UpsertExample.g0
  /\ rels deleted.1 = rels UpsertExample.g0
  /\ layers deleted.1 = layers UpsertExample.g0.
Proof.
  destruct (delete_node_undoes_create_node UpsertExample.g0 "Zipcode"
              DeleteExample.new_zipcode ["zipcode_number"]
              (mk_node 2 "Zipcode" (list_to_map DeleteExample.new_zipcode)))
    as (Hdeleted & _ & Hrestored).
  - apply (bool_decide_unpack _). by vm_compute.
  - discriminate.
  - intros k v Hk Hv. apply list_elem_of_singleton in Hk as ->.
    injection Hv as <-. reflexivity.
  - by vm_compute.
  - split; [exact Hdeleted |]. apply Hrestored.
    intros x Hx. cbn [nodes UpsertExample.g0] in Hx.
    repeat (apply elem_of_cons in Hx as [-> | Hx]; [by vm_compute |]).
    destruct (proj1 (elem_of_nil x) Hx).
Defined.

(** With a match key that the properties do not hold, [delete_node]
    fails inside its own handler, which reads [match_props] before it was
    assigned: the error leaves the function.  [create_node] fails quietly
    on the same input (it returns [False], the model's [None]).  Neither
    touches the store. *)
Theorem delete_node_raises_on_a_missing_key (g : graph) (label : string)
    (properties : pydict) (keys : list string) (k : string) :
  k ∈ keys ->
  dict_lookup k properties = None ->
  Construction.delete_node g label properties (Some keys)
  = (g, Construction.unbound_local "match_props")
  /\ Construction.create_node g label properties (Some keys) = (g, None).
Proof.
  intros Hk Hmissing.
  pose proof (dict_select_missing keys properties [] k Hk Hmissing) as Hselect.
  unfold Construction.delete_node, Construction.create_node.
  destruct keys as [|k0 ks]; [by apply elem_of_nil in Hk |].
  by destruct (dict_select (k0 :: ks) properties []).
Qed.

(** ** Deleting a relationship *)

Lemma existsb_elem {A : Type} (p : A -> bool) (l : list A) (x : A) :
  x ∈ l -> p x = true -> existsb p l = true.
Proof.
  intros Hx Hp. apply existsb_exists. exists x. split; [|done].
  by apply list_elem_of_In.
Qed.

(** The upsert only writes relationships that the deletion over the same
    rows removes. *)
Lemma merge_all_filtered (T : string) (d : pydict) (rows todo : list (nat * nat))
    (rs : list relationship) :
  todo ⊆ rows ->
  filter (fun r => negb (existsb (fun ab => Cypher.between ab.1 T ab.2 r) rows))
    (foldl (Cypher.merge_rel T d) rs todo)
  = filter (fun r => negb (existsb (fun ab => Cypher.between ab.1 T ab.2 r) rows)) rs.
Proof.
  revert rs. induction todo as [|ab todo IH]; intros rs Htodo; [done |].
  cbn [foldl]. rewrite IH by (intros x Hx; apply Htodo; by right).
  assert (ab ∈ rows) as Hab by (apply Htodo; left).
  unfold Cypher.merge_rel. destruct (existsb _ rs).
  - induction rs as [|r rs IHrs]; [done |]. cbn [map].
    rewrite !filter_bool_cons, IHrs.
    destruct (Cypher.between ab.1 T ab.2 r) eqn:E; [|done].
    assert (forall m, existsb (fun ab0 => Cypher.between ab0.1 T ab0.2
                                  (mk_rel (rel_start r) (rel_type r) (rel_end r) m))
                        rows = true) as Hgone.
    { intros m. by apply (existsb_elem _ _ ab). }
    rewrite Hgone. by rewrite (existsb_elem _ rows ab Hab E).
  - rewrite filter_bool_app, filter_bool_cons.
    rewrite (existsb_elem _ rows ab Hab).
    + cbn [negb]. by rewrite filter_nil, app_nil_r.
    + unfold Cypher.between. simpl. by rewrite !Nat.eqb_refl, String.eqb_refl.
Qed.

(** An upsert between two endpoints does not change what deleting the
    relationships of its type between them leaves behind: the delete
    after the upsert ends in the store the delete alone ends in. *)
Theorem delete_relationship_undoes_create_relationship (g g' : graph)
    (sl : string) (sp : pydict) (sk : list string)
    (el : string) (ep : pydict) (ek : list string)
    (T : string) (d : option pydict) :
  "rel_properties" ∉ sk ++ ek ->
  Construction.delete_relationship g sl sp sk el ep ek T = (g', true) ->
  Construction.delete_relationship
    (Construction.create_relationship g sl sp sk el ep ek T d).1
    sl sp sk el ep ek T
  = (g', true).
Proof.
  intros Hname Hdelete.
  unfold Construction.create_relationship, Construction.endpoint_rows.
  unfold Construction.delete_relationship in Hdelete |- *.
  destruct (dict_select sk sp []) as [start_params|]; [|done]. cbn [bind] in *.
  destruct (dict_select ek ep start_params) as [params|]; [|done]. cbn [bind].
  destruct (negb (forallb _ params)) eqn:Esend; [done |].
  destruct (negb (Cypher.settable (default [] d))).
  { done. }
  cbn [fst nodes rels layers next_id].
  injection Hdelete as <-. f_equal. f_equal.
  assert (forall keys label x,
            keys ⊆ sk ++ ek ->
            Cypher.matches label keys
              (dict_set "rel_properties" (VDict (default [] d)) params) x
            = Cypher.matches label keys params x) as Hsame.
  { intros keys label x Hkeys. apply matches_same_params; [done |].
    intros k Hk. rewrite dict_lookup_set.
    destruct (String.eqb_spec k "rel_properties") as [->|_]; [|done].
    exfalso. by apply Hname, Hkeys. }
  rewrite (filter_bool_ext
             (fun n => Cypher.matches sl sk
                         (dict_set "rel_properties" (VDict (default [] d)) params) n)
             (fun n => Cypher.matches sl sk params n))
    by (intros x; apply Hsame; intros k Hk; apply elem_of_app; by left).
  rewrite (filter_bool_ext
             (fun n => Cypher.matches el ek
                         (dict_set "rel_properties" (VDict (default [] d)) params) n)
             (fun n => Cypher.matches el ek params n))
    by (intros x; apply Hsame; intros k Hk; apply elem_of_app; by right).
  by apply merge_all_filtered.
Qed.

(** A Zipcode entity without its key. *)
Lemma delete_node_raises_on_a_missing_key_witness :
  Construction.delete_node empty_graph "Zipcode" [("wkt", VStr "POINT (0 0)")]
    (Some ["zipcode_number"])
  = (empty_graph, Construction.unbound_local "match_props")
  /\ Construction.create_node empty_graph "Zipcode" [("wkt", VStr "POINT (0 0)")]
       (Some ["zipcode_number"])
     = (empty_graph, None).
Proof.
  apply (delete_node_raises_on_a_missing_key empty_graph "Zipcode"
           [("wkt", VStr "POINT (0 0)")] ["zipcode_number"] "zipcode_number").
  - left.
  - reflexivity.
Defined.

(** Deleting the relationship of the example store, directly and after an
    upsert between the same two nodes. *)
Lemma delete_relationship_undoes_create_relationship_witness :
  Construction.delete_relationship
    (Construction.create_relationship UpsertExample.g0
       "BlockGroup" [("ct_block_group", VStr "10001")] ["ct_block_group"]
       "Zipcode" [("zipcode_number", VStr "92101")] ["zipcode_number"]
       "IS_WITHIN" (Some UpsertExample.supplied)).1
    "BlockGroup" [("ct_block_group", VStr "10001")] ["ct_block_group"]
    "Zipcode" [("zipcode_number", VStr "92101")] ["zipcode_number"]
    "IS_WITHIN"
  = (mk_graph (nodes UpsertExample.g0) [] ∅ 2, true).
Proof.
  apply (delete_relationship_undoes_create_relationship UpsertExample.g0
           (mk_graph (nodes UpsertExample.g0) [] ∅ 2)).
  - apply (bool_decide_unpack _). by vm_compute.
  - by vm_compute.
Defined.

(** Without a node of the start label, or without a node of the end
    label, the relationship upsert writes nothing and returns [False]. *)
Theorem create_relationship_needs_both_endpoints (g : graph)
    (sl : string) (sp : pydict) (sk : list string)
    (el : string) (ep : pydict) (ek : list string)
    (T : string) (d : option pydict) :
  (forall n, n ∈ nodes g -> node_label n <> sl)
  \/ (forall n, n ∈ nodes g -> node_label n <> el) ->
  Construction.create_relationship g sl sp sk el ep ek T d = (g, false).
Proof. apply create_relationship_without_endpoint. Qed.

(** The empty store has neither endpoint. *)
Lemma create_relationship_needs_both_endpoints_witness :
  Construction.create_relationship empty_graph
    "BlockGroup" [("ct_block_group", VStr "10001")] ["ct_block_group"]
    "Zipcode" [("zipcode_number", VStr "92101")] ["zipcode_number"]
    "IS_WITHIN" None
  = (empty_graph, false).
Proof.
  apply (create_relationship_needs_both_endpoints empty_graph).
  left. intros n Hn. destruct (proj1 (elem_of_nil n) Hn).
Defined.

(** ** Spatial layers (neo4j/spatial.py) *)

(** A layer that exists is never replaced: after either initialiser has
    run, both return [True] on the same name without changing the store,
    whatever kind or geometry property they are called with, and a layer
    that was there before the first call is kept as it was. *)
Theorem layer_is_initialised_once (g : graph) (layer_name property : string) :
  let wkt := (Spatial.init_wkt_layer g layer_name property).1 in
  let point := (Spatial.init_point_layer g layer_name).1 in
  (forall other, Spatial.init_wkt_layer wkt layer_name other = (wkt, true))
  /\ Spatial.init_point_layer wkt layer_name = (wkt, true)
  /\ (forall other, Spatial.init_wkt_layer point layer_name other = (point, true))
  /\ Spatial.init_point_layer point layer_name = (point, true)
  /\ layers wkt !! layer_name
     = Some (default (mk_layer (WKTLayer property) []) (layers g !! layer_name))
  /\ layers point !! layer_name
     = Some (default (mk_layer PointLayer []) (layers g !! layer_name)).
Proof.
  cbv zeta. unfold Spatial.init_wkt_layer, Spatial.init_point_layer.
  destruct (layers g !! layer_name) as [l|] eqn:El; cbn [fst layers].
  - rewrite !El. by repeat split.
  - rewrite !lookup_insert_eq. by repeat split.
Qed.

(** ** Constraint statements (neo4j/constraints.py) *)

Section ConstraintStatements.
Context `{Builtins}.
Import Constraints.

Lemma delete_for_properties_mirrors (is_relationship : bool) (label : string)
    (items : pydict) :
  delete_for_properties items
  = (map (fun s => DropConstraint (named s))
       (create_for_properties is_relationship label items).1,
     (create_for_properties is_relationship label items).2).
Proof.
  induction items as [|[property_name property_constraints] items IH]; [done |].
  cbn [delete_for_properties create_for_properties].
  destruct (unique_name property_constraints) as [[constraint_name|]|]; [|done..].
  rewrite IH. by destruct (create_for_properties is_relationship label items).
Qed.

Lemma delete_for_schemas_mirrors (is_relationship : bool) (schemas : pydict) :
  delete_for_schemas schemas
  = (map (fun s => DropConstraint (named s))
       (create_for_schemas is_relationship schemas).1,
     (create_for_schemas is_relationship schemas).2).
Proof.
  induction schemas as [|[label schema] schemas IH]; [done |].
  cbn [delete_for_schemas create_for_schemas].
  destruct (let* declared := get_or_empty schema "properties" in py_items declared)
    as [items|]; [|done].
  rewrite (delete_for_properties_mirrors is_relationship label).
  destruct (create_for_properties is_relationship label items) as [issued [[]|e]];
    [|done].
  cbn [fst snd]. rewrite IH.
  destruct (create_for_schemas is_relationship schemas) as [more ending].
  cbn [fst snd]. by rewrite map_app.
Qed.

(** [delete_all_constraints] drops the constraints [create_constraints]
    creates, name by name and in the same order, and ends in the same
    way. *)
Theorem delete_all_constraints_mirrors_create_constraints (constraints : pyval) :
  delete_all_constraints constraints
  = (map (fun s => DropConstraint (named s)) (create_constraints constraints).1,
     (create_constraints constraints).2).
Proof.
  unfold delete_all_constraints, create_constraints.
  match goal with |- context [match ?m with Ok _ => _ | Raise _ => _ end] =>
    destruct m as [[node_schemas relationships]|] end; [|done].
  rewrite (delete_for_schemas_mirrors false).
  destruct (create_for_schemas false node_schemas) as [issued [[]|e]]; [|done].
  cbn [fst snd].
  destruct (py_items relationships) as [rel_schemas|]; [|done].
  rewrite (delete_for_schemas_mirrors true).
  destruct (create_for_schemas true rel_schemas) as [more ending].
  cbn [fst snd]. by rewrite map_app.
Qed.

End ConstraintStatements.

(** ** The block-group builder (etl/block_groups.py) *)

Section BlockGroupRows.
Context `{Builtins} `{SpatialExtension}.
Import BlockGroups.

Lemma block_groups_loop_app (constraints : pyval) (st : batch * option pydict)
    (rows more : list block_group_row) :
  block_groups_loop constraints st (rows ++ more)
  = match block_groups_loop constraints st rows with
    | (st', Ok _) => block_groups_loop constraints st' more
    | (st', Raise e) => (st', Raise e)
    end.
Proof.
  revert st. induction rows as [|row rows IH]; intros st; [done |].
  cbn [app block_groups_loop].
  destruct (block_group_step constraints st row) as [st' [[]|e]]; [apply IH | done].
Qed.

(** After a row that has a geometry the handler's [properties] is that
    row's dictionary, whether the row succeeded or not. *)
Lemma block_group_step_remembers (constraints : pyval) (st : batch * option pydict)
    (row : block_group_row) (text : string) :
  wkb_geometry row = Some text ->
  exists properties after,
    block_group_properties row = Ok properties
    /\ dict_lookup "ct_block_group" properties
       = Some (VStr (py_str (ctblockgroup row)))
    /\ block_group_step constraints st row = ((after, Some properties), Ok tt).
Proof.
  intros Hgeometry. unfold block_group_step, block_group_properties.
  rewrite Hgeometry. cbn [bind].
  eexists. destruct (try_block_group _ _ _) as [g [[]|e]]; eauto.
Qed.

(** A block group without geometry is recorded under the key of the row
    before it, with the attribute error as its message; nothing is
    written or counted for it and the run goes on. *)
Theorem missing_geometry_is_reported_under_the_previous_key (g : graph)
    (constraints : pyval) (earlier : list block_group_row)
    (previous failing : block_group_row) (text : string) :
  wkb_geometry previous = Some text ->
  wkb_geometry failing = None ->
  let before := create_block_group_nodes g constraints (earlier ++ [previous]) in
  let after :=
    create_block_group_nodes g constraints (earlier ++ [previous; failing]) in
  before.2 = Ok tt ->
  after.2 = Ok tt
  /\ store after.1 = store before.1
  /\ success_count after.1 = success_count before.1
  /\ failed_instances after.1
     = failed_instances before.1
       ++ [[("ct_block_group", VStr (py_str (ctblockgroup previous)));
            ("error", VStr "'NoneType' object has no attribute 'wkt'")]].
Proof.
  intros Hprevious Hfailing. cbv zeta. unfold create_block_group_nodes.
  change [previous; failing] with ([previous] ++ [failing]).
  rewrite app_assoc, (block_groups_loop_app _ _ (earlier ++ [previous])).
  rewrite (block_groups_loop_app _ _ earlier).
  destruct (block_groups_loop constraints _ earlier) as [st [[]|e]]; [|done].
  cbn [block_groups_loop].
  destruct (block_group_step_remembers constraints st previous text Hprevious)
    as (properties & done & _ & Hkey & ->).
  intros _. unfold block_group_step, block_group_properties.
  rewrite Hfailing. cbn [bind no_attribute raise snd fst]. rewrite Hkey.
  by repeat split.
Qed.

(** When the first block group has no geometry, the handler reads
    [properties] before it was assigned: the run ends with that error
    after initialising the layer, and no row is processed. *)
Theorem missing_geometry_on_the_first_row_ends_the_run (g : graph)
    (constraints : pyval) (failing : block_group_row)
    (rest : list block_group_row) :
  wkb_geometry failing = None ->
  create_block_group_nodes g constraints (failing :: rest)
  = (mk_batch (Spatial.init_wkt_layer g "block_group_layer" "wkt").1 0 [],
     Construction.unbound_local "properties").
Proof.
  intros Hfailing. unfold create_block_group_nodes. cbn [block_groups_loop].
  unfold block_group_step, block_group_properties. by rewrite Hfailing.
Qed.

End BlockGroupRows.

(** A block group without geometry after one with the unit square. *)
Lemma missing_geometry_is_reported_under_the_previous_key_witness :
  let after :=
    BlockGroups.create_block_group_nodes empty_graph TopologyExample.schema
      [TopologyExample.with_geometry; TopologyExample.without_geometry] in
  after.2 = Ok tt
  /\ success_count after.1 = 1
  /\ failed_instances after.1
     = [[("ct_block_group", VStr "10001");
         ("error", VStr "'NoneType' object has no attribute 'wkt'")]].
Proof.
  destruct (missing_geometry_is_reported_under_the_previous_key empty_graph
              TopologyExample.schema [] TopologyExample.with_geometry
              TopologyExample.without_geometry square_wkt)
    as (Hok & _ & Hcount & Hfailed).
  - reflexivity.
  - reflexivity.
  - by vm_compute.
  - split; [exact Hok |]. split.
    + refine (eq_trans Hcount _). by vm_compute.
    + refine (eq_trans Hfailed _). by vm_compute.
Defined.

(** The block group without geometry as the first row. *)
Lemma missing_geometry_on_the_first_row_ends_the_run_witness :
  (BlockGroups.create_block_group_nodes empty_graph TopologyExample.schema
     [TopologyExample.without_geometry; TopologyExample.with_geometry]).2
  = raise Exception
      "cannot access local variable 'properties' where it is not associated with a value".
Proof.
  refine (f_equal snd
            (missing_geometry_on_the_first_row_ends_the_run empty_graph
               TopologyExample.schema TopologyExample.without_geometry
               [TopologyExample.with_geometry] _)).
  reflexivity.
Defined.

(** ** The relationship builders (etl/administrative_topology.py) *)

Section RelationshipBuilders.
Context `{Builtins}.
Import AdministrativeTopology.

Lemma row_cell_present (row : pydict) (column : string) (v : pyval) :
  dict_lookup column row = Some v -> row_cell row column = Ok v.
Proof. intros Hv. unfold row_cell, py_getitem. by rewrite Hv. Qed.

(** With its [id] column a row never takes the handler: every item is
    counted, and the store is what the upserts made of it. *)
Lemma loop_attempt (owner owner_key name_column owner_failure_key : string)
    (row : pydict) (id : pyval) (kind : link_kind) (items : list pyval)
    (st : batch) :
  dict_lookup "id" row = Some id ->
  loop (attempt owner owner_key name_column owner_failure_key row kind) st items
  = (mk_batch (foldl (attempted owner owner_key id kind) (store st) items)
       (success_count st + Z.of_nat (length items)) (failed_instances st),
     Ok tt).
Proof.
  intros Hid. revert st. induction items as [|item items IH]; intros st.
  - cbn [loop foldl length]. rewrite Z.add_0_r. by destruct st.
  - cbn [loop foldl length]. unfold attempt at 1.
    rewrite (row_cell_present _ _ _ Hid).
    unfold attempted at 2.
    destruct (Construction.create_relationship _ _ _ _ _ _ _ _ _) as [g ?].
    rewrite IH. cbn [store success_count failed_instances fst]. do 2 f_equal.
    lia.
Qed.

Lemma for_listed_attempt (owner owner_key name_column owner_failure_key : string)
    (row : pydict) (id cell : pyval) (column : string)
    (kind : pyval -> link_kind) (st : batch) :
  dict_lookup "id" row = Some id ->
  dict_lookup column row = Some cell ->
  for_listed row column
    (fun cell => attempt owner owner_key name_column owner_failure_key row (kind cell)) st
  = (mk_batch (foldl (attempted owner owner_key id (kind cell)) (store st) (listed cell))
       (success_count st + Z.of_nat (length (listed cell))) (failed_instances st),
     Ok tt).
Proof.
  intros Hid Hcell. unfold for_listed. rewrite (row_cell_present _ _ _ Hcell).
  assert (forall st : batch,
            (st, Ok tt)
            = (mk_batch (store st) (success_count st + 0) (failed_instances st),
               Ok tt : result unit)) as Hnone.
  { intros []. simpl. by rewrite Z.add_0_r. }
  destruct cell as [| | | | |[|x l]|]; try apply Hnone.
  by rewrite (loop_attempt _ _ _ _ _ id).
Qed.

Lemma attempted_nodes (owner owner_key : string) (id : pyval) (kind : link_kind)
    (items : list pyval) (g : graph) :
  nodes (foldl (attempted owner owner_key id kind) g items) = nodes g.
Proof.
  revert g. induction items as [|item items IH]; intros g; [done |].
  cbn [foldl]. rewrite IH. apply create_relationship_nodes.
Qed.

Lemma attempted_without_owner (owner owner_key : string) (id : pyval)
    (kind : link_kind) (items : list pyval) (g : graph) :
  (forall n, n ∈ nodes g -> node_label n <> owner) ->
  foldl (attempted owner owner_key id kind) g items = g.
Proof.
  intros Hnone. induction items as [|item items IH]; [done |].
  cbn [foldl]. unfold attempted at 2.
  rewrite create_relationship_without_endpoint by (by left). apply IH.
Qed.

Lemma city_relationships_step_counts (st : batch) (row : pydict) :
  is_Some (dict_lookup "id" row) ->
  Forall (fun column => is_Some (dict_lookup column row)) city_link_columns ->
  exists g,
    city_relationships_step st row
    = (mk_batch g
         (success_count st + Z.of_nat (links_listed city_link_columns row))
         (failed_instances st), Ok tt)
    /\ nodes g = nodes (store st)
    /\ ((forall n, n ∈ nodes (store st) -> node_label n <> "City") -> g = store st).
Proof.
  intros [id Hid] Hcolumns.
  apply Forall_cons in Hcolumns as [[c1 H1] Hcolumns].
  apply Forall_cons in Hcolumns as [[c2 H2] Hcolumns].
  apply Forall_cons in Hcolumns as [[c3 H3] Hcolumns].
  apply Forall_cons in Hcolumns as [[c4 H4] Hcolumns].
  apply Forall_cons in Hcolumns as [[c5 H5] Hcolumns].
  apply Forall_cons in Hcolumns as [[c6 H6] _].
  unfold city_relationships_step.
  rewrite (for_listed_attempt _ _ _ _ _ id c1 _ _ _ Hid H1). cbn [and_then].
  rewrite (for_listed_attempt _ _ _ _ _ id c2 _ (fun _ => _) _ Hid H2). cbn [and_then].
  rewrite (for_listed_attempt _ _ _ _ _ id c3 _ (fun _ => _) _ Hid H3). cbn [and_then].
  rewrite (for_listed_attempt _ _ _ _ _ id c4 _ (fun _ => _) _ Hid H4). cbn [and_then].
  rewrite (for_listed_attempt _ _ _ _ _ id c5 _ (fun _ => _) _ Hid H5). cbn [and_then].
  rewrite (for_listed_attempt _ _ _ _ _ id c6 _ (fun _ => _) _ Hid H6).
  cbn [store success_count failed_instances].
  eexists. split; [|split].
  - f_equal. f_equal. unfold links_listed, city_link_columns, dict_get.
    cbn [foldr]. rewrite H1, H2, H3, H4, H5, H6. lia.
  - by rewrite !attempted_nodes.
  - intros Hnone.
    by do 6 rewrite (attempted_without_owner _ _ _ _ _ (store st)) by exact Hnone.
Qed.

End RelationshipBuilders.

Section CityRelationships.
Context `{Builtins}.
Import AdministrativeTopology.

(** [create_city_relationships] counts one success for every item a row
    lists in its six list columns, whether or not the upsert found its
    endpoints, and records no failure.  It creates no node, and writes
    nothing when the store has no [City] node. *)
Theorem city_relationships_count_every_listed_item (g : graph) (df : list pydict) :
  Forall (fun row => is_Some (dict_lookup "id" row)
                     /\ Forall (fun column => is_Some (dict_lookup column row))
                          city_link_columns) df ->
  let run := create_city_relationships g df in
  run.2 = Ok tt
  /\ success_count run.1
     = Z.of_nat (foldr (fun row total => (links_listed city_link_columns row + total)%nat)
                   0%nat df)
  /\ failed_instances run.1 = []
  /\ nodes (store run.1) = nodes g
  /\ ((forall n, n ∈ nodes g -> node_label n <> "City") -> store run.1 = g).
Proof.
  intros Hdf. unfold create_city_relationships.
  assert (forall st : batch,
            let run := loop city_relationships_step st df in
            run.2 = Ok tt
            /\ success_count run.1
               = success_count st
                 + Z.of_nat (foldr (fun row total =>
                                      (links_listed city_link_columns row + total)%nat)
                               0%nat df)
            /\ failed_instances run.1 = failed_instances st
            /\ nodes (store run.1) = nodes (store st)
            /\ ((forall n, n ∈ nodes (store st) -> node_label n <> "City") ->
                store run.1 = store st)) as Hloop.
  { induction Hdf as [|row df [Hid Hcolumns] _ IH]; intros st.
    - cbn. split_and!; auto. lia.
    - cbn [loop foldr].
      destruct (city_relationships_step_counts st row Hid Hcolumns)
        as (g1 & -> & Hnodes & Hstore).
      cbv zeta in IH. destruct (IH (mk_batch g1
                                      (success_count st
                                       + Z.of_nat (links_listed city_link_columns row))
                                      (failed_instances st)))
        as (Hend & Hcount & Hfailed & Hnodes' & Hstore').
      cbn [store success_count failed_instances] in *.
      split_and!; auto.
      + rewrite Hcount. lia.
      + by rewrite Hnodes'.
      + intros Hnone. rewrite Hstore'; [by apply Hstore |].
        intros n Hn. apply Hnone. by rewrite <- Hnodes. }
  destruct (Hloop (mk_batch g 0 [])) as (Hend & Hcount & Hfailed & Hnodes & Hstore).
  split_and!; auto.
Qed.

End CityRelationships.

(** The row of Lemon Grove lists four items; the store holds no city. *)
Lemma city_relationships_count_every_listed_item_witness :
  let run :=
    AdministrativeTopology.create_city_relationships TopologyExample.g0
      [TopologyExample.lemon_grove_row] in
  run.2 = Ok tt /\ success_count run.1 = 4 /\ failed_instances run.1 = []
  /\ store run.1 = TopologyExample.g0.
Proof.
  destruct (city_relationships_count_every_listed_item TopologyExample.g0
              [TopologyExample.lemon_grove_row])
    as (Hok & Hcount & Hfailed & _ & Hstore).
  - repeat constructor; by eexists.
  - split; [exact Hok |]. split; [exact Hcount |]. split; [exact Hfailed |].
    apply Hstore. intros n Hn. cbn [nodes TopologyExample.g0] in Hn.
    repeat (apply elem_of_cons in Hn as [-> | Hn]; [discriminate |]).
    destruct (proj1 (elem_of_nil n) Hn).
Defined.

Section NeighborhoodRelationships.
Context `{Builtins}.
Import AdministrativeTopology.

(** The upsert of a relationship builder, spelled out: its rows exist, and
    its relationships are the merge over them. *)
Lemma attempted_rels (owner owner_key : string) (id : pyval) (kind : link_kind)
    (g : graph) (item : pyval) :
  Cypher.settable (default [] (link_properties kind)) = true ->
  exists rows,
    Construction.endpoint_rows g
      owner [(owner_key, VStr (py_str id))] [owner_key]
      (end_label kind) [(end_key kind, VStr (py_str item))] [end_key kind]
      "rel_properties" (VDict (default [] (link_properties kind))) = Ok rows
    /\ nodes (attempted owner owner_key id kind g item) = nodes g
    /\ rels (attempted owner owner_key id kind g item)
       = foldl (Cypher.merge_rel (link_type kind) (default [] (link_properties kind)))
           (rels g) rows.
Proof.
  intros Hsettable. unfold attempted, Construction.create_relationship.
  destruct (Construction.endpoint_rows _ _ _ _ _ _ _ _ _) as [rows|] eqn:Erows.
  - exists rows. rewrite Hsettable. by repeat split.
  - exfalso. revert Erows. unfold Construction.endpoint_rows. simpl.
    by rewrite !String.eqb_refl.
Qed.

Lemma attempted_other_type (owner owner_key : string) (id : pyval)
    (kind : link_kind) (a b : nat) (T : string) (items : list pyval) (g : graph) :
  link_type kind <> T ->
  Cypher.rels_between a T b (rels (foldl (attempted owner owner_key id kind) g items))
  = Cypher.rels_between a T b (rels g).
Proof.
  intros Htype. revert g. induction items as [|item items IH]; intros g; [done |].
  cbn [foldl]. rewrite IH. unfold attempted, Construction.create_relationship.
  destruct (Construction.endpoint_rows _ _ _ _ _ _ _ _ _) as [rows|]; [|done].
  destruct (negb _); [done |]. cbn [fst rels].
  by apply merge_all_other.
Qed.

Lemma attempted_keeps (owner owner_key : string) (id : pyval) (kind : link_kind)
    (a b : nat) (d : pydict) (items : list pyval) (g : graph) :
  link_properties kind = Some d ->
  Cypher.settable d = true ->
  all_carry a (link_type kind) b d g ->
  all_carry a (link_type kind) b d (foldl (attempted owner owner_key id kind) g items).
Proof.
  intros Hd Hsettable. revert g.
  induction items as [|item items IH]; intros g Hg; [done |].
  cbn [foldl]. apply IH.
  destruct (attempted_rels owner owner_key id kind g item) as (rows & _ & _ & Hrels).
  { by rewrite Hd. }
  destruct Hg as [Hsome Hall]. unfold all_carry.
  rewrite Hrels, Hd. cbn [default from_option Datatypes.id]. by rewrite merge_all_stable.
Qed.

(** The rows of an upsert whose two patterns have one key each. *)
Lemma endpoint_rows_single (g : graph) (sl sk : string) (sv : pyval)
    (el ek : string) (ev : pyval) (name : string) (value : pyval) :
  sk <> ek -> sk <> name -> ek <> name ->
  Construction.endpoint_rows g sl [(sk, sv)] [sk] el [(ek, ev)] [ek] name value
  = Ok (Cypher.pairs
          (filter (fun n => Cypher.matches sl [sk]
                              [(sk, sv); (ek, ev); (name, value)] n) (nodes g))
          (filter (fun n => Cypher.matches el [ek]
                              [(sk, sv); (ek, ev); (name, value)] n) (nodes g))).
Proof.
  intros Hkeys Hs He. unfold Construction.endpoint_rows.
  cbn [dict_select dict_lookup dict_set bind]. rewrite !String.eqb_refl.
  cbn [dict_select dict_lookup dict_set bind].
  rewrite (proj2 (String.eqb_neq ek sk)) by done.
  cbn [dict_select dict_lookup dict_set bind].
  rewrite (proj2 (String.eqb_neq name sk)), (proj2 (String.eqb_neq name ek)) by done.
  done.
Qed.

Lemma matches_single (label k : string) (s : string) (params : pydict) (n : node) :
  dict_lookup k params = Some (VStr s) ->
  node_label n = label ->
  node_props n !! k = Some (VStr s) ->
  Cypher.matches label [k] params n = true.
Proof.
  intros Hparam Hlabel Hprop. unfold Cypher.matches. cbn [forallb].
  rewrite Hlabel, String.eqb_refl, Hprop, Hparam. cbn [Cypher.eqb Cypher.scalar_eqb].
  by rewrite String.eqb_refl.
Qed.

Lemma attempted_links (owner owner_key : string) (id : pyval) (kind : link_kind)
    (x y : node) (d : pydict) (item : pyval) (g : graph) :
  link_properties kind = Some d ->
  Cypher.settable d = true ->
  owner_key <> end_key kind ->
  owner_key <> "rel_properties" -> end_key kind <> "rel_properties" ->
  x ∈ nodes g -> node_label x = owner ->
  node_props x !! owner_key = Some (VStr (py_str id)) ->
  y ∈ nodes g -> node_label y = end_label kind ->
  node_props y !! end_key kind = Some (VStr (py_str item)) ->
  all_carry (node_id x) (link_type kind) (node_id y) d
    (attempted owner owner_key id kind g item).
Proof.
  intros Hd Hsettable Hkeys Hname Hname' Hx Hxl Hxk Hy Hyl Hyk.
  destruct (attempted_rels owner owner_key id kind g item) as (rows & Hrows & _ & Hrels).
  { by rewrite Hd. }
  assert ((node_id x, node_id y) ∈ rows) as Hin.
  { rewrite endpoint_rows_single in Hrows by done. injection Hrows as <-.
    apply elem_of_pairs; apply elem_of_filter_bool; (split; [|done]).
    - apply (matches_single _ _ (py_str id)); [|done..].
      cbn [dict_lookup]. by rewrite String.eqb_refl.
    - apply (matches_single _ _ (py_str item)); [|done..].
      cbn [dict_lookup]. rewrite (proj2 (String.eqb_neq (end_key kind) owner_key)) by done.
      by rewrite String.eqb_refl. }
  unfold all_carry. rewrite Hrels, Hd. cbn [default from_option Datatypes.id].
  destruct (merge_all_replaces (node_id x) (link_type kind) (node_id y) d rows
              (rels g) Hin) as [Hlen Hall].
  split; [|done]. intros Hnil. rewrite Hnil in Hlen. simpl in Hlen. lia.
Qed.

(** The zipcode loop of a row: once the item of the pair was visited, the
    pair is linked, by relationships that carry the loop's one property. *)
Lemma zipcode_loop_links (owner owner_key : string) (id : pyval) (cell : pyval)
    (x y : node) (items : list pyval) (z : pyval) (g : graph) :
  owner_key <> "zipcode_number" -> owner_key <> "rel_properties" ->
  z ∈ items ->
  x ∈ nodes g -> node_label x = owner ->
  node_props x !! owner_key = Some (VStr (py_str id)) ->
  y ∈ nodes g -> node_label y = "Zipcode" ->
  node_props y !! "zipcode_number" = Some (VStr (py_str z)) ->
  all_carry (node_id x) "IS_WITHIN" (node_id y)
    [("containment_type", VStr (containment_by_count cell))]
    (foldl (attempted owner owner_key id (within_zipcode cell)) g items).
Proof.
  intros Hkey Hname Hz Hx Hxl Hxk Hy Hyl Hyk.
  apply list_elem_of_split in Hz as (before & after & ->).
  rewrite foldl_app. cbn [foldl].
  apply (attempted_keeps _ _ _ (within_zipcode cell)); [done | done |].
  apply (attempted_links _ _ _ (within_zipcode cell)); try done;
    by rewrite attempted_nodes.
Qed.

(** The containment of a neighborhood in its zipcodes goes by their
    number: after the row of a neighborhood, every [IS_WITHIN]
    relationship between its node and the node of one of its zipcodes
    carries [Full] when the row lists one zipcode and [Partial]
    otherwise, and nothing else. *)
Theorem neighborhood_zipcode_containment_goes_by_count (st : batch)
    (row : pydict) (id : pyval) (zipcodes : list pyval) (z : pyval) (x y : node) :
  dict_lookup "id" row = Some id ->
  dict_lookup "zipcodes" row = Some (VList zipcodes) ->
  Forall (fun column => is_Some (dict_lookup column row)) neighborhood_link_columns ->
  z ∈ zipcodes ->
  x ∈ nodes (store st) -> node_label x = "Neighborhood" ->
  node_props x !! "neighborhood_id" = Some (VStr (py_str id)) ->
  y ∈ nodes (store st) -> node_label y = "Zipcode" ->
  node_props y !! "zipcode_number" = Some (VStr (py_str z)) ->
  let after := (neighborhood_relationships_step st row).1 in
  let within :=
    Cypher.rels_between (node_id x) "IS_WITHIN" (node_id y) (rels (store after)) in
  within <> []
  /\ Forall (fun r => rel_props r
                      = {[ "containment_type" :=
                             VStr (if decide (length zipcodes = 1%nat)
                                   then "Full" else "Partial") ]}) within.
Proof.
  intros Hid Hzip Hcolumns Hz Hx Hxl Hxk Hy Hyl Hyk.
  apply Forall_cons in Hcolumns as [_ Hcolumns].
  apply Forall_cons in Hcolumns as [[c2 H2] Hcolumns].
  apply Forall_cons in Hcolumns as [[c3 H3] Hcolumns].
  apply Forall_cons in Hcolumns as [[c4 H4] Hcolumns].
  apply Forall_cons in Hcolumns as [[c5 H5] _].
  cbv zeta. unfold neighborhood_relationships_step.
  rewrite (for_listed_attempt _ _ _ _ _ id _ _ _ _ Hid Hzip). cbn [and_then].
  rewrite (for_listed_attempt _ _ _ _ _ id c2 _ (fun _ => _) _ Hid H2). cbn [and_then].
  rewrite (for_listed_attempt _ _ _ _ _ id c3 _ (fun _ => _) _ Hid H3). cbn [and_then].
  rewrite (for_listed_attempt _ _ _ _ _ id c4 _ (fun _ => _) _ Hid H4). cbn [and_then].
  rewrite (for_listed_attempt _ _ _ _ _ id c5 _ (fun _ => _) _ Hid H5).
  cbn [store fst listed].
  rewrite !attempted_other_type by done.
  destruct (zipcode_loop_links "Neighborhood" "neighborhood_id" id (VList zipcodes)
              x y zipcodes z (store st)) as [Hsome Hall]; try done.
  split; [done |].
  eapply Forall_impl; [exact Hall |]. intros r ->. cbn.
  unfold Cypher.set_replace, Cypher.set_add, Cypher.set_prop. cbn.
  rewrite insert_empty. do 2 f_equal.
  by destruct zipcodes as [|? [|? ?]].
Qed.

End NeighborhoodRelationships.

(** Oak Park lists two zipcodes: its edge to 92105 is a partial one. *)
Lemma neighborhood_zipcode_containment_goes_by_count_witness :
  let after :=
    (AdministrativeTopology.neighborhood_relationships_step
       (mk_batch TopologyExample.g0 0 []) TopologyExample.oak_park_row).1 in
  let within := Cypher.rels_between 0 "IS_WITHIN" 1 (rels (store after)) in
  within <> []
  /\ Forall (fun r => rel_props r = {[ "containment_type" := VStr "Partial" ]}) within.
Proof.
  apply (neighborhood_zipcode_containment_goes_by_count
           (mk_batch TopologyExample.g0 0 []) TopologyExample.oak_park_row
           (VInt 7) [VStr "92105"; VStr "92102"] (VStr "92105")
           TopologyExample.oak_park TopologyExample.zipcode_92105);
    try reflexivity.
  - repeat constructor; by eexists.
  - left.
  - left.
  - right. left.
Defined.

Section NodeBuilders.
Context `{Builtins}.
Import AdministrativeTopology.

(** A node upsert on one string key with storable properties goes through:
    it returns a node that carries the key. *)
Lemma create_node_succeeds (g : graph) (label : string) (properties : pydict)
    (key s : string) :
  dict_lookup key properties = Some (VStr s) ->
  key <> "remaining_props" ->
  Forall (fun kv => Cypher.storable kv.2 = true) properties ->
  exists g' n,
    Construction.create_node g label properties (Some [key]) = (g', Some n)
    /\ node_props n !! key = Some (VStr s)
    /\ rels g' = rels g /\ layers g' = layers g.
Proof.
  intros Hkey Hname Hstorable. unfold Construction.create_node.
  cbn [dict_select]. rewrite Hkey. cbn [dict_set dict_select dict_keys map fst].
  rewrite (proj2 (String.eqb_neq "remaining_props" key)) by done.
  cbn [omap list_omap dict_lookup]. rewrite String.eqb_refl.
  cbn [fmap option_fmap option_map forallb snd Cypher.storable Cypher.scalar andb].
  set (remaining_props := filter (fun kv : string * pyval => kv.1 ∉ [key]) properties).
  assert (Cypher.settable remaining_props = true) as ->.
  { apply forallb_forall. intros kv Hkv%list_elem_of_In.
    apply list_elem_of_filter in Hkv as [_ Hkv].
    rewrite Forall_forall in Hstorable. rewrite (Hstorable kv Hkv).
    apply orb_true_r. }
  cbn [negb].
  assert (dict_lookup key remaining_props = None) as Hremaining.
  { apply dict_lookup_filter_keys. by left. }
  match goal with |- context [filter ?p (nodes g)] =>
    destruct (filter p (nodes g)) as [|found rest] eqn:Efound end.
  - do 2 eexists. split; [reflexivity |]. split; [|done].
    cbn [node_props]. rewrite set_add_absent by done.
    cbn [list_to_map foldr]. by rewrite lookup_insert_eq.
  - do 2 eexists. split; [reflexivity |]. split; [|done].
    cbn [node_props]. rewrite set_add_absent by done.
    assert (found ∈ filter (fun n => Cypher.matches label [key]
                              [(key, VStr s); ("remaining_props", VDict remaining_props)] n)
                       (nodes g)) as Hin by (rewrite Efound; left).
    apply elem_of_filter_bool in Hin as [Hhit _].
    unfold Cypher.matches in Hhit. cbn [forallb dict_lookup] in Hhit.
    rewrite String.eqb_refl in Hhit.
    destruct (node_props found !! key) as [v|]; [|by rewrite andb_false_r in Hhit].
    apply andb_true_iff in Hhit as [_ Hhit]. rewrite andb_true_r in Hhit.
    by apply cypher_eqb_str in Hhit as ->.
Qed.

Lemma city_properties_storable (row properties : pydict) :
  city_properties row = Ok properties ->
  (exists s, dict_lookup "city_id" properties = Some (VStr s))
  /\ Forall (fun kv => Cypher.storable kv.2 = true) properties.
Proof.
  unfold city_properties. intros Hp. repeat bind_inv Hp. injection Hp as <-.
  split; [by eexists |]. by repeat constructor.
Qed.

(** A city row that passes validation always yields its node. *)
Lemma try_plain_city (constraints : pyval) (g : graph) (row properties : pydict) :
  city_properties row = Ok properties ->
  exists g',
    rels g' = rels g /\ layers g' = layers g
    /\ try_plain constraints g "City" properties "city_id"
       = match Validation.validate_data (mk_entity "City" properties) constraints false with
         | Ok _ => (g', Ok tt)
         | Raise e => (g, Raise e)
         end.
Proof.
  intros Hp. destruct (city_properties_storable row properties Hp) as [[s Hs] Hstorable].
  destruct (create_node_succeeds g "City" properties "city_id" s Hs)
    as (g' & n & Hcreate & Hn & Hrels & Hlayers); [done | done |].
  exists g'. split; [done |]. split; [done |]. unfold try_plain. rewrite Hcreate.
  destruct (Validation.validate_data _ _ _); [|done].
  unfold Construction.handle_truthy. rewrite bool_decide_eq_true_2; [done |].
  intros Hempty. by rewrite Hempty in Hn.
Qed.

Lemma city_step_result (constraints : pyval) (st : batch) (row properties : pydict) :
  city_properties row = Ok properties ->
  exists g',
    rels g' = rels (store st) /\ layers g' = layers (store st)
    /\ city_step constraints st row
       = match Validation.validate_data (mk_entity "City" properties) constraints false with
         | Ok _ =>
             (mk_batch g' (success_count st + 1) (failed_instances st), Ok tt)
         | Raise e =>
             (mk_batch (store st) (success_count st)
                (failed_instances st
                 ++ [[("city", default (VStr "") (dict_lookup "city_name" properties));
                      ("error", VStr (exn_msg e))]]),
              Ok tt)
         end.
Proof.
  intros Ep. unfold city_step. rewrite Ep.
  destruct (try_plain_city constraints (store st) row properties Ep)
    as (g' & Hrels & Hlayers & ->).
  exists g'. split; [done |]. split; [done |].
  by destruct (Validation.validate_data _ _ _).
Qed.

(** A city row with its five columns fails only in validation: the
    failure entries are those of the rows that validation rejects, in
    order, every other row is counted, and no relationship or layer is
    touched. *)
Theorem city_rows_fail_on_validation_only (g : graph) (constraints : pyval)
    (df : list pydict) :
  Forall (fun row => is_ok (city_properties row) = true) df ->
  let run := create_city_nodes g constraints df in
  run.2 = Ok tt
  /\ failed_instances run.1 = omap (city_failure constraints) df
  /\ success_count run.1
     = Z.of_nat (length df) - Z.of_nat (length (omap (city_failure constraints) df))
  /\ rels (store run.1) = rels g /\ layers (store run.1) = layers g.
Proof.
  intros Hdf. unfold create_city_nodes.
  assert (forall st : batch,
            let run := loop (city_step constraints) st df in
            run.2 = Ok tt
            /\ failed_instances run.1
               = failed_instances st ++ omap (city_failure constraints) df
            /\ success_count run.1
               = success_count st + Z.of_nat (length df)
                 - Z.of_nat (length (omap (city_failure constraints) df))
            /\ rels (store run.1) = rels (store st)
            /\ layers (store run.1) = layers (store st)) as Hloop.
  { induction Hdf as [|row df Hrow _ IH]; intros st.
    - cbn. rewrite app_nil_r. split_and!; auto. lia.
    - assert (omap (city_failure constraints) (row :: df)
              = match city_failure constraints row with
                | Some entry => entry :: omap (city_failure constraints) df
                | None => omap (city_failure constraints) df
                end) as -> by done.
      cbn [loop length].
      destruct (city_properties row) as [properties|] eqn:Ep; [|done].
      destruct (city_step_result constraints st row properties Ep)
        as (g' & Hrels & Hlayers & ->).
      destruct (Validation.validate_data _ _ _) as [[]|e] eqn:Ev.
      + assert (city_failure constraints row = None) as ->.
        { unfold city_failure. by rewrite Ep, Ev. }
        cbv zeta in IH.
        destruct (IH (mk_batch g' (success_count st + 1) (failed_instances st)))
          as (Hend & Hfailed & Hcount & Hrels' & Hlayers').
        cbn [store success_count failed_instances] in *.
        split; [exact Hend |]. split; [exact Hfailed |].
        split; [rewrite Hcount, Nat2Z.inj_succ; lia |].
        split; [by rewrite Hrels' | by rewrite Hlayers'].
      + assert (city_failure constraints row
                = Some [("city", default (VStr "") (dict_lookup "city_name" properties));
                        ("error", VStr (exn_msg e))]) as ->.
        { unfold city_failure. by rewrite Ep, Ev. }
        cbv zeta in IH.
        destruct (IH (mk_batch (store st) (success_count st)
                        (failed_instances st
                         ++ [[("city", default (VStr "")
                                         (dict_lookup "city_name" properties));
                              ("error", VStr (exn_msg e))]])))
          as (Hend & Hfailed & Hcount & Hrels' & Hlayers').
        cbn [store success_count failed_instances] in *.
        split; [exact Hend |]. split; [by rewrite Hfailed, <- app_assoc |].
        split; [rewrite Hcount; cbn [length]; rewrite !Nat2Z.inj_succ; lia |].
        by split. }
  destruct (Hloop (mk_batch g 0 [])) as (Hend & Hfailed & Hcount & Hrels & Hlayers).
  split_and!; auto.
Qed.

End NodeBuilders.

(** The row of Lemon Grove against a schema that declares its columns. *)
Lemma city_rows_fail_on_validation_only_witness :
  let run :=
    AdministrativeTopology.create_city_nodes empty_graph TopologyExample.schema
      [TopologyExample.lemon_grove_row] in
  run.2 = Ok tt /\ failed_instances run.1 = [] /\ success_count run.1 = 1.
Proof.
  destruct (city_rows_fail_on_validation_only empty_graph TopologyExample.schema
              [TopologyExample.lemon_grove_row])
    as (Hok & Hfailed & Hcount & _).
  - repeat constructor.
  - split; [exact Hok |]. split.
    + refine (eq_trans Hfailed _). by vm_compute.
    + refine (eq_trans Hcount _). by vm_compute.
Defined.

Section NeighborhoodNodes.
Context `{Builtins}.
Import AdministrativeTopology.

Lemma create_node_rels_layers (g : graph) (label : string) (properties : pydict)
    (match_keys : option (list string)) :
  rels (Construction.create_node g label properties match_keys).1 = rels g
  /\ layers (Construction.create_node g label properties match_keys).1 = layers g.
Proof.
  unfold Construction.create_node.
  destruct match_keys as [keys|]; [|done].
  destruct (dict_select keys properties []) as [merge_props|]; [|done].
  match goal with |- context [negb ?c] => destruct c end; [|done].
  cbn [negb].
  by match goal with |- context [filter ?p (nodes g)] =>
    destruct (filter p (nodes g)) as [|found rest] end.
Qed.

Lemma try_plain_rels_layers (constraints : pyval) (g : graph) (label : string)
    (properties : pydict) (key : string) :
  rels (try_plain constraints g label properties key).1 = rels g
  /\ layers (try_plain constraints g label properties key).1 = layers g.
Proof.
  unfold try_plain. destruct (Validation.validate_data _ _ _); [|done].
  pose proof (create_node_rels_layers g label properties (Some [key])) as Hcreate.
  destruct (Construction.create_node g label properties (Some [key])) as [g1 [n|]];
    [|done].
  by destruct (negb _).
Qed.

Lemma neighborhood_step_result (constraints : pyval) (st : batch) (row : pydict) :
  is_ok (neighborhood_properties row) = true ->
  exists after,
    neighborhood_step constraints st row = (after, Ok tt)
    /\ success_count after + Z.of_nat (length (failed_instances after))
       = success_count st + Z.of_nat (length (failed_instances st)) + 1
    /\ rels (store after) = rels (store st)
    /\ layers (store after) = layers (store st).
Proof.
  intros Hrow. unfold neighborhood_step.
  destruct (neighborhood_properties row) as [properties|]; [|done].
  destruct (try_plain_rels_layers constraints (store st) "Neighborhood"
              properties "neighborhood_id") as [Hrels Hlayers].
  destruct (try_plain _ _ _ _ _) as [g' [[]|e]]; cbn [fst] in *;
    eexists; (split; [reflexivity |]);
    cbn [store success_count failed_instances]; (split; [|done]).
  - lia.
  - rewrite length_app, Nat2Z.inj_add. cbn [length]. lia.
Qed.

(** Every neighborhood row with its two columns is either counted or
    listed as failed, and no relationship or layer is touched. *)
Theorem neighborhood_rows_are_counted_or_listed (g : graph) (constraints : pyval)
    (df : list pydict) :
  Forall (fun row => is_ok (neighborhood_properties row) = true) df ->
  let run := create_neighborhood_nodes g constraints df in
  run.2 = Ok tt
  /\ success_count run.1 + Z.of_nat (length (failed_instances run.1))
     = Z.of_nat (length df)
  /\ rels (store run.1) = rels g /\ layers (store run.1) = layers g.
Proof.
  intros Hdf. unfold create_neighborhood_nodes.
  assert (forall st : batch,
            let run := loop (neighborhood_step constraints) st df in
            run.2 = Ok tt
            /\ success_count run.1 + Z.of_nat (length (failed_instances run.1))
               = success_count st + Z.of_nat (length (failed_instances st))
                 + Z.of_nat (length df)
            /\ rels (store run.1) = rels (store st)
            /\ layers (store run.1) = layers (store st)) as Hloop.
  { induction Hdf as [|row df Hrow _ IH]; intros st.
    - cbn. split_and!; auto. lia.
    - cbn [loop length].
      destruct (neighborhood_step_result constraints st row Hrow)
        as (after & -> & Hstep & Hrels & Hlayers).
      cbv zeta in IH. destruct (IH after) as (Hend & Hcount & Hrels' & Hlayers').
      split; [exact Hend |]. split; [rewrite Hcount, Hstep, Nat2Z.inj_succ; lia |].
      split; [by rewrite Hrels' | by rewrite Hlayers']. }
  destruct (Hloop (mk_batch g 0 [])) as (Hend & Hcount & Hrels & Hlayers).
  cbn [success_count failed_instances store length] in *.
  split; [exact Hend |]. split; [rewrite Hcount; lia |]. by split.
Qed.

End NeighborhoodNodes.

(** The row of Oak Park against a schema without its label: the row is
    listed. *)
Lemma neighborhood_rows_are_counted_or_listed_witness :
  let run :=
    AdministrativeTopology.create_neighborhood_nodes empty_graph Reference.schema
      [TopologyExample.oak_park_row] in
  run.2 = Ok tt
  /\ success_count run.1 + Z.of_nat (length (failed_instances run.1)) = 1.
Proof.
  destruct (neighborhood_rows_are_counted_or_listed empty_graph Reference.schema
              [TopologyExample.oak_park_row])
    as (Hok & Hcount & _).
  - repeat constructor.
  - split; [exact Hok | exact Hcount].
Defined.

(** ** The category nodes (etl/geoenrichment.py) *)

Lemma dict_select_succeeds (keys : list string) (d acc : pydict) :
  (forall k, k ∈ keys -> is_Some (dict_lookup k d)) ->
  is_ok (dict_select keys d acc) = true.
Proof.
  revert acc. induction keys as [|k keys IH]; intros acc Hkeys; [done |].
  cbn [dict_select]. destruct (Hkeys k) as [v ->]; [by left |].
  apply IH. intros k' Hk'. apply Hkeys. by right.
Qed.

Lemma dict_lookup_in (k : string) (v : pyval) (d : pydict) :
  NoDup (dict_keys d) -> (k, v) ∈ d -> dict_lookup k d = Some v.
Proof.
  unfold dict_keys. induction d as [|[k0 v0] d IH]; intros Hnodup Hin.
  - by apply elem_of_nil in Hin.
  - cbn [map fst] in Hnodup. apply NoDup_cons in Hnodup as [Hfresh Hnodup].
    cbn [dict_lookup]. apply elem_of_cons in Hin as [[= -> ->]|Hin].
    + by rewrite String.eqb_refl.
    + destruct (String.eqb_spec k k0) as [->|_]; [|by apply IH].
      exfalso. apply Hfresh. apply elem_of_map. by exists (k0, v).
Qed.

Lemma filter_all_keys (d : pydict) :
  filter (fun kv : string * pyval => kv.1 ∉ dict_keys d) d = [].
Proof.
  assert (forall l : pydict, (forall kv, kv ∈ l -> kv.1 ∈ dict_keys d) ->
            filter (fun kv : string * pyval => kv.1 ∉ dict_keys d) l = []) as Hall.
  { induction l as [|kv l IH]; intros Hl; [done |].
    rewrite filter_cons, decide_False by (intros Hout; apply Hout, Hl; left).
    apply IH. intros kv' Hkv'. apply Hl. by right. }
  apply Hall. intros kv Hkv. apply elem_of_map. by exists kv.
Qed.

Lemma node_eta (n : node) : mk_node (node_id n) (node_label n) (node_props n) = n.
Proof. by destruct n. Qed.

(** An upsert matched on every property only ever appends a node. *)
Lemma create_node_all_keys_appends (g : graph) (label : string) (properties : pydict) :
  exists extra,
    nodes (Construction.create_node g label properties (Some (dict_keys properties))).1
    = nodes g ++ extra.
Proof.
  unfold Construction.create_node.
  destruct (dict_select _ properties []) as [merge_props|];
    [|exists []; by rewrite app_nil_r].
  rewrite filter_all_keys.
  match goal with |- context [negb ?c] => destruct c end;
    [|exists []; by rewrite app_nil_r].
  cbn [negb].
  match goal with |- context [filter ?p (nodes g)] =>
    destruct (filter p (nodes g)) as [|found rest] end; cbn [fst nodes].
  - by eexists.
  - exists []. rewrite app_nil_r. apply map_id_on. intros x _.
    destruct (Cypher.matches _ _ _ x); [|done]. apply node_eta.
Qed.

(** With string values it goes through, and the node it returns carries
    them. *)
Lemma create_node_all_keys_carries (g : graph) (label : string) (properties : pydict) :
  NoDup (dict_keys properties) ->
  "remaining_props" ∉ dict_keys properties ->
  Forall (fun kv => exists s, kv.2 = VStr s) properties ->
  exists n,
    n ∈ nodes (Construction.create_node g label properties
                 (Some (dict_keys properties))).1
    /\ carries label properties n.
Proof.
  intros Hnodup Hname Hstrings.
  assert (forall k v, k ∈ dict_keys properties -> dict_lookup k properties = Some v ->
            exists s, v = VStr s) as Hstring.
  { intros k v _ Hv. apply dict_lookup_elem, list_elem_of_In in Hv.
    rewrite Forall_forall in Hstrings. by apply (Hstrings (k, v)). }
  assert (forall k v, k ∈ dict_keys properties -> dict_lookup k properties = Some v ->
            Cypher.eqb v v = true) as Hself.
  { intros k v Hk Hv. destruct (Hstring k v Hk Hv) as [s ->]. simpl.
    apply String.eqb_refl. }
  destruct (Construction.create_node g label properties (Some (dict_keys properties)))
    as [g' [n|]] eqn:Ecreate.
  - destruct (create_node_result g label properties (dict_keys properties) n Hself)
      as (Hmatch & Hin & _); [by rewrite Ecreate |].
    rewrite Ecreate in Hin. exists n. split; [done |].
    unfold Cypher.matches in Hmatch. apply andb_true_iff in Hmatch as [Hlabel Hprops].
    split; [by apply String.eqb_eq |]. intros k v Hkv.
    assert (k ∈ dict_keys properties) as Hk by (apply elem_of_map; by exists (k, v)).
    pose proof (forallb_elem _ _ k Hprops Hk) as Hk'. cbv beta in Hk'.
    rewrite (dict_lookup_in k v properties Hnodup Hkv) in Hk'.
    destruct (node_props n !! k) as [w|]; [|done].
    destruct (Hstring k v Hk (dict_lookup_in k v properties Hnodup Hkv)) as [s ->].
    by apply cypher_eqb_str in Hk' as ->.
  - exfalso. revert Ecreate. unfold Construction.create_node.
    pose proof (dict_select_succeeds (dict_keys properties) properties []) as Hselect.
    destruct (dict_select _ properties []) as [merge_props|] eqn:Eselect;
      [|by discriminate Hselect; intros k; apply dict_keys_lookup].
    rewrite filter_all_keys.
    assert (forallb (fun kv : string * pyval => Cypher.storable kv.2)
              (omap (fun k => pair k <$>
                              dict_lookup k (dict_set "remaining_props" (VDict [])
                                               merge_props))
                 (dict_keys merge_props)) = true) as ->.
    { apply forallb_forall. intros [k p] Hkp%list_elem_of_In.
      apply list_elem_of_omap in Hkp as (k' & Hk' & Hp).
      destruct (dict_lookup k' _) as [p'|] eqn:Ep; [|done]. injection Hp as <- <-.
      rewrite dict_lookup_set in Ep.
      assert (k' ∈ dict_keys properties) as Hin.
      { by apply (dict_select_keys _ _ _ _ Eselect). }
      destruct (String.eqb_spec k' "remaining_props") as [->|_]; [by destruct Hname |].
      rewrite (dict_select_lookup _ _ _ _ Eselect), decide_True in Ep by done.
      by destruct (Hstring k' p' Hin Ep) as [s ->]. }
    cbn [Cypher.settable forallb andb negb].
    by match goal with |- context [filter ?p (nodes g)] =>
      destruct (filter p (nodes g)) as [|found rest] end.
Qed.

Section CategoryNodes.
Import GeoEnrichment.

Lemma zip_keys_subseteq (names : list string) (combination : list pyval) :
  dict_keys (zip names combination) ⊆ names.
Proof.
  unfold dict_keys. revert combination.
  induction names as [|k names IH]; intros [|v combination]; cbn [zip zip_with map fst].
  1-3: by intros x Hx%elem_of_nil.
  intros x [->|Hx]%elem_of_cons; [by left |]. right. by eapply IH.
Qed.

Lemma zip_keys_NoDup (names : list string) (combination : list pyval) :
  NoDup names -> NoDup (dict_keys (zip names combination)).
Proof.
  unfold dict_keys. revert combination.
  induction names as [|k names IH]; intros [|v combination] Hnames;
    cbn [zip zip_with map fst]; try apply NoDup_nil_2.
  apply NoDup_cons in Hnames as [Hk Hnames]. apply NoDup_cons. split; [|by apply IH].
  intros Hin. apply Hk. by eapply zip_keys_subseteq.
Qed.

Lemma zip_strings (names : list string) (combination : list pyval) :
  Forall (fun v => exists s, v = VStr s) combination ->
  Forall (fun kv : string * pyval => exists s, kv.2 = VStr s) (zip names combination).
Proof.
  intros Hstrings. revert names.
  induction Hstrings as [|v combination Hv _ IH]; intros [|k names];
    cbn [zip zip_with]; try constructor; auto.
Qed.

Lemma category_step_appends (node_type : string) (names : list string)
    (st : batch) (combination : list pyval) :
  exists extra,
    nodes (store (category_step node_type names st combination))
    = nodes (store st) ++ extra.
Proof.
  unfold category_step.
  destruct (create_node_all_keys_appends (store st) node_type (zip names combination))
    as [extra Hextra].
  destruct (Construction.create_node _ _ _ _) as [g ?]. by exists extra.
Qed.

Lemma category_steps_append (node_type : string) (names : list string)
    (combinations : list (list pyval)) (st : batch) :
  exists extra,
    nodes (store (foldl (category_step node_type names) st combinations))
    = nodes (store st) ++ extra.
Proof.
  revert st. induction combinations as [|combination combinations IH]; intros st.
  - exists []. by rewrite app_nil_r.
  - cbn [foldl].
    destruct (IH (category_step node_type names st combination)) as [extra ->].
    destruct (category_step_appends node_type names st combination) as [extra' ->].
    exists (extra' ++ extra). by rewrite app_assoc.
Qed.

Lemma category_steps_count (node_type : string) (names : list string)
    (combinations : list (list pyval)) (st : batch) :
  success_count (foldl (category_step node_type names) st combinations)
  = success_count st + Z.of_nat (length combinations)
  /\ failed_instances (foldl (category_step node_type names) st combinations)
     = failed_instances st.
Proof.
  revert st. induction combinations as [|combination combinations IH]; intros st.
  - cbn. split; [lia | done].
  - cbn [foldl length]. destruct (IH (category_step node_type names st combination))
      as [-> ->].
    unfold category_step. destruct (Construction.create_node _ _ _ _) as [g ?].
    cbn [success_count failed_instances]. split; [lia | done].
Qed.

Lemma category_steps_carry (node_type : string) (names : list string)
    (combinations : list (list pyval)) (combination : list pyval) (st : batch) :
  NoDup names -> "remaining_props" ∉ names ->
  combination ∈ combinations ->
  Forall (fun v => exists s, v = VStr s) combination ->
  exists n,
    n ∈ nodes (store (foldl (category_step node_type names) st combinations))
    /\ carries node_type (zip names combination) n.
Proof.
  intros Hnames Hname Hin Hstrings.
  apply list_elem_of_split in Hin as (before & after & ->).
  rewrite foldl_app. cbn [foldl].
  set (st1 := foldl (category_step node_type names) st before).
  destruct (create_node_all_keys_carries (store st1) node_type (zip names combination))
    as (n & Hn & Hcarries).
  { by apply zip_keys_NoDup. }
  { intros Hin. by apply Hname, (zip_keys_subseteq names combination). }
  { by apply zip_strings. }
  destruct (category_steps_append node_type names after
              (category_step node_type names st1 combination)) as [extra ->].
  exists n. split; [|done]. apply elem_of_app. left.
  unfold category_step. by destruct (Construction.create_node _ _ _ _).
Qed.

Lemma product_strings (pools : list (list pyval)) (combination : list pyval) :
  Forall (Forall (fun v => exists s, v = VStr s)) pools ->
  combination ∈ product pools ->
  Forall (fun v => exists s, v = VStr s) combination.
Proof.
  intros Hpools. revert combination.
  induction Hpools as [|pool pools Hpool _ IH]; intros combination Hin.
  - cbn [product] in Hin. by apply list_elem_of_singleton in Hin as ->.
  - cbn [product] in Hin. apply list_elem_of_bind in Hin as (x & Hin & Hx).
    apply list_elem_of_bind in Hin as (rest & Hin & Hrest).
    apply list_elem_of_singleton in Hin as ->.
    constructor; [|by apply IH]. rewrite Forall_forall in Hpool. by apply Hpool.
Qed.

Lemma pools_of_strings (enums : list pyval) :
  Forall string_enum enums ->
  exists pools,
    pools_of enums = Ok pools
    /\ Forall (Forall (fun v => exists s, v = VStr s)) pools.
Proof.
  induction 1 as [|enum enums [values ->] _ (pools & Hpools & Hstrings)].
  - by exists [].
  - exists (map VStr values :: pools). cbn [pools_of py_iter bind]. rewrite Hpools.
    split; [done |]. constructor; [|done].
    apply Forall_forall. intros v (s & -> & _)%elem_of_map. by exists s.
Qed.

(** The loop over the node types: it completes, only appends nodes, and
    leaves a node for every combination of every type it went through. *)
Lemma categories_loop_carries (categories : list (string * pydict)) (st : batch) :
  Forall (fun c => NoDup (dict_keys c.2) /\ ("remaining_props" ∉ dict_keys c.2)
                   /\ Forall string_enum (map snd c.2)) categories ->
  let run := categories_loop st categories in
  run.2 = Ok tt
  /\ failed_instances run.1 = failed_instances st
  /\ (exists extra, nodes (store run.1) = nodes (store st) ++ extra)
  /\ forall node_type enum_properties pools combination,
       (node_type, enum_properties) ∈ categories ->
       pools_of (map snd enum_properties) = Ok pools ->
       combination ∈ product pools ->
       exists n, n ∈ nodes (store run.1)
                 /\ carries node_type (zip (dict_keys enum_properties) combination) n.
Proof.
  intros Hcategories. revert st.
  induction Hcategories as [|[node_type enum_properties] categories
                              (Hnames & Hname & Henums) _ IH]; intros st.
  - cbn. split_and!; auto.
    + exists []. by rewrite app_nil_r.
    + by intros ? ? ? ? ?%elem_of_nil.
  - cbn [categories_loop]. cbn [fst snd] in Hnames, Hname, Henums.
    destruct (pools_of_strings _ Henums) as (pools & Epools & Hstrings).
    rewrite Epools.
    set (st1 := foldl (category_step node_type (dict_keys enum_properties)) st
                  (product pools)).
    cbv zeta in IH. destruct (IH st1) as (Hend & Hfailed & [extra Hextra] & Hcarry).
    split; [exact Hend |]. split.
    { rewrite Hfailed. apply category_steps_count. }
    split.
    { destruct (category_steps_append node_type (dict_keys enum_properties)
                  (product pools) st) as [extra' Hextra'].
      exists (extra' ++ extra). fold st1 in Hextra'.
      by rewrite Hextra, Hextra', app_assoc. }
    intros node_type' enum_properties' pools' combination Hin Hpools Hcombination.
    apply elem_of_cons in Hin as [[= -> ->]|Hin]; [|by eapply Hcarry].
    cbn [fst snd] in *. assert (pools' = pools) as -> by congruence.
    destruct (category_steps_carry node_type (dict_keys enum_properties)
                (product pools) combination st Hnames Hname Hcombination)
      as (n & Hn & Hcarries).
    { by eapply product_strings. }
    exists n. split; [|done]. rewrite Hextra. apply elem_of_app. by left.
Qed.

(** For a schema whose category enumerations are lists of strings, the
    category builder ends without a failure and only appends nodes; every
    combination of values of every category type is then carried by a
    node of that type. *)
Theorem every_category_combination_gets_its_node (g : graph)
    (constraints node_constraints : pyval) (categories : list (string * pydict)) :
  py_getitem constraints "nodes" = Ok node_constraints ->
  enrichment_node_categories node_constraints = Ok categories ->
  Forall (fun c => Forall string_enum (map snd c.2)) categories ->
  let run := create_enrichment_nodes g constraints in
  run.2 = Ok tt
  /\ failed_instances run.1 = []
  /\ (exists extra, nodes (store run.1) = nodes g ++ extra)
  /\ forall node_type enum_properties pools combination,
       (node_type, enum_properties) ∈ categories ->
       pools_of (map snd enum_properties) = Ok pools ->
       combination ∈ product pools ->
       exists n, n ∈ nodes (store run.1)
                 /\ carries node_type (zip (dict_keys enum_properties) combination) n.
Proof.
  intros Hnodes Hcategories Henums. cbv zeta. unfold create_enrichment_nodes.
  rewrite Hnodes. cbn [bind]. rewrite Hcategories.
  apply (categories_loop_carries categories (mk_batch g 0 [])).
  unfold enrichment_node_categories in Hcategories.
  repeat bind_inv Hcategories. injection Hcategories as <-.
  repeat (apply Forall_cons in Henums as [? Henums]).
  repeat (constructor;
          [split; [|split; [|done]]; apply (bool_decide_unpack _); by vm_compute |]).
  constructor.
Qed.

End CategoryNodes.

(** The senior age group with a low representation has its node. *)
Lemma every_category_combination_gets_its_node_witness :
  let run := GeoEnrichment.create_enrichment_nodes empty_graph CategoryExample.schema in
  run.2 = Ok tt
  /\ failed_instances run.1 = []
  /\ exists n, n ∈ nodes (store run.1)
       /\ carries "AgeGroup" [("group", VStr "65+"); ("representation", VStr "LOW")] n.
Proof.
  destruct (every_category_combination_gets_its_node empty_graph
              CategoryExample.schema CategoryExample.node_constraints
              CategoryExample.categories)
    as (Hok & Hfailed & _ & Hnodes).
  - reflexivity.
  - reflexivity.
  - repeat constructor; eexists; reflexivity.
  - split; [exact Hok |]. split; [exact Hfailed |].
    apply (Hnodes "AgeGroup"
             [("group", CategoryExample.enum_values ["0-4"; "65+"]);
              ("representation", CategoryExample.enum_values CategoryExample.levels)]
             [[VStr "0-4"; VStr "65+"];
              [VStr "VERY_LOW"; VStr "LOW"; VStr "MODERATE"]]
             [VStr "65+"; VStr "LOW"]).
    + do 3 right. left.
    + reflexivity.
    + do 4 right. left.
Defined.
